(** * Flux gateway core: dispatcher, serve engine, registry events

    A shallow embedding of the request path and the control plane of the
    gateway ([server/dispatcher.go], [server/server.go], the dynamic
    filter loader and the factory registry), with the properties the
    specification states about them.

    Layout: Part I is the model (Go values as Rocq values, functions that
    touch shared state as state-passing functions that may panic); Part II
    holds the lemmas. *)

From stdpp Require Import base gmap strings list.
From Stdlib Require Import ZArith DecimalString.

Local Open Scope Z_scope.

(* ================================================================= *)
(** * Part I: the model *)
(* ================================================================= *)

(** ** Go control flow: results, panics, [defer] and [recover] *)

(** The value handed to [panic]: either an [error] or something else;
    [HandleEndpointRequest] tells the two apart with [r.(error)]. *)
Inductive PanicValue : Type :=
| PanicError (msg : string)
| PanicOther (v : string).

Inductive Outcome (A : Type) : Type :=
| Returned (a : A)
| Panicked (r : PanicValue).
Arguments Returned {A} a.
Arguments Panicked {A} r.

(** A Go function body over mutable state [S]: it leaves normally with a
    value or it is panicking, and in both cases the state it reached is
    visible to the deferred calls. *)
Definition Go (S A : Type) : Type := S -> Outcome A * S.

Definition go_ret {S A : Type} (a : A) : Go S A :=
  fun s => (Returned a, s).

Definition go_bind {S A B : Type} (m : Go S A) (k : A -> Go S B) : Go S B :=
  fun s =>
    match m s with
    | (Returned a, s1) => k a s1
    | (Panicked r, s1) => (Panicked r, s1)
    end.

Definition go_panic {S A : Type} (r : PanicValue) : Go S A :=
  fun s => (Panicked r, s).

Definition go_get {S : Type} : Go S S :=
  fun s => (Returned s, s).

Definition go_modify {S : Type} (f : S -> S) : Go S unit :=
  fun s => (Returned tt, f s).

Notation "'let*' x ':=' m 'in' k" := (go_bind m (fun x => k))
  (at level 10, x name, m at level 100, k at level 200).
Notation "'do*' m 'in' k" := (go_bind m (fun _ => k))
  (at level 10, m at level 100, k at level 200).

(** [defer f] followed by the rest of the function body: [f] runs when
    the body leaves, returning or panicking; a panic of [f] replaces the
    body's outcome. *)
Definition defer {S A : Type} (deferred : Go S unit) (body : Go S A) : Go S A :=
  fun s =>
    match body s with
    | (out, s1) =>
        match deferred s1 with
        | (Returned _, s2) => (out, s2)
        | (Panicked r, s2) => (Panicked r, s2)
        end
    end.

(** [defer func() { if r := recover(); r != nil { handler(r) } }()] in a
    function whose result is unnamed: after a recovered panic the function
    returns the zero value of its result type. *)
Definition defer_recover {S A : Type} (zero : A) (handler : PanicValue -> Go S unit)
    (body : Go S A) : Go S A :=
  fun s =>
    match body s with
    | (Returned a, s1) => (Returned a, s1)
    | (Panicked r, s1) =>
        match handler r s1 with
        | (Returned _, s2) => (Returned zero, s2)
        | (Panicked r', s2) => (Panicked r', s2)
        end
    end.

(** ** Errors *)

(** [http.Header]. *)
Abbreviation Header := (gmap string (list string)).

Definition StatusOK : Z := 200.
Definition StatusNotFound : Z := 404.
Definition StatusServerError : Z := 500.

(** [flux.ServeError]. [CauseError] and [Internal] are Go [error]s, kept
    by their text. *)
Record ServeError : Type := mkServeError {
  StatusCode : Z;
  ErrorCode : string;
  Message : string;
  ErrHeader : Header;
  CauseError : option string;
  Internal : option string;
}.

(** A Go [error] as the handlers return it: a [*flux.ServeError] or any
    other error. *)
Inductive GoError : Type :=
| ErrServe (e : ServeError)
| ErrOther (msg : string).

(** ** The filter chain ([Dispatcher.walk]) *)

Section FilterChain.
Context (W : Type).

(** [flux.FilterInvoker]: [func(ctx *flux.Context) *flux.ServeError]. *)
Definition FilterInvoker : Type := Go W (option ServeError).

(** [flux.Filter]. *)
Record Filter : Type := mkFilter {
  FilterId : string;
  DoFilter : FilterInvoker -> FilterInvoker;
}.

(** The loop of [walk] with [n = i + 1]:
    [for i := len(filters) - 1; i >= 0; i-- { next = filters[i].DoFilter(next) }]. *)
Fixpoint walk_loop (n : nat) (next : FilterInvoker) (filters : list Filter) : FilterInvoker :=
  match n with
  | O => next
  | S i =>
      match filters !! i with
      | Some f => walk_loop i (DoFilter f next) filters
      | None => go_panic (PanicError "index out of range")
      end
  end.

Definition walk (next : FilterInvoker) (filters : list Filter) : FilterInvoker :=
  walk_loop (length filters) next filters.

End FilterChain.

Arguments FilterId {W} _.
Arguments DoFilter {W} _ _.
Arguments mkFilter {W} _ _.
Arguments walk_loop {W} _ _ _.
Arguments walk {W} _ _.

(** ** Endpoint metadata ([flux.Endpoint], [flux.BackendService]) *)

(** [flux.Argument]; [Fields] nests arguments. The resolver and the
    lookup function are function values out of the extension registries,
    kept by the name they are registered under. *)
#[local] Unset Elimination Schemes.
Inductive Argument : Type :=
| MkArgument (Name Class HttpScope HttpKey : string) (Fields : list Argument)
    (ValueResolver LookupFunc : option string).
#[local] Set Elimination Schemes.

Record BackendService : Type := mkBackendService {
  ServiceId : string;
  AliasId : string;
  RpcProto : string;
  Interface : string;
  Method : string;
  Arguments : list Argument;
}.

Record Attribute : Type := mkAttribute {
  AttrName : string;
  AttrValue : string;
}.

Record Endpoint : Type := mkEndpoint {
  Version : string;
  HttpMethod : string;
  HttpPattern : string;
  Service : BackendService;
  Permission : BackendService;
  Attributes : list Attribute;
}.

(** ** The request world *)

(** The response buffer of a context: [ctx.Response()]. *)
Record Response : Type := mkResponse {
  rspStatusCode : Z;
  rspHeaderValues : Header;
  rspBody : string;
}.

(** What the handlers read of a [flux.WebContext]: request line, header
    values ([HeaderValue]) and the values middleware stored ([GetValue]). *)
Record WebContext : Type := mkWebContext {
  wcMethod : string;
  wcRequestURI : string;
  wcURLPath : string;
  wcHeaders : gmap string string;
  wcValues : gmap string string;
}.

(** [DefaultContext], the pooled per-request object behind
    [*flux.Context]. *)
Record DefaultContext : Type := mkDefaultContext {
  ctxRequestId : string;
  ctxWebc : option WebContext;
  ctxEndpoint : option Endpoint;
  ctxAttributes : gmap string string;
  ctxMetrics : list (string * Z);
  ctxStartAt : Z;
  ctxResponse : Response;
}.

Inductive LogLevel : Type := LevelInfo | LevelWarn | LevelError.

Inductive LogValue : Type :=
| LvString (s : string)
| LvStrings (l : list string)
| LvInt (z : Z)
| LvDuration (d : Z)
| LvPanic (r : PanicValue)
| LvServeError (e : ServeError)
| LvService (s : BackendService)
| LvMetrics (m : list (string * Z)).

(** The text of a log line; [MsgStack] is [string(debug.Stack())]. *)
Inductive LogMessage : Type :=
| MsgText (s : string)
| MsgStack.

(** One line of the logger; [lgTrace] is the request id of
    [logger.Trace(id)] / [logger.TraceContext(ctx)], empty for the plain
    logger. *)
Record LogEntry : Type := mkLogEntry {
  lgTrace : string;
  lgLevel : LogLevel;
  lgMessage : LogMessage;
  lgFields : list (string * LogValue);
}.

(** The dispatcher's Prometheus vectors: counters by label values, and
    the histogram as the list of its observations. *)
Record Metrics : Type := mkMetrics {
  EndpointAccess : gmap (string * string * string) nat;
  EndpointError : gmap (string * string * string * string) nat;
  RouteDuration : list (string * string * Z);
}.

(** State a request shares with the rest of the process: metrics, the
    clock ([time.Now], nanoseconds), the request's cancellation token
    ([ctx.Context().Err()], [None] while it is not done), the record of
    [Transporter.Transport] calls made by the terminal step, and the log. *)
Record Shared : Type := mkShared {
  shMetrics : Metrics;
  shNow : Z;
  shDone : option string;
  shTransported : list string;
  shLog : list LogEntry;
}.

(** What a handler sees while it holds a context. *)
Record World : Type := mkWorld {
  wCtx : DefaultContext;
  wShared : Shared;
}.

Definition with_log (l : list LogEntry) (sh : Shared) : Shared :=
  mkShared (shMetrics sh) (shNow sh) (shDone sh) (shTransported sh) l.

Definition with_metrics (m : Metrics) (sh : Shared) : Shared :=
  mkShared m (shNow sh) (shDone sh) (shTransported sh) (shLog sh).

Definition with_transported (t : list string) (sh : Shared) : Shared :=
  mkShared (shMetrics sh) (shNow sh) (shDone sh) t (shLog sh).

Definition with_shared (f : Shared -> Shared) (w : World) : World :=
  mkWorld (wCtx w) (f (wShared w)).

Definition with_ctx (f : DefaultContext -> DefaultContext) (w : World) : World :=
  mkWorld (f (wCtx w)) (wShared w).

Definition log_line (trace : string) (lvl : LogLevel) (msg : LogMessage)
    (fields : list (string * LogValue)) (sh : Shared) : Shared :=
  with_log (shLog sh ++ [mkLogEntry trace lvl msg fields]) sh.

(** [counter.WithLabelValues(k...).Inc()]. *)
Definition Inc `{Countable K} (k : K) (c : gmap K nat) : gmap K nat :=
  <[k := S (default 0%nat (c !! k))]> c.

(** [ctx.AddMetric(name, time.Since(ctx.StartAt()))]. *)
Definition add_metric (name : string) (w : World) : World :=
  with_ctx (fun c =>
    mkDefaultContext (ctxRequestId c) (ctxWebc c) (ctxEndpoint c) (ctxAttributes c)
      (ctxMetrics c ++ [(name, shNow (wShared w) - ctxStartAt c)])
      (ctxStartAt c) (ctxResponse c)) w.

Definition AddMetric (name : string) : Go World unit := go_modify (add_metric name).

(** [ctx.Service()]: the service of the bound endpoint; a context without
    endpoint makes it dereference nil. *)
Definition ctx_Service : Go World BackendService :=
  fun w =>
    match ctxEndpoint (wCtx w) with
    | Some ep => (Returned (Service ep), w)
    | None => (Panicked (PanicError "invalid memory address or nil pointer dereference"), w)
    end.

(** ** The dispatcher ([Dispatcher.Route]) *)

(** Modelled from the spec: the constant [flux.ErrorCodeRequestNotFound],
    declared outside the given sources; the error taxonomy names the code
    [REQUEST_NOT_FOUND]. *)
Definition ErrorCodeRequestNotFound : string := "REQUEST_NOT_FOUND".

(** [flux.FilterSelector]. *)
Record FilterSelector : Type := mkFilterSelector {
  Activate : Go World bool;
  DoSelect : Go World (list (Filter World));
}.

(** [flux.Transporter]: [Transport(ctx)] writes into the context. *)
Abbreviation Transporter := (Go World unit).

(** What [Route] reads of package [ext]: [ext.GlobalFilters()],
    [ext.FilterSelectors()] and the table behind
    [ext.TransporterByProto]. *)
Record Extensions : Type := mkExtensions {
  GlobalFilters : list (Filter World);
  FilterSelectors : list FilterSelector;
  Transporters : gmap string Transporter;
}.

(** [d.metrics.EndpointAccess.WithLabelValues(proto, uri, method).Inc()]. *)
Definition inc_access (labels : string * string * string) (sh : Shared) : Shared :=
  with_metrics (mkMetrics (Inc labels (EndpointAccess (shMetrics sh)))
                  (EndpointError (shMetrics sh)) (RouteDuration (shMetrics sh))) sh.

(** [d.metrics.EndpointError.WithLabelValues(proto, uri, method, code).Inc()]. *)
Definition inc_error (labels : string * string * string * string) (sh : Shared) : Shared :=
  with_metrics (mkMetrics (EndpointAccess (shMetrics sh))
                  (Inc labels (EndpointError (shMetrics sh))) (RouteDuration (shMetrics sh))) sh.

(** An observation of [d.metrics.RouteDuration.WithLabelValues(component, id)]. *)
Definition observe (component id : string) (d : Z) (sh : Shared) : Shared :=
  with_metrics (mkMetrics (EndpointAccess (shMetrics sh)) (EndpointError (shMetrics sh))
                  (RouteDuration (shMetrics sh) ++ [(component, id, d)])) sh.

(** [doMetricEndpointFunc]. *)
Definition doMetricEndpointFunc (err : option ServeError) : Go World (option ServeError) :=
  let* service := ctx_Service in
  let proto := RpcProto service in
  let uri := Interface service in
  let method := Method service in
  do* go_modify (with_shared (inc_access (proto, uri, method))) in
  match err with
  | Some e =>
      do* go_modify (with_shared (inc_error (proto, uri, method, ErrorCode e))) in
      go_ret err
  | None => go_ret err
  end.

(** The selector loop of [Route]. *)
Fixpoint select_filters (selectors : list FilterSelector) (selective : list (Filter World))
    : Go World (list (Filter World)) :=
  match selectors with
  | [] => go_ret selective
  | selector :: rest =>
      let* active := Activate selector in
      if (active : bool)
      then let* chosen := DoSelect selector in select_filters rest (selective ++ chosen)
      else select_filters rest selective
  end.

(** The error of a request cancelled before the transport. *)
Definition canceled_error (cause : string) : ServeError :=
  mkServeError StatusOK "ROUTE:TRANSPORT/B:CANCELED" "" ∅ (Some cause) None.

Definition unknown_protocol_error (proto : string) : ServeError :=
  mkServeError StatusNotFound ErrorCodeRequestNotFound ("ROUTE:UNKNOWN_PROTOCOL:" +:+ proto)
    ∅ None None.

(** [timer.ObserveDuration()] of a timer started at [start] on
    [RouteDuration.WithLabelValues(component, id)]. *)
Definition ObserveDuration (component id : string) (start : Z) : Go World unit :=
  go_modify (with_shared (fun sh => observe component id (shNow sh - start) sh)).

(** The terminal step of the chain, the closure [transport] of [Route]. *)
Definition transport (ext : Extensions) : FilterInvoker World :=
  fun w =>
    match shDone (wShared w) with
    | Some cause => (Returned (Some (canceled_error cause)), w)
    | None =>
        defer (AddMetric "transporter")
          (let* service := ctx_Service in
           let proto := RpcProto service in
           match Transporters ext !! proto with
           | None =>
               do* go_modify (with_shared (fun sh =>
                     log_line (ctxRequestId (wCtx w)) LevelError
                       (MsgText "SERVER:ROUTE:UNSUPPORTED_PROTOCOL")
                       [("proto", LvString proto); ("service", LvService service)] sh)) in
               go_ret (Some (unknown_protocol_error proto))
           | Some transporter =>
               let* now := go_get in
               let start := shNow (wShared now) in
               do* go_modify (with_shared (fun sh =>
                     with_transported (shTransported sh ++ [proto]) sh)) in
               do* transporter in
               do* ObserveDuration "Transporter" proto start in
               go_ret None
           end) w
    end.

(** [Dispatcher.Route]. *)
Definition Route (ext : Extensions) : Go World (option ServeError) :=
  defer (AddMetric "route")
    (let* selective := select_filters (FilterSelectors ext) [] in
     do* AddMetric "selector" in
     let filters := GlobalFilters ext ++ selective in
     let* err := walk (transport ext) filters in
     doMetricEndpointFunc err).

(** ** The serve engine: one request ([server.go]) *)

(** [MultiEndpoint]: the endpoints of one route, by version. *)
Abbreviation MultiEndpoint := (gmap string Endpoint).

(** What the engine uses of package [flux] and of [MultiEndpoint] that is
    declared outside the given sources: the key the request id is stored
    under, the message of [flux.ErrRouteNotFound],
    [ServeError.MergeHeader] (its receiver's header first, the merged one
    second), [MultiEndpoint.FindByVersion], the tag of the [Managed]
    attribute, and the two loaders of [initArguments]. *)
Class FluxEnv : Type := {
  HeaderXRequestId : string;
  ErrorMessageWebServerRequestNotFound : string;
  MergeHeader : Header -> Header -> Header;
  FindByVersion : MultiEndpoint -> string -> option Endpoint;
  EndpointAttrTagManaged : string;
  LoadMTValueResolver : string -> string;
  LoadArgumentLookupFunc : string;
}.

(** Modelled from the spec: the constant [flux.ErrorCodeGatewayInternal],
    declared outside the given sources; the error taxonomy names the code
    [GATEWAY_INTERNAL]. *)
Definition ErrorCodeGatewayInternal : string := "GATEWAY_INTERNAL".

(** Modelled from the spec: [flux.ErrRouteNotFound], declared outside the
    given sources: a version miss is answered [404 REQUEST_NOT_FOUND]. *)
Definition ErrRouteNotFound `{FluxEnv} : ServeError :=
  mkServeError StatusNotFound ErrorCodeRequestNotFound ErrorMessageWebServerRequestNotFound
    ∅ None None.

(** The configured parts of [HttpServeEngine] a request reads. [router]
    stands for [s.router]: its [Route] is the dispatcher's, over the
    extensions registered when the request arrives. [ctxFactory] is the
    object [ctxPool.New] makes, a [*DefaultContext] as [acquireContext]
    asserts. *)
Record HttpServeEngine : Type := mkHttpServeEngine {
  ctxHooks : list (WebContext -> Go World unit);
  responseWriter : WebContext -> string -> Header -> Z -> string -> Go World (option GoError);
  errorsWriter : WebContext -> string -> Header -> ServeError -> Go Shared (option string);
  versionLookup : WebContext -> string;
  router : Extensions;
  ctxFactory : DefaultContext;
}.

Inductive PoolEvent : Type := Acquired | Released.

(** The engine between requests: the free list of [ctxPool], the record
    of [acquireContext] and [releaseContext] calls, and the shared state.
    Hooks, filters, transporters and writers run over [World]: [ctxPool]
    and the two methods are private to the engine. *)
Record Engine : Type := mkEngine {
  ePool : list DefaultContext;
  eLifecycle : list PoolEvent;
  eShared : Shared;
}.

(** Modelled from the spec: [DefaultContext.Reattach], declared outside
    the given sources: it resets the request id and the start time (now),
    binds the endpoint and the web context and clears metrics,
    attributes and response. The cancellation token is the request's
    ([shDone]). *)
Definition Reattach (id : string) (webc : WebContext) (endpoint : Endpoint) (now : Z)
    (c : DefaultContext) : DefaultContext :=
  mkDefaultContext id (Some webc) (Some endpoint) ∅ [] now (mkResponse 0 ∅ "").

(** Modelled from the spec: [DefaultContext.Release], declared outside
    the given sources: it clears the references to the endpoint, the web
    context and the attributes. *)
Definition Release (c : DefaultContext) : DefaultContext :=
  mkDefaultContext (ctxRequestId c) None None ∅ (ctxMetrics c) (ctxStartAt c) (ctxResponse c).

(** [acquireContext]: [ctxPool.Get()] takes a pooled object or makes one,
    then [Reattach]. *)
Definition acquireContext (s : HttpServeEngine) (id : string) (webc : WebContext)
    (endpoint : Endpoint) : Go Engine DefaultContext :=
  fun e =>
    let now := shNow (eShared e) in
    match ePool e with
    | c :: rest =>
        (Returned (Reattach id webc endpoint now c),
         mkEngine rest (eLifecycle e ++ [Acquired]) (eShared e))
    | [] =>
        (Returned (Reattach id webc endpoint now (ctxFactory s)),
         mkEngine [] (eLifecycle e ++ [Acquired]) (eShared e))
    end.

(** [releaseContext]: [context.Release()], then [ctxPool.Put(context)]. *)
Definition releaseContext (context : DefaultContext) : Go Engine unit :=
  go_modify (fun e =>
    mkEngine (Release context :: ePool e) (eLifecycle e ++ [Released]) (eShared e)).

(** [defer s.releaseContext(ctxw)] followed by the rest of the handler:
    the rest runs holding the object [ctxw], and the deferred call
    releases the object in the state the rest left it in. *)
Definition defer_releaseContext {A : Type} (ctxw : DefaultContext) (body : Go World A)
    : Go Engine A :=
  fun e =>
    match body (mkWorld ctxw (eShared e)) with
    | (out, w') =>
        match releaseContext (wCtx w') (mkEngine (ePool e) (eLifecycle e) (wShared w')) with
        | (Returned _, e2) => (out, e2)
        | (Panicked r, e2) => (Panicked r, e2)
        end
    end.

(** A line of [logger.TraceContext(ctxw)]. *)
Definition trace_context_log (lvl : LogLevel) (msg : string)
    (fields : DefaultContext -> Shared -> list (string * LogValue)) : Go World unit :=
  go_modify (fun w =>
    with_shared (log_line (ctxRequestId (wCtx w)) lvl (MsgText msg)
                   (fields (wCtx w) (wShared w))) w).

(** The closure [endcall] of [HandleEndpointRequest]. *)
Definition endcall (code : Z) (start : Z) : Go World unit :=
  trace_context_log LevelInfo "HttpServeEngine route end"
    (fun c sh => [("metric", LvMetrics (ctxMetrics c));
                  ("elapses", LvDuration (shNow sh - start));
                  ("response.code", LvInt code)]).

Fixpoint run_hooks (hooks : list (WebContext -> Go World unit)) (webc : WebContext)
    : Go World unit :=
  match hooks with
  | [] => go_ret tt
  | hook :: rest => do* hook webc in run_hooks rest webc
  end.

(** [HandleEndpointRequest] from the line after
    [defer s.releaseContext(ctxw)] to its end. *)
Definition endpoint_request_body `{FluxEnv} (s : HttpServeEngine) (webc : WebContext)
    (requestId : string) : Go World (option GoError) :=
  do* trace_context_log LevelInfo "HttpServeEngine route start" (fun _ _ => []) in
  let* at_start := go_get in
  let start := shNow (wShared at_start) in
  do* run_hooks (ctxHooks s) webc in
  let* routed := Route (router s) in
  match routed with
  | Some err =>
      defer (endcall (StatusCode err) start)
        (do* trace_context_log LevelError "HttpServeEngine route error"
               (fun _ _ => [("error", LvServeError err)]) in
         let* w := go_get in
         let merged := MergeHeader (ErrHeader err) (rspHeaderValues (ctxResponse (wCtx w))) in
         go_ret (Some (ErrServe (mkServeError (StatusCode err) (ErrorCode err) (Message err)
                                   merged (CauseError err) (Internal err)))))
  | None =>
      let* w := go_get in
      let response := ctxResponse (wCtx w) in
      defer (endcall (rspStatusCode response) start)
        (responseWriter s webc requestId (rspHeaderValues response)
           (rspStatusCode response) (rspBody response))
  end.

(** The deferred function of [HandleEndpointRequest] once [recover]
    returned [r]. *)
Definition log_panic (requestId : string) (r : PanicValue) : Go Engine unit :=
  go_modify (fun e =>
    let key := match r with PanicError _ => "error" | PanicOther _ => "recover" end in
    mkEngine (ePool e) (eLifecycle e)
      (log_line requestId LevelError MsgStack []
         (log_line requestId LevelError (MsgText "HttpServeEngine panics")
            [(key, LvPanic r)] (eShared e)))).

(** [HandleEndpointRequest]. Its result is unnamed, so a recovered panic
    leaves it [nil]. *)
Definition HandleEndpointRequest `{FluxEnv} (s : HttpServeEngine) (webc : WebContext)
    (requestId : string) (endpoint : Endpoint) : Go Engine (option GoError) :=
  defer_recover None (log_panic requestId)
    (let* ctxw := acquireContext s requestId webc endpoint in
     defer_releaseContext ctxw (endpoint_request_body s webc requestId)).

(** The object [acquireContext] hands out in engine state [e], and the
    engine state at the handler's exit when its body ended in [w']. *)
Definition acquired_context (id : string) (webc : WebContext) (endpoint : Endpoint)
    (e : Engine) : DefaultContext :=
  mkDefaultContext id (Some webc) (Some endpoint) ∅ [] (shNow (eShared e)) (mkResponse 0 ∅ "").

Definition after_release (e : Engine) (w' : World) : Engine :=
  mkEngine (Release (wCtx w') :: tail (ePool e)) (eLifecycle e ++ [Acquired; Released])
    (wShared w').

(** [cast.ToString(webc.GetValue(flux.HeaderXRequestId))]. *)
Definition request_id_of `{FluxEnv} (webc : WebContext) : string :=
  default "" (wcValues webc !! HeaderXRequestId).

(** [HandleMultiEndpointRequest]; [endpoints] is the content of the
    handler's [*MultiEndpoint] when the request arrives. *)
Definition HandleMultiEndpointRequest `{FluxEnv} (s : HttpServeEngine) (webc : WebContext)
    (endpoints : MultiEndpoint) (tracing : bool) : Go Engine (option GoError) :=
  let version := versionLookup s webc in
  let requestId := request_id_of webc in
  match FindByVersion endpoints version with
  | Some endpoint => HandleEndpointRequest s webc requestId endpoint
  | None =>
      do* (if tracing
           then go_modify (fun e =>
                  mkEngine (ePool e) (eLifecycle e)
                    (log_line requestId LevelInfo (MsgText "HttpServeEngine route not-found")
                       [("http-pattern",
                         LvStrings [wcMethod webc; wcRequestURI webc; wcURLPath webc]);
                        ("http-version", LvString version)] (eShared e)))
           else go_ret tt) in
      go_ret (Some (ErrServe ErrRouteNotFound))
  end.

(** The default version lookup of [NewHttpServeEngineOverride]:
    [webc.HeaderValue("X-Version")]. *)
Definition DefaultHttpHeaderVersion : string := "X-Version".

Definition default_versionLookup (webc : WebContext) : string :=
  default "" (wcHeaders webc !! DefaultHttpHeaderVersion).

(** [defaultServerErrorHandler], the error handler set on both web
    servers: it is given what a handler returned. A [*ServeError] goes to
    the errors writer as it is, any other error as an internal error; an
    error of the writer is logged and dropped. *)
Definition defaultServerErrorHandler `{FluxEnv} (s : HttpServeEngine) (err : option GoError)
    (webc : WebContext) : Go Shared unit :=
  match err with
  | None => go_ret tt
  | Some failure =>
      let serve :=
        match failure with
        | ErrServe e => e
        | ErrOther msg =>
            mkServeError StatusServerError ErrorCodeGatewayInternal msg ∅ None (Some msg)
        end in
      let requestId := request_id_of webc in
      let* failed := errorsWriter s webc requestId (ErrHeader serve) serve in
      match failed with
      | Some werr =>
          go_modify (log_line requestId LevelError
                       (MsgText "HttpServeEngine http response error")
                       [("error", LvString werr)])
      | None => go_ret tt
      end
  end.

(** [defaultNotFoundErrorHandler]. *)
Definition defaultNotFoundErrorHandler `{FluxEnv} (webc : WebContext) : option GoError :=
  Some (ErrServe (mkServeError StatusNotFound ErrorCodeRequestNotFound
                    ErrorMessageWebServerRequestNotFound ∅ None None)).

(** Modelled from the spec: [MultiEndpoint.FindByVersion], declared
    outside the given sources. The reference rule: an exact match of a
    non-empty requested version first, else the version [""], else the
    smallest version in string order; it fails on an empty table only. *)
Definition smallest_version (mve : MultiEndpoint) : option (string * Endpoint) :=
  foldr (fun kv best =>
           match best with
           | None => Some kv
           | Some kv' => if String.ltb (fst kv) (fst kv') then Some kv else Some kv'
           end) None (map_to_list mve).

Definition spec_FindByVersion (mve : MultiEndpoint) (requested : string) : option Endpoint :=
  match (if decide (requested = "") then None else mve !! requested) with
  | Some exact => Some exact
  | None =>
      match mve !! "" with
      | Some wildcard => Some wildcard
      | None => snd <$> smallest_version mve
      end
  end.

(** An environment for the examples: the lookup rule of the
    specification, a header merge that appends the values of the merged
    header, and loaders that name what they return after the class. *)
Definition sample_env : FluxEnv := {|
  HeaderXRequestId := "X-Request-Id";
  ErrorMessageWebServerRequestNotFound := "ROUTE:NOT_FOUND";
  MergeHeader := fun own merged => union_with (fun a b => Some (a ++ b)) own merged;
  FindByVersion := spec_FindByVersion;
  EndpointAttrTagManaged := "managed";
  LoadMTValueResolver := fun class => "resolver:" +:+ class;
  LoadArgumentLookupFunc := "lookup:default";
|}.

(** ** The control plane: registry events ([server.go]) *)

Inductive EventType : Type := EventTypeAdded | EventTypeUpdated | EventTypeRemoved.

Record HttpEndpointEvent : Type := mkHttpEndpointEvent {
  evEndpointType : EventType;
  evEndpoint : Endpoint;
}.

Record BackendServiceEvent : Type := mkBackendServiceEvent {
  evServiceType : EventType;
  evService : BackendService;
}.

(** A handler bound with [httpWebServer.AddWebHandler]: the closure of
    [newWrappedEndpointHandler] holds the [*MultiEndpoint] of a route key
    and the request-log flag read when it was made. *)
Record ServeHandler : Type := mkServeHandler {
  shMethod : string;
  shPattern : string;
  shRouteKey : string;
  shTracing : bool;
}.

(** A handler bound with [manageWebServer.AddWebHandler]: its closure
    holds the endpoint itself. *)
Record ManageHandler : Type := mkManageHandler {
  mhMethod : string;
  mhPattern : string;
  mhEndpoint : Endpoint;
}.

(** The state the two event loops write: the route table behind
    [SelectMultiEndpoint] and [RegisterMultiEndpoint], the handlers the
    two web servers were asked to bind, in call order, the service
    directory of package [ext], and the log. *)
Record Control : Type := mkControl {
  cpRoutes : gmap string MultiEndpoint;
  cpServeHandlers : list ServeHandler;
  cpManageHandlers : list ManageHandler;
  cpServices : gmap string BackendService;
  cpLog : list LogEntry;
}.

Definition control_log (lvl : LogLevel) (msg : string) (fields : list (string * LogValue))
    (cp : Control) : Control :=
  mkControl (cpRoutes cp) (cpServeHandlers cp) (cpManageHandlers cp) (cpServices cp)
    (cpLog cp ++ [mkLogEntry "" lvl (MsgText msg) fields]).

Definition with_routes (routes : gmap string MultiEndpoint) (cp : Control) : Control :=
  mkControl routes (cpServeHandlers cp) (cpManageHandlers cp) (cpServices cp) (cpLog cp).

Definition with_services (services : gmap string BackendService) (cp : Control) : Control :=
  mkControl (cpRoutes cp) (cpServeHandlers cp) (cpManageHandlers cp) services (cpLog cp).

(** The methods [isAllowedHttpMethod] lets through: [http.MethodGet],
    [MethodPost], [MethodDelete], [MethodPut], [MethodHead],
    [MethodOptions], [MethodPatch], [MethodTrace]. *)
Definition allowed_http_methods : list string :=
  ["GET"; "POST"; "DELETE"; "PUT"; "HEAD"; "OPTIONS"; "PATCH"; "TRACE"].

(** [isAllowedHttpMethod]: the result, and the state with the line the
    default case logs. *)
Definition isAllowedHttpMethod (method : string) (cp : Control) : bool * Control :=
  if bool_decide (method ∈ allowed_http_methods)
  then (true, cp)
  else (false, control_log LevelError "Ignore unsupported http method:"
                 [("method", LvString method)] cp).

(** [initArguments]: every argument of the tree gets the resolver of its
    class and the lookup function. *)
Fixpoint initArgument `{FluxEnv} (a : Argument) : Argument :=
  match a with
  | MkArgument name class scope key fields _ _ =>
      MkArgument name class scope key (List.map initArgument fields)
        (Some (LoadMTValueResolver class)) (Some LoadArgumentLookupFunc)
  end.

Definition initArguments `{FluxEnv} (args : list Argument) : list Argument :=
  List.map initArgument args.

Definition with_arguments (args : list Argument) (service : BackendService) : BackendService :=
  mkBackendService (ServiceId service) (AliasId service) (RpcProto service)
    (Interface service) (Method service) args.

(** Modelled from the spec: [Endpoint.AttrByTag(tag).IsValid()], declared
    outside the given sources: the endpoint carries an attribute of that
    name. *)
Definition has_attribute (tag : string) (endpoint : Endpoint) : bool :=
  bool_decide (tag ∈ AttrName <$> Attributes endpoint).

(** Modelled from the spec: [MultiEndpoint.Update] (insert or replace)
    and [MultiEndpoint.Delete] (remove one version, the table stays),
    declared outside the given sources. *)
Definition mve_Update (version : string) (endpoint : Endpoint) (mve : MultiEndpoint)
    : MultiEndpoint := <[version := endpoint]> mve.

Definition mve_Delete (version : string) (mve : MultiEndpoint) : MultiEndpoint :=
  delete version mve.

(** Modelled from the spec: [RegisterMultiEndpoint], declared outside the
    given sources: it creates the table of a route key, holding the
    endpoint under its version. *)
Definition RegisterMultiEndpoint (endpoint : Endpoint) : MultiEndpoint :=
  {[Version endpoint := endpoint]}.

(** [selectMultiEndpoint]: the table of the route key and whether it was
    just created; a created table is in the route table from here on. *)
Definition selectMultiEndpoint (routeKey : string) (endpoint : Endpoint) (cp : Control)
    : MultiEndpoint * bool * Control :=
  match cpRoutes cp !! routeKey with
  | Some mve => (mve, false, cp)
  | None =>
      let mve := RegisterMultiEndpoint endpoint in
      (mve, true, with_routes (<[routeKey := mve]> (cpRoutes cp)) cp)
  end.

(** [registerServeEndpoint]. [multi] is a pointer into the route table:
    [Update] and [Delete] change the table's entry. [tracing] is the
    configuration's [request-log-enable]. *)
Definition registerServeEndpoint (tracing : bool) (routeKey method pattern : string)
    (event : EventType) (endpoint : Endpoint) (cp : Control) : Control :=
  let '(multi, toRegister, cp1) := selectMultiEndpoint routeKey endpoint cp in
  match event with
  | EventTypeAdded =>
      let cp2 := control_log LevelInfo "New endpoint"
                   [("version", LvString (Version endpoint)); ("method", LvString method);
                    ("pattern", LvString pattern)] cp1 in
      let cp3 := with_routes (<[routeKey := mve_Update (Version endpoint) endpoint multi]>
                                (cpRoutes cp2)) cp2 in
      if (toRegister : bool)
      then
        let cp4 := control_log LevelInfo "Register http handler"
                     [("method", LvString method); ("pattern", LvString pattern)] cp3 in
        mkControl (cpRoutes cp4)
          (cpServeHandlers cp4 ++ [mkServeHandler method pattern routeKey tracing])
          (cpManageHandlers cp4) (cpServices cp4) (cpLog cp4)
      else cp3
  | EventTypeUpdated =>
      let cp2 := control_log LevelInfo "Update endpoint"
                   [("version", LvString (Version endpoint)); ("method", LvString method);
                    ("pattern", LvString pattern)] cp1 in
      with_routes (<[routeKey := mve_Update (Version endpoint) endpoint multi]>
                     (cpRoutes cp2)) cp2
  | EventTypeRemoved =>
      let cp2 := control_log LevelInfo "Delete endpoint"
                   [("method", LvString method); ("pattern", LvString pattern)] cp1 in
      with_routes (<[routeKey := mve_Delete (Version endpoint) multi]> (cpRoutes cp2)) cp2
  end.

(** [registerManageEndpoint]. *)
Definition registerManageEndpoint (method pattern : string) (event : EventType)
    (endpoint : Endpoint) (cp : Control) : Control :=
  let cp1 := control_log LevelInfo "Register managed http handler"
               [("method", LvString method); ("pattern", LvString pattern)] cp in
  match event with
  | EventTypeAdded | EventTypeUpdated =>
      mkControl (cpRoutes cp1) (cpServeHandlers cp1)
        (cpManageHandlers cp1 ++ [mkManageHandler method pattern endpoint])
        (cpServices cp1) (cpLog cp1)
  | EventTypeRemoved => cp1
  end.

(** What [HandleHttpEndpointEvent] needs besides [FluxEnv]:
    [strings.ToUpper] of the Go library. *)
Class GoStrings : Type := {
  ToUpper : string -> string;
}.

(** [HandleHttpEndpointEvent]. *)
Definition HandleHttpEndpointEvent `{FluxEnv} `{GoStrings} (tracing : bool)
    (event : HttpEndpointEvent) (cp : Control) : Control :=
  let method := ToUpper (HttpMethod (evEndpoint event)) in
  let (allowed, cp1) := isAllowedHttpMethod method cp in
  if negb allowed
  then control_log LevelWarn "Unsupported http method"
         [("method", LvString method);
          ("pattern", LvString (HttpPattern (evEndpoint event)))] cp1
  else
    let pattern := HttpPattern (evEndpoint event) in
    let endpoint :=
      mkEndpoint (Version (evEndpoint event)) (HttpMethod (evEndpoint event))
        (HttpPattern (evEndpoint event))
        (with_arguments (initArguments (Arguments (Service (evEndpoint event))))
           (Service (evEndpoint event)))
        (with_arguments (initArguments (Arguments (Permission (evEndpoint event))))
           (Permission (evEndpoint event)))
        (Attributes (evEndpoint event)) in
    if has_attribute EndpointAttrTagManaged endpoint
    then registerManageEndpoint method pattern (evEndpointType event) endpoint cp1
    else
      let routeKey := method +:+ "#" +:+ pattern in
      registerServeEndpoint tracing routeKey method pattern (evEndpointType event) endpoint cp1.

(** The closure [newWrappedEndpointHandler] made for a route, run on a
    request: it passes the table its [*MultiEndpoint] points to, as the
    route table has it when the request arrives, and the flag it was made
    with. *)
Definition run_serve_handler `{FluxEnv} (s : HttpServeEngine) (cp : Control)
    (handler : ServeHandler) (webc : WebContext) : Go Engine (option GoError) :=
  HandleMultiEndpointRequest s webc (default ∅ (cpRoutes cp !! shRouteKey handler))
    (shTracing handler).

(** Modelled from the spec: [ext.StoreBackendService],
    [ext.StoreBackendServiceById] and [ext.RemoveBackendService],
    declared outside the given sources: the directory is keyed by
    [ServiceId], with entries under other ids beside. *)
Definition StoreBackendServiceById (id : string) (service : BackendService) (cp : Control)
    : Control := with_services (<[id := service]> (cpServices cp)) cp.

Definition StoreBackendService (service : BackendService) (cp : Control) : Control :=
  StoreBackendServiceById (ServiceId service) service cp.

Definition RemoveBackendService (id : string) (cp : Control) : Control :=
  with_services (delete id (cpServices cp)) cp.

(** [HandleBackendServiceEvent]. *)
Definition HandleBackendServiceEvent `{FluxEnv} (event : BackendServiceEvent) (cp : Control)
    : Control :=
  let service := with_arguments (initArguments (Arguments (evService event))) (evService event) in
  let ids := [("service-id", LvString (ServiceId service));
              ("alias-id", LvString (AliasId service))] in
  match evServiceType event with
  | EventTypeAdded =>
      let cp1 := control_log LevelInfo "New service" ids cp in
      let cp2 := StoreBackendService service cp1 in
      if bool_decide (AliasId service <> "")
      then StoreBackendServiceById (AliasId service) service cp2
      else cp2
  | EventTypeUpdated =>
      let cp1 := control_log LevelInfo "Update service" ids cp in
      let cp2 := StoreBackendService service cp1 in
      if bool_decide (AliasId service <> "")
      then StoreBackendServiceById (AliasId service) service cp2
      else cp2
  | EventTypeRemoved =>
      let cp1 := control_log LevelInfo "Delete service" ids cp in
      let cp2 := RemoveBackendService (ServiceId service) cp1 in
      if bool_decide (AliasId service <> "")
      then RemoveBackendService (AliasId service) cp2
      else cp2
  end.

(** [strings.ToUpper] on ASCII text: the letters [a]..[z] go to
    [A]..[Z]. Go's function also maps letters outside ASCII; the
    examples stay inside. *)
Definition ascii_upper (c : Ascii.ascii) : Ascii.ascii :=
  let n := Ascii.nat_of_ascii c in
  if ((97 <=? n) && (n <=? 122))%nat then Ascii.ascii_of_nat (n - 32) else c.

Fixpoint ascii_ToUpper (s : string) : string :=
  match s with
  | EmptyString => EmptyString
  | String c rest => String (ascii_upper c) (ascii_ToUpper rest)
  end.

Definition sample_strings : GoStrings := {| ToUpper := ascii_ToUpper |}.

(** An endpoint with another [HttpMethod], and a control state with the
    [HttpMethod] of every stored endpoint blanked: what is left of the
    state when the spelling of the method in the event is forgotten. *)
Definition with_method (method : string) (endpoint : Endpoint) : Endpoint :=
  mkEndpoint (Version endpoint) method (HttpPattern endpoint) (Service endpoint)
    (Permission endpoint) (Attributes endpoint).

Definition forget_method_of_handler (h : ManageHandler) : ManageHandler :=
  mkManageHandler (mhMethod h) (mhPattern h) (with_method "" (mhEndpoint h)).

Definition forget_methods (cp : Control) : Control :=
  mkControl (fmap (M := gmap string) (with_method "") <$> cpRoutes cp) (cpServeHandlers cp)
    (forget_method_of_handler <$> cpManageHandlers cp) (cpServices cp) (cpLog cp).

(** ** Starting the servers ([StartServe]) *)

(** [flux.Configuration], by the typed getters the engine calls. *)
Record Configuration : Type := mkConfiguration {
  GetString : string -> string;
  GetInt : string -> Z;
  GetBool : string -> bool;
}.

Definition HttpWebServerConfigKeyAddress : string := "address".
Definition HttpWebServerConfigKeyPort : string := "port".
Definition HttpWebServerConfigKeyTlsCertFile : string := "tls-cert-file".
Definition HttpWebServerConfigKeyTlsKeyFile : string := "tls-key-file".
Definition HttpWebServerConfigKeyManageAddress : string := "manage-address".
Definition HttpWebServerConfigKeyManagePort : string := "manage-port".

Inductive WebServerRole : Type := HttpWebServer | ManageWebServer.

(** One [server.StartTLS(addr, tlscert, tlskey)] call. *)
Record Listen : Type := mkListen {
  lsServer : WebServerRole;
  lsAddr : string;
  lsCert : string;
  lsKey : string;
}.

Record BuildInfo : Type := mkBuildInfo {
  CommitId : string;
  BuildVersion : string;
  BuildDate : string;
}.

(** What [StartServe] finds when it runs: whether [Initial] made the web
    servers, the results of [router.Startup] and of the two watch calls
    of the registry, what [StartTLS] returns, the engine's own
    configuration [s.config] and its banner. *)
Record ServeSetup : Type := mkServeSetup {
  ssInitialized : bool;
  ssRouterStartup : option string;
  ssWatchHttpEndpoints : option string;
  ssWatchBackendServices : option string;
  ssStartTLS : WebServerRole -> string -> option string;
  ssConfig : Configuration;
  ssBanner : string;
}.

(** What [StartServe] leaves behind: the event loops it spawned, whether
    [started] is closed, the [StartTLS] calls in program order (the
    manage server's is made from a goroutine), and the log. *)
Record Serving : Type := mkServing {
  svEventLoops : list string;
  svStarted : bool;
  svListens : list Listen;
  svLog : list LogEntry;
}.

Definition serving_log (lvl : LogLevel) (msg : string) (fields : list (string * LogValue))
    : Go Serving unit :=
  go_modify (fun sv =>
    mkServing (svEventLoops sv) (svStarted sv) (svListens sv)
      (svLog sv ++ [mkLogEntry "" lvl (MsgText msg) fields])).

(** [fmt.Sprintf("%s:%d", address, port)]. *)
Definition sprintf_addr (address : string) (port : Z) : string :=
  address +:+ ":" +:+ NilZero.string_of_int (Z.to_int port).

(** The closure [startServer] of [StartServe]. *)
Definition startServer (setup : ServeSetup) (server : WebServerRole) (name address : string)
    (port : Z) (tlscert tlskey : string) : Go Serving (option string) :=
  let addr := sprintf_addr address port in
  do* serving_log LevelInfo (name +:+ " starting")
        [("address", LvString address); ("cert", LvString tlscert); ("key", LvString tlskey)] in
  do* go_modify (fun sv =>
        mkServing (svEventLoops sv) (svStarted sv)
          (svListens sv ++ [mkListen server addr tlscert tlskey]) (svLog sv)) in
  match ssStartTLS setup server addr with
  | Some err =>
      do* serving_log LevelError (name +:+ " start failed") [("error", LvString err)] in
      go_ret (Some err)
  | None => go_ret None
  end.

Definition spawn_event_loop (name : string) : Go Serving unit :=
  go_modify (fun sv =>
    mkServing (svEventLoops sv ++ [name]) (svStarted sv) (svListens sv) (svLog sv)).

(** [StartServe]. *)
Definition StartServe (setup : ServeSetup) (info : BuildInfo) (config : Configuration)
    : Go Serving (option string) :=
  if negb (ssInitialized setup)
  then go_panic (PanicOther "Call must after InitialServer()")
  else
    match ssRouterStartup setup with
    | Some err => go_ret (Some err)
    | None =>
        match ssWatchHttpEndpoints setup with
        | Some err => go_ret (Some ("start registry watching: " +:+ err))
        | None =>
            do* spawn_event_loop "HttpEndpoint" in
            match ssWatchBackendServices setup with
            | Some err => go_ret (Some ("start registry watching: " +:+ err))
            | None =>
                do* spawn_event_loop "BackendService" in
                do* go_modify (fun sv =>
                      mkServing (svEventLoops sv) true (svListens sv) (svLog sv)) in
                do* (if bool_decide (ssBanner setup <> "")
                     then serving_log LevelInfo (ssBanner setup) []
                     else go_ret tt) in
                do* serving_log LevelInfo
                      ("Version // git.commit=" +:+ CommitId info +:+ ", build.version="
                       +:+ BuildVersion info +:+ ", build.date=" +:+ BuildDate info) [] in
                do* startServer setup ManageWebServer "Manage web server"
                      (GetString (ssConfig setup) HttpWebServerConfigKeyManageAddress)
                      (GetInt (ssConfig setup) HttpWebServerConfigKeyManagePort) "" "" in
                let tlsKeyFile := GetString config HttpWebServerConfigKeyTlsKeyFile in
                let tlsCertFile := GetString config HttpWebServerConfigKeyTlsCertFile in
                startServer setup HttpWebServer "Http web server"
                  (GetString config HttpWebServerConfigKeyAddress)
                  (GetInt config HttpWebServerConfigKeyManagePort)
                  tlsCertFile tlsKeyFile
            end
        end
    end.

(** [Startup]: [StartServe] on the engine's own configuration. *)
Definition Startup (setup : ServeSetup) (info : BuildInfo) : Go Serving (option string) :=
  StartServe setup info (ssConfig setup).

(** A configuration out of two tables; a key that is not set reads as
    the zero value. *)
Definition config_of (strings : gmap string string) (ints : gmap string Z) : Configuration :=
  mkConfiguration (fun key => default "" (strings !! key))
    (fun key => default 0 (ints !! key)) (fun _ => false).

(** ** Loading filters ([dynamicFilters], [Dispatcher.Init]) *)

(** The registries of package [ext] that [Init] writes, by the names of
    the components: the objects the factories made, the references given
    to [ext.AddHookFunc], and the filters added with
    [ext.AddSelectiveFilter]. *)
Record ExtState : Type := mkExtState {
  xsCreated : list string;
  xsHooks : list string;
  xsSelectiveAdded : list string;
}.

(** A transporter, a filter, or what a factory makes: its name (the
    [FilterId] of a filter), its [Init] when it is a [flux.Initializer],
    and whether it is a [flux.Filter]. *)
Record Component : Type := mkComponent {
  cmpName : string;
  cmpInit : option (Configuration -> Go ExtState (option string));
  cmpIsFilter : bool;
}.

(** [AwareConfig]; [Factory] is kept by the component a call of it
    makes. *)
Record AwareConfig : Type := mkAwareConfig {
  Id : string;
  TypeId : string;
  Config : Configuration;
  Factory : Component;
}.

Definition dynConfigKeyFilterId : string := "id".
Definition dynConfigKeyFilterType : string := "type".
Definition ConfigKeyDisabled : string := "disabled".

(** Modelled from the spec: [IsDisabled], declared outside the given
    sources: the configuration has [disabled=true]. *)
Definition IsDisabled (config : Configuration) : bool :=
  GetBool config ConfigKeyDisabled.

(** [fluxpkg.MustNotEmpty], declared outside the given sources; as its
    name says, it panics with the message on an empty string and returns
    the string otherwise. *)
Definition MustNotEmpty {S : Type} (str message : string) : Go S string :=
  if decide (str = "") then go_panic (PanicOther message) else go_ret str.

(** [ext.FactoryByType] over the table [typedFactories]. *)
Definition FactoryByType {S : Type} (typedFactories : gmap string Component)
    (typeName : string) : Go S (option Component) :=
  let* typeName := MustNotEmpty typeName "typeName is empty" in
  go_ret (typedFactories !! typeName).

(** The loop of [dynamicFilters] over [fconfig.ToConfigurations()]; its
    log lines are left out. *)
Fixpoint dynamicFilters_loop (typedFactories : gmap string Component)
    (configs : list Configuration) (out : list AwareConfig)
    : Go ExtState (list AwareConfig + string) :=
  match configs with
  | [] => go_ret (inl out)
  | config :: rest =>
      let filterID := GetString config dynConfigKeyFilterId in
      if decide (filterID = "")
      then dynamicFilters_loop typedFactories rest out
      else
        let filterType := GetString config dynConfigKeyFilterType in
        if IsDisabled config
        then dynamicFilters_loop typedFactories rest out
        else
          let* found := FactoryByType typedFactories filterType in
          match found with
          | None =>
              go_ret (inr ("FilterFactory not found, filter-type: " +:+ filterType
                           +:+ ", filter-id: " +:+ filterID))
          | Some factory =>
              dynamicFilters_loop typedFactories rest
                (out ++ [mkAwareConfig filterID filterType config factory])
          end
  end.

(** [dynamicFilters]; [entries] are the configurations of the block
    [dynfilter]. *)
Definition dynamicFilters (typedFactories : gmap string Component)
    (entries : list Configuration) : Go ExtState (list AwareConfig + string) :=
  dynamicFilters_loop typedFactories entries [].

(** An entry the loop of [dynamicFilters] passes over, and an entry that
    asks for a factory that is not registered. *)
Definition skipped (entry : Configuration) : Prop :=
  GetString entry dynConfigKeyFilterId = "" \/ IsDisabled entry = true.

Definition unloadable (factories : gmap string Component) (entry : Configuration) : Prop :=
  GetString entry dynConfigKeyFilterId <> ""
  /\ IsDisabled entry = false
  /\ factories !! GetString entry dynConfigKeyFilterType = None.

(** [Dispatcher.AddInitHook]. *)
Definition AddInitHook (ref : Component) (config : Configuration) : Go ExtState (option string) :=
  let* failed :=
    match cmpInit ref with
    | Some init => init config
    | None => go_ret None
    end in
  match failed with
  | Some err => go_ret (Some err)
  | None =>
      do* go_modify (fun xs =>
            mkExtState (xsCreated xs) (xsHooks xs ++ [cmpName ref]) (xsSelectiveAdded xs)) in
      go_ret None
  end.

(** What [Init] reads: [ext.Transporters()] in the order the map is
    ranged over, the static filters, the configuration of a namespace,
    the name of the transporters' namespace, and the factory table. *)
Record InitSetup : Type := mkInitSetup {
  isTransporters : list (string * Component);
  isGlobalFilters : list Component;
  isSelectiveFilters : list Component;
  isNamespaceTransporters : string;
  isConfiguration : string -> Configuration;
  isFactories : gmap string Component;
}.

Fixpoint init_transporters (setup : InitSetup) (transporters : list (string * Component))
    : Go ExtState (option string) :=
  match transporters with
  | [] => go_ret None
  | (proto, transporter) :: rest =>
      let ns := isNamespaceTransporters setup +:+ "." +:+ proto in
      let* failed := AddInitHook transporter (isConfiguration setup ns) in
      match failed with
      | Some err => go_ret (Some err)
      | None => init_transporters setup rest
      end
  end.

Fixpoint init_static_filters (setup : InitSetup) (filters : list Component)
    : Go ExtState (option string) :=
  match filters with
  | [] => go_ret None
  | filter :: rest =>
      let config := isConfiguration setup (cmpName filter) in
      if IsDisabled config
      then init_static_filters setup rest
      else
        let* failed := AddInitHook filter config in
        match failed with
        | Some err => go_ret (Some err)
        | None => init_static_filters setup rest
        end
  end.

Fixpoint init_dynamic_filters (items : list AwareConfig) : Go ExtState (option string) :=
  match items with
  | [] => go_ret None
  | item :: rest =>
      let filter := Factory item in
      do* go_modify (fun xs =>
            mkExtState (xsCreated xs ++ [cmpName filter]) (xsHooks xs) (xsSelectiveAdded xs)) in
      if IsDisabled (Config item)
      then init_dynamic_filters rest
      else
        let* failed := AddInitHook filter (Config item) in
        match failed with
        | Some err => go_ret (Some err)
        | None =>
            do* (if cmpIsFilter filter
                 then go_modify (fun xs =>
                        mkExtState (xsCreated xs) (xsHooks xs)
                          (xsSelectiveAdded xs ++ [cmpName filter]))
                 else go_ret tt) in
            init_dynamic_filters rest
        end
  end.

(** [Dispatcher.Init]; [entries] are the configurations of the block
    [dynfilter]. *)
Definition Init (setup : InitSetup) (entries : list Configuration)
    : Go ExtState (option string) :=
  let* failed := init_transporters setup (isTransporters setup) in
  match failed with
  | Some err => go_ret (Some err)
  | None =>
      let* failed := init_static_filters setup
                       (isGlobalFilters setup ++ isSelectiveFilters setup) in
      match failed with
      | Some err => go_ret (Some err)
      | None =>
          let* loaded := dynamicFilters (isFactories setup) entries in
          match loaded with
          | inr err => go_ret (Some err)
          | inl dynFilters => init_dynamic_filters dynFilters
          end
      end
  end.

(** ** Sample filters and requests

    Small filters of the shapes the filter package has: one that hands
    the request on untouched ([PermissionFilter.DoFilter] returns [next]
    itself when the filter is disabled), one that leaves a line in the
    log before it calls [next], and one that answers with an error and
    never calls [next]. *)

Definition passing_filter (id : string) : Filter World :=
  mkFilter id (fun next => next).

Definition tracing_filter (id : string) : Filter World :=
  mkFilter id (fun next =>
    do* go_modify (with_shared (log_line "" LevelInfo (MsgText id) [])) in next).

Definition rejecting_filter (id : string) (e : ServeError) : Filter World :=
  mkFilter id (fun _ => go_ret (Some e)).

Definition permission_denied : ServeError :=
  mkServeError 403 "PERMISSION_DENIED" "no" ∅ None None.

Definition sample_service : BackendService :=
  mkBackendService "svc.users" "" "http" "/internal/users" "GET" [].

Definition sample_endpoint : Endpoint :=
  mkEndpoint "A" "GET" "/v1/x" sample_service
    (mkBackendService "" "" "" "" "" []) [].

Definition sample_webc : WebContext :=
  mkWebContext "GET" "/v1/x" "/v1/x" {["X-Version" := "A"]} {["X-Request-Id" := "req-1"]}.

Definition empty_response : Response := mkResponse 0 ∅ "".

Definition sample_ctx : DefaultContext :=
  mkDefaultContext "req-1" (Some sample_webc) (Some sample_endpoint) ∅ [] 0 empty_response.

Definition empty_metrics : Metrics := mkMetrics ∅ ∅ [].

Definition quiet_shared : Shared := mkShared empty_metrics 0 None [] [].

Definition canceled_shared : Shared :=
  mkShared empty_metrics 0 (Some "context canceled") [] [].

Definition sample_world : World := mkWorld sample_ctx quiet_shared.

Definition canceled_world : World := mkWorld sample_ctx canceled_shared.

(** A transporter for protocol [http] that writes a 200 reply. *)
Definition sample_transporter : Transporter :=
  go_modify (with_ctx (fun c =>
    mkDefaultContext (ctxRequestId c) (ctxWebc c) (ctxEndpoint c) (ctxAttributes c)
      (ctxMetrics c) (ctxStartAt c) (mkResponse 200 ∅ "ok"))).

Definition sample_extensions : Extensions :=
  mkExtensions [tracing_filter "A"; passing_filter "B"] [] {["http" := sample_transporter]}.

Definition sample_writer : WebContext -> string -> Header -> Z -> string
    -> Go World (option GoError) :=
  fun _ _ _ _ _ => go_ret None.

Definition sample_errors_writer : WebContext -> string -> Header -> ServeError
    -> Go Shared (option string) :=
  fun _ _ _ _ => go_ret None.

Definition sample_engine : HttpServeEngine :=
  mkHttpServeEngine [] sample_writer sample_errors_writer default_versionLookup
    sample_extensions sample_ctx.

(** A context hook that panics with an [error]. *)
Definition panicking_hook : WebContext -> Go World unit :=
  fun _ => go_panic (PanicError "hook failed").

Definition panicking_engine : HttpServeEngine :=
  mkHttpServeEngine [panicking_hook] sample_writer sample_errors_writer default_versionLookup
    sample_extensions sample_ctx.

Definition idle_engine : Engine := mkEngine [] [] quiet_shared.

(** A request for version [Z] of the route. *)
Definition version_Z_webc : WebContext :=
  mkWebContext "GET" "/v1/x" "/v1/x" {["X-Version" := "Z"]} {["X-Request-Id" := "req-2"]}.

Definition empty_control : Control := mkControl ∅ [] [] ∅ [].

Definition connect_event : HttpEndpointEvent :=
  mkHttpEndpointEvent EventTypeAdded (with_method "CONNECT" sample_endpoint).

Definition lower_get_event : HttpEndpointEvent :=
  mkHttpEndpointEvent EventTypeAdded (with_method "get" sample_endpoint).

Definition upper_get_event : HttpEndpointEvent :=
  mkHttpEndpointEvent EventTypeAdded (with_method "GET" sample_endpoint).

(** The route [GET /v1/x] after its only version was added and removed
    again: the handler stays bound, its table is empty. *)
Definition vacated_control : Control :=
  HandleHttpEndpointEvent (H := sample_env) (H0 := sample_strings) false
    (mkHttpEndpointEvent EventTypeRemoved sample_endpoint)
    (HandleHttpEndpointEvent (H := sample_env) (H0 := sample_strings) false
       (mkHttpEndpointEvent EventTypeAdded sample_endpoint) empty_control).

Definition aliased_service : BackendService :=
  mkBackendService "svc.users" "users" "dubbo" "net.users.UserService" "find" [].

(** The defaults of [NewHttpServeEngineOverride] with the admin server
    set to 127.0.0.1:9527. *)
Definition two_port_config : Configuration :=
  config_of {["address" := "0.0.0.0"; "manage-address" := "127.0.0.1"]}
            {["port" := 8080; "manage-port" := 9527; "feature-debug-port" := 9527]}.

Definition ready_setup : ServeSetup :=
  mkServeSetup true None None None (fun _ _ => None) two_port_config "".

Definition sample_build : BuildInfo := mkBuildInfo "c0ffee" "1.0" "2021-01-01".

Definition not_serving : Serving := mkServing [] false [] [].

(** Entries of a [dynfilter] block: one without [id], one disabled, one
    of a type no factory is registered for, and one that loads. *)
Definition dyn_entry (id type : string) (disabled : bool) : Configuration :=
  mkConfiguration
    (fun key => if decide (key = "id") then id else if decide (key = "type") then type else "")
    (fun _ => 0)
    (fun key => if decide (key = "disabled") then disabled else false).

Definition entry_without_id : Configuration := dyn_entry "" "t1" false.
Definition entry_disabled : Configuration := dyn_entry "f1" "t1" true.
Definition entry_unknown_type : Configuration := dyn_entry "f2" "nowhere" false.
Definition entry_loading : Configuration := dyn_entry "f3" "t1" false.

Definition t1_component : Component := mkComponent "t1-filter" None true.

Definition sample_factories : gmap string Component := {["t1" := t1_component]}.

Definition sample_init_setup : InitSetup :=
  mkInitSetup [] [] [] "transporters" (fun _ => dyn_entry "" "" false) sample_factories.

Definition fresh_ext : ExtState := mkExtState [] [] [].

(** ** Further samples *)

(** The state the terminal step hands to a transporter of [proto]: the
    call is on record. *)
Definition transport_called (proto : string) (w : World) : World :=
  with_shared (fun sh => with_transported (shTransported sh ++ [proto]) sh) w.

(** What [doMetricEndpointFunc] counts for a result of the chain. *)
Definition count_result (labels : string * string * string) (result : option ServeError)
    (sh : Shared) : Shared :=
  match result with
  | Some e => inc_error (labels, ErrorCode e) (inc_access labels sh)
  | None => inc_access labels sh
  end.

Definition service_labels (service : BackendService) : string * string * string :=
  (RpcProto service, Interface service, Method service).

(** A filter and a transporter that panic. *)
Definition panicking_filter (id : string) : Filter World :=
  mkFilter id (fun _ => go_panic (PanicOther "filter failed")).

Definition panicking_transporter : Transporter :=
  go_panic (PanicError "connection reset").

(** Extensions without a transporter for [http], and with one that
    panics. *)
Definition no_transporter_extensions : Extensions :=
  mkExtensions [tracing_filter "A"] [] ∅.

Definition panicking_transporter_extensions : Extensions :=
  mkExtensions [] [] {["http" := panicking_transporter]}.



(** The world a handler starts its hooks in: the acquired context and
    the line [route start] in the log. *)
Definition handler_start (id : string) (webc : WebContext) (endpoint : Endpoint) (e : Engine)
    : World :=
  with_shared (log_line id LevelInfo (MsgText "HttpServeEngine route start") [])
    (mkWorld (acquired_context id webc endpoint e) (eShared e)).

(** The line [route end] of [endcall], logged in world [w]. *)
Definition route_end_line (code start : Z) (w : World) : World :=
  with_shared (log_line (ctxRequestId (wCtx w)) LevelInfo (MsgText "HttpServeEngine route end")
                 [("metric", LvMetrics (ctxMetrics (wCtx w)));
                  ("elapses", LvDuration (shNow (wShared w) - start));
                  ("response.code", LvInt code)]) w.

(** A filter chain that rejects every request, and a response writer
    that fails. *)
Definition rejecting_engine : HttpServeEngine :=
  mkHttpServeEngine [] sample_writer sample_errors_writer default_versionLookup
    (mkExtensions [rejecting_filter "deny" permission_denied] [] ∅) sample_ctx.

Definition failing_writer : WebContext -> string -> Header -> Z -> string
    -> Go World (option GoError) :=
  fun _ _ _ _ _ => go_ret (Some (ErrOther "broken pipe")).

Definition failing_writer_engine : HttpServeEngine :=
  mkHttpServeEngine [] failing_writer sample_errors_writer default_versionLookup
    sample_extensions sample_ctx.

Definition failing_errors_writer : WebContext -> string -> Header -> ServeError
    -> Go Shared (option string) :=
  fun _ _ _ _ => go_ret (Some "broken pipe").

Definition failing_errors_engine : HttpServeEngine :=
  mkHttpServeEngine [] sample_writer failing_errors_writer default_versionLookup
    sample_extensions sample_ctx.

(** ** The event loops and their bookkeeping *)

(** The loop [for event := range events { s.HandleHttpEndpointEvent(event) }]
    of [StartServe] over the events the channel delivers, and its twin
    for services. *)
Definition endpoint_event_loop `{FluxEnv} `{GoStrings} (tracing : bool)
    (events : list HttpEndpointEvent) (cp : Control) : Control :=
  foldl (fun state event => HandleHttpEndpointEvent tracing event state) cp events.

Definition service_event_loop `{FluxEnv} (events : list BackendServiceEvent) (cp : Control)
    : Control :=
  foldl (fun state event => HandleBackendServiceEvent event state) cp events.

(** The endpoint [HandleHttpEndpointEvent] registers for an event's
    endpoint: the same with the arguments of its service and of its
    permission initialised. *)
Definition initialized_endpoint `{FluxEnv} (endpoint : Endpoint) : Endpoint :=
  mkEndpoint (Version endpoint) (HttpMethod endpoint) (HttpPattern endpoint)
    (with_arguments (initArguments (Arguments (Service endpoint))) (Service endpoint))
    (with_arguments (initArguments (Arguments (Permission endpoint))) (Permission endpoint))
    (Attributes endpoint).

Definition initialized_service `{FluxEnv} (service : BackendService) : BackendService :=
  with_arguments (initArguments (Arguments service)) service.

(** The route key of an endpoint: [fmt.Sprintf("%s#%s", method, pattern)]
    on the upper-cased method. *)
Definition route_key_of `{GoStrings} (endpoint : Endpoint) : string :=
  ToUpper (HttpMethod endpoint) +:+ "#" +:+ HttpPattern endpoint.

(** An event the handler takes to the public web server: its method is
    allowed and its endpoint is not managed. *)
Definition public_endpoint `{FluxEnv} `{GoStrings} (endpoint : Endpoint) : Prop :=
  ToUpper (HttpMethod endpoint) ∈ allowed_http_methods
  /\ has_attribute EndpointAttrTagManaged endpoint = false.

Definition managed_endpoint `{FluxEnv} `{GoStrings} (endpoint : Endpoint) : Prop :=
  ToUpper (HttpMethod endpoint) ∈ allowed_http_methods
  /\ has_attribute EndpointAttrTagManaged endpoint = true.

(** The table [registerServeEndpoint] works on for a route key, the one
    in the route table or the one just made, and what an event does to
    it. *)
Definition table_before (routeKey : string) (endpoint : Endpoint) (cp : Control)
    : MultiEndpoint :=
  default (RegisterMultiEndpoint endpoint) (cpRoutes cp !! routeKey).

Definition table_after (etype : EventType) (endpoint : Endpoint) (mve : MultiEndpoint)
    : MultiEndpoint :=
  match etype with
  | EventTypeRemoved => delete (Version endpoint) mve
  | _ => <[Version endpoint := endpoint]> mve
  end.

(** Every bound handler belongs to a table of the route table, under the
    key made of its method and pattern, and no route key has two
    handlers. *)
Definition handlers_bound (cp : Control) : Prop :=
  NoDup (shRouteKey <$> cpServeHandlers cp)
  /\ forall handler, handler ∈ cpServeHandlers cp ->
       shRouteKey handler ∈ dom (cpRoutes cp)
       /\ shRouteKey handler = shMethod handler +:+ "#" +:+ shPattern handler.

(** An argument whose resolver and lookup function are set, in all its
    fields too. *)
Fixpoint resolved `{FluxEnv} (a : Argument) : Prop :=
  match a with
  | MkArgument _ class _ _ fields resolver lookup =>
      resolver = Some (LoadMTValueResolver class)
      /\ lookup = Some LoadArgumentLookupFunc
      /\ (fix all (l : list Argument) : Prop :=
            match l with
            | [] => True
            | field :: rest => resolved field /\ all rest
            end) fields
  end.

(** The names and classes of an argument tree, without the resolvers. *)
Fixpoint argument_shape (a : Argument) : Argument :=
  match a with
  | MkArgument name class scope key fields _ _ =>
      MkArgument name class scope key (List.map argument_shape fields) None None
  end.

Definition with_alias (alias : string) (service : BackendService) : BackendService :=
  mkBackendService (ServiceId service) alias (RpcProto service) (Interface service)
    (Method service) (Arguments service).

Definition managed_sample_endpoint : Endpoint :=
  mkEndpoint "" "get" "/admin/reload" sample_service (mkBackendService "" "" "" "" "" [])
    [mkAttribute "managed" "true"].

Definition nested_argument : Argument :=
  MkArgument "user" "net.users.User" "" ""
    [MkArgument "id" "int" "QUERY" "id" [] None None;
     MkArgument "tags" "list" "QUERY" "tag"
       [MkArgument "tag" "string" "" "" [] None None] None None]
    None None.

Definition unaliased_service : BackendService :=
  mkBackendService "svc.users" "" "dubbo" "net.users.UserService" "find" [].

(** A setup whose admin server cannot listen, and one whose service
    watch fails. *)
Definition admin_port_taken_setup : ServeSetup :=
  mkServeSetup true None None None
    (fun server _ =>
       match server with
       | ManageWebServer => Some "address already in use"
       | HttpWebServer => None
       end)
    two_port_config "".

Definition service_watch_fails_setup : ServeSetup :=
  mkServeSetup true None None (Some "registry closed") (fun _ _ => None) two_port_config "".

(** ** Lifecycle hooks and shutdown ([Dispatcher.Startup],
    [Dispatcher.Shutdown], [HttpServeEngine.Shutdown]) *)

(** The loop of [Dispatcher.Startup] and of [Dispatcher.Shutdown] over
    the hooks in the order [sortedStartup] / [sortedShutdown] give them:
    the first error ends it. *)
Fixpoint run_lifecycle_hooks {S : Type} (hooks : list (Go S (option string)))
    : Go S (option string) :=
  match hooks with
  | [] => go_ret None
  | hook :: rest =>
      let* failed := hook in
      match failed with
      | Some err => go_ret (Some err)
      | None => run_lifecycle_hooks rest
      end
  end.

(** What [HttpServeEngine.Shutdown] leaves behind: the [Shutdown] calls
    made on the web servers, whether [stopped] is closed, and the log. *)
Record Stopping : Type := mkStopping {
  spShutdowns : list WebServerRole;
  spStopped : bool;
  spLog : list LogEntry;
}.

(** What it finds: the results of the two servers' [Shutdown] and the
    sorted shutdown hooks of the router. *)
Record ShutdownSetup : Type := mkShutdownSetup {
  sdManage : option string;
  sdHttp : option string;
  sdHooks : list (Go Stopping (option string));
}.

(** [close(s.stopped)]: closing a closed channel panics. *)
Definition close_stopped : Go Stopping unit :=
  fun sp =>
    if spStopped sp
    then (Panicked (PanicError "close of closed channel"), sp)
    else (Returned tt, mkStopping (spShutdowns sp) true (spLog sp)).

Definition stopping_log (lvl : LogLevel) (msg : string) (fields : list (string * LogValue))
    : Go Stopping unit :=
  go_modify (fun sp =>
    mkStopping (spShutdowns sp) (spStopped sp)
      (spLog sp ++ [mkLogEntry "" lvl (MsgText msg) fields])).

Definition server_Shutdown (server : WebServerRole) : Go Stopping unit :=
  go_modify (fun sp => mkStopping (spShutdowns sp ++ [server]) (spStopped sp) (spLog sp)).

(** [HttpServeEngine.Shutdown]. *)
Definition Shutdown (setup : ShutdownSetup) : Go Stopping (option string) :=
  do* stopping_log LevelInfo "HttpServeEngine shutdown..." [] in
  defer close_stopped
    (do* server_Shutdown ManageWebServer in
     do* server_Shutdown HttpWebServer in
     do* (match sdHttp setup with
          | Some err =>
              stopping_log LevelWarn "HttpServeEngine shutdown http server"
                [("error", LvString err)]
          | None => go_ret tt
          end) in
     run_lifecycle_hooks (sdHooks setup)).

(** Hooks that leave their name in the log, one of them failing. *)
Definition named_hook (name : string) (result : option string) : Go Stopping (option string) :=
  do* stopping_log LevelInfo name [] in go_ret result.

Definition running : Stopping := mkStopping [] false [].

(** ** The factory registry ([ext.RegisterFactory]) *)

(** [fluxpkg.MustNotNil], declared outside the given sources; as its name
    says, it panics with the message on nil and returns the value
    otherwise. *)
Definition MustNotNil {S A : Type} (v : option A) (message : string) : Go S A :=
  match v with
  | Some a => go_ret a
  | None => go_panic (PanicOther message)
  end.

(** [ext.RegisterFactory] over the table [typedFactories]; a nil factory
    is [None]. *)
Definition RegisterFactory (typeName : string) (factory : option Component)
    : Go (gmap string Component) unit :=
  let* typeName := MustNotEmpty typeName "typeName is empty" in
  let* factory := MustNotNil factory "Factory is nil" in
  go_modify (fun typedFactories => <[typeName := factory]> typedFactories).

(** What the loop of [dynamicFilters] appends for an entry, if anything:
    nothing for an entry it passes over or that has no factory. *)
Definition load_entry (factories : gmap string Component) (entry : Configuration)
    : option AwareConfig :=
  if decide (GetString entry dynConfigKeyFilterId = "") then None
  else if IsDisabled entry then None
  else mkAwareConfig (GetString entry dynConfigKeyFilterId)
         (GetString entry dynConfigKeyFilterType) entry
       <$> factories !! GetString entry dynConfigKeyFilterType.

(** An entry with an id and a registered type. *)
Definition loadable (factories : gmap string Component) (entry : Configuration) : Prop :=
  GetString entry dynConfigKeyFilterType <> ""
  /\ is_Some (factories !! GetString entry dynConfigKeyFilterType).

(** A component whose [Init], when it has one, returns nil and leaves
    the registries alone. *)
Definition quiet (c : Component) : Prop :=
  forall init, cmpInit c = Some init ->
    forall config xs, init config xs = (Returned None, xs).

(** The static filters [Init] does not pass over. *)
Definition enabled_filters (setup : InitSetup) (filters : list Component) : list Component :=
  filter (fun f => IsDisabled (isConfiguration setup (cmpName f)) = false) filters.

Definition sample_static_filter : Component :=
  mkComponent "jwt_filter" (Some (fun _ => go_ret None)) true.

Definition disabled_static_filter : Component :=
  mkComponent "legacy_filter" (Some (fun _ => go_ret (Some "must not run"))) true.

Definition static_init_setup : InitSetup :=
  mkInitSetup [("http", mkComponent "http-transporter" None false)]
    [sample_static_filter; disabled_static_filter] [] "transporters"
    (fun ns => dyn_entry "" "" (if decide (ns = "legacy_filter") then true else false))
    sample_factories.

(** ** The permission filter ([filter.PermissionFilter]) *)

(** Constants and functions of packages [flux] and [ext] that the filter
    uses and that are declared outside the given sources. [ServiceByID]
    is the service directory as it stands while the filter runs. *)
Class PermissionEnv : Type := {
  ErrorMessagePermissionServiceNotFound : string;
  ErrorMessagePermissionVerifyError : string;
  ErrorCodePermissionDenied : string;
  ErrorMessagePermissionAccessDenied : string;
  AttrPermissions : Endpoint -> list string;
  ServiceByID : string -> option BackendService;
}.

(** [http.StatusForbidden]. *)
Definition StatusForbidden : Z := 403.

Definition TypeIdPermissionV2Filter : string := "permission_filter".

(** [PermissionReport]; the fields carry the prefix [rp]. *)
Record PermissionReport : Type := mkPermissionReport {
  rpStatusCode : Z;
  rpSuccess : bool;
  rpErrorCode : string;
  rpMessage : string;
}.

(** [PermissionVerifyFunc]: the report and the [error], nil as [None]. *)
Definition PermissionVerifyFunc : Type :=
  list BackendService -> Go World (PermissionReport * option GoError).

(** [PermissionConfig]; a nil function is [None]. *)
Record PermissionConfig : Type := mkPermissionConfig {
  SkipFunc : option (Go World bool);
  VerifyFunc : option PermissionVerifyFunc;
}.

Record PermissionFilter : Type := mkPermissionFilter {
  Disabled : bool;
  Configs : PermissionConfig;
}.

(** A call through a function value: a nil function makes it panic. *)
Definition call_func {S A B : Type} (f : option B) (call : B -> Go S A) : Go S A :=
  match f with
  | Some g => call g
  | None => go_panic (PanicError "invalid memory address or nil pointer dereference")
  end.

(** [PermissionFilter.Init] over the filter it is called on.
    [config.SetDefaults] gives [disabled] the default [false], which is
    what [GetBool] reads for a key that is not set; the log line is left
    out. *)
Definition PermissionFilter_Init (config : Configuration)
    : Go PermissionFilter (option string) :=
  do* go_modify (fun p => mkPermissionFilter (GetBool config ConfigKeyDisabled) (Configs p)) in
  let* p := go_get in
  if Disabled p then go_ret None
  else
    do* (match SkipFunc (Configs p) with
         | None =>
             go_modify (fun p =>
               mkPermissionFilter (Disabled p)
                 (mkPermissionConfig (Some (go_ret false)) (VerifyFunc (Configs p))))
         | Some _ => go_ret tt
         end) in
    let* p := go_get in
    match VerifyFunc (Configs p) with
    | None => go_ret (Some "PermissionFilter.PermissionVerifyFunc is nil")
    | Some _ => go_ret None
    end.

Definition EnsurePermissionStatusCode (status : Z) : Z :=
  if status <? 100 then StatusForbidden else status.

Definition EnsurePermissionErrorCode `{PermissionEnv} (code : string) : string :=
  if decide ("" = code) then ErrorCodePermissionDenied else code.

Definition EnsurePermissionMessage `{PermissionEnv} (message : string) : string :=
  if decide ("" = message) then ErrorMessagePermissionAccessDenied else message.

(** [ctx.Endpoint()] as a receiver: [AttrPermissions] on the nil endpoint
    of a context that is not bound dereferences nil. *)
Definition ctx_Endpoint : Go World Endpoint :=
  fun w =>
    match ctxEndpoint (wCtx w) with
    | Some ep => (Returned ep, w)
    | None => (Panicked (PanicError "invalid memory address or nil pointer dereference"), w)
    end.

Definition permission_service_not_found `{PermissionEnv} (id : string) : ServeError :=
  mkServeError StatusServerError ErrorCodeGatewayInternal ErrorMessagePermissionServiceNotFound
    ∅ (Some ("permission.service not found, id: " +:+ id)) None.

(** The loop of [DoFilter] over the permission ids. *)
Fixpoint permission_services `{PermissionEnv} (permissions : list string)
    (services : list BackendService) : list BackendService + ServeError :=
  match permissions with
  | [] => inl services
  | id :: rest =>
      match ServiceByID id with
      | Some srv => permission_services rest (services ++ [srv])
      | None => inr (permission_service_not_found id)
      end
  end.

Definition permission_verify_error `{PermissionEnv} (cause : string) : ServeError :=
  mkServeError StatusForbidden ErrorCodeGatewayInternal ErrorMessagePermissionVerifyError
    ∅ (Some cause) None.

Definition permission_refused `{PermissionEnv} (report : PermissionReport) : ServeError :=
  mkServeError (EnsurePermissionStatusCode (rpStatusCode report))
    (EnsurePermissionErrorCode (rpErrorCode report))
    (EnsurePermissionMessage (rpMessage report)) ∅ None None.

(** [PermissionFilter.DoFilter]. *)
Definition PermissionFilter_DoFilter `{PermissionEnv} (p : PermissionFilter)
    (next : FilterInvoker World) : FilterInvoker World :=
  if Disabled p then next
  else
    let* skip := call_func (SkipFunc (Configs p)) (fun skipFunc => skipFunc) in
    if skip : bool then next
    else
      let* endpoint := ctx_Endpoint in
      match permission_services (AttrPermissions endpoint) [] with
      | inr serr => go_ret (Some serr)
      | inl services =>
          let* result :=
            call_func (VerifyFunc (Configs p)) (fun verifyFunc => verifyFunc services) in
          do* AddMetric TypeIdPermissionV2Filter in
          match snd result with
          | Some (ErrServe serr) => go_ret (Some serr)
          | Some (ErrOther cause) => go_ret (Some (permission_verify_error cause))
          | None =>
              if rpSuccess (fst result) then next
              else go_ret (Some (permission_refused (fst result)))
          end
      end.

(** The filter as the chain sees it. *)
Definition permission_filter `{PermissionEnv} (p : PermissionFilter) : Filter World :=
  mkFilter TypeIdPermissionV2Filter (PermissionFilter_DoFilter p).

(** A directory with one authorization service, and endpoints that name
    their permission services in attributes called [permission]. *)
Definition auth_service : BackendService :=
  mkBackendService "svc.auth" "" "http" "/internal/auth" "POST" [].

Definition sample_permission_env : PermissionEnv := {|
  ErrorMessagePermissionServiceNotFound := "PERMISSION:SERVICE:NOT_FOUND";
  ErrorMessagePermissionVerifyError := "PERMISSION:VERIFY:ERROR";
  ErrorCodePermissionDenied := "PERMISSION_DENIED";
  ErrorMessagePermissionAccessDenied := "PERMISSION:ACCESS_DENIED";
  AttrPermissions := fun endpoint =>
    AttrValue <$> filter (fun a => AttrName a = "permission") (Attributes endpoint);
  ServiceByID := fun id => if decide (id = "svc.auth") then Some auth_service else None;
|}.

Definition guarded_endpoint (permissions : list string) : Endpoint :=
  mkEndpoint "A" "GET" "/v1/x" sample_service (mkBackendService "" "" "" "" "" [])
    (mkAttribute "permission" <$> permissions).

Definition guarded_world (permissions : list string) : World :=
  mkWorld (mkDefaultContext "req-1" (Some sample_webc) (Some (guarded_endpoint permissions))
             ∅ [] 0 empty_response) quiet_shared.

(** A verification that refuses with an empty report. *)
Definition refusing_verify : PermissionVerifyFunc :=
  fun _ => go_ret (mkPermissionReport 0 false "" "", None).

Definition refusing_permission_filter : PermissionFilter :=
  mkPermissionFilter false (mkPermissionConfig (Some (go_ret false)) (Some refusing_verify)).

Definition unconfigured_permission_filter : PermissionFilter :=
  mkPermissionFilter false (mkPermissionConfig None None).

(* ================================================================= *)
(** * Part II: properties *)
(* ================================================================= *)

Section GoFacts.
Context {S : Type}.

Lemma go_bind_returned {A B : Type} (m : Go S A) (k : A -> Go S B) s a s1 :
  m s = (Returned a, s1) -> go_bind m k s = k a s1.
Proof. intros Hm. unfold go_bind. now rewrite Hm. Qed.

Lemma go_bind_ext {A B : Type} (m : Go S A) (k k' : A -> Go S B) (s : S) :
  (forall a s1, k a s1 = k' a s1) -> go_bind m k s = go_bind m k' s.
Proof.
  intros Hk. unfold go_bind. destruct (m s) as [[a|r] s1]; [apply Hk | reflexivity].
Qed.

Lemma defer_ext {A : Type} (d : Go S unit) (body body' : Go S A) (s : S) :
  body s = body' s -> defer d body s = defer d body' s.
Proof. intros Hb. unfold defer. now rewrite Hb. Qed.

Lemma defer_modify {A : Type} (f : S -> S) (body : Go S A) (s s1 : S) out :
  body s = (out, s1) -> defer (go_modify f) body s = (out, f s1).
Proof. intros Hb. unfold defer, go_modify. now rewrite Hb. Qed.

Lemma go_bind_modify {B : Type} (f : S -> S) (k : unit -> Go S B) (s : S) :
  go_bind (go_modify f) k s = k tt (f s).
Proof. reflexivity. Qed.

End GoFacts.

Section FilterChainFacts.
Context {W : Type}.
Implicit Types (next : FilterInvoker W) (filters : list (Filter W)).

Lemma walk_loop_take n next filters :
  (n <= length filters)%nat ->
  walk_loop n next filters = foldr DoFilter next (take n filters).
Proof.
  revert next. induction n as [|i IH]; intros next Hn.
  - reflexivity.
  - destruct (lookup_lt_is_Some_2 filters i) as [f Hf]; [lia|].
    cbn [walk_loop]. rewrite Hf, IH by lia.
    rewrite (take_S_r _ _ _ Hf), foldr_app. reflexivity.
Qed.

Lemma walk_foldr next filters :
  walk next filters = foldr DoFilter next filters.
Proof.
  unfold walk. rewrite walk_loop_take by lia. now rewrite firstn_all.
Qed.

End FilterChainFacts.

Section DispatcherFacts.
Implicit Types (ext : Extensions) (w : World) (T : FilterInvoker World).

(** The body of [Route] with the loop of [walk] replaced by the nested
    application it computes. *)
Lemma Route_unfold ext w :
  Route ext w =
  defer (AddMetric "route")
    (let* selective := select_filters (FilterSelectors ext) [] in
     do* AddMetric "selector" in
     let* err := foldr DoFilter (transport ext) (GlobalFilters ext ++ selective) in
     doMetricEndpointFunc err) w.
Proof.
  unfold Route. apply defer_ext. apply go_bind_ext. intros selective s1.
  apply go_bind_ext. intros _ s2. now rewrite walk_foldr.
Qed.

Lemma transport_canceled ext w cause :
  shDone (wShared w) = Some cause ->
  transport ext w = (Returned (Some (canceled_error cause)), w).
Proof. intros Hd. unfold transport. now rewrite Hd. Qed.

Lemma doMetricEndpointFunc_error w ep e :
  ctxEndpoint (wCtx w) = Some ep ->
  doMetricEndpointFunc (Some e) w =
  (Returned (Some e),
   with_shared (fun sh =>
     inc_error (RpcProto (Service ep), Interface (Service ep), Method (Service ep), ErrorCode e)
       (inc_access (RpcProto (Service ep), Interface (Service ep), Method (Service ep)) sh)) w).
Proof.
  intros Hep. unfold doMetricEndpointFunc, go_bind, ctx_Service. rewrite Hep.
  destruct w as [c sh]. reflexivity.
Qed.

Lemma doMetricEndpointFunc_ok w ep :
  ctxEndpoint (wCtx w) = Some ep ->
  doMetricEndpointFunc None w =
  (Returned None,
   with_shared
     (inc_access (RpcProto (Service ep), Interface (Service ep), Method (Service ep))) w).
Proof.
  intros Hep. unfold doMetricEndpointFunc, go_bind, ctx_Service. rewrite Hep.
  reflexivity.
Qed.

(** C1. [Route] runs the chain [GlobalFilters ++ selective] around the
    transport step, and [walk] nests it as [A(B(C(T)))]: the global
    filters wrap the selective ones, [filter[0]] is the outermost invoker
    and receives the rest of the chain as its [next], and a filter whose
    invoker does not consult its [next] makes the chain independent of
    every later filter and of the transport step. *)
Theorem Route_walks_filters_in_order ext :
  (forall w,
     Route ext w =
     defer (AddMetric "route")
       (let* selective := select_filters (FilterSelectors ext) [] in
        do* AddMetric "selector" in
        let* err := foldr DoFilter (transport ext) (GlobalFilters ext ++ selective) in
        doMetricEndpointFunc err) w)
  /\ (forall T (filters : list (Filter World)),
        walk T filters = foldr DoFilter T filters)
  /\ (forall T (A B C : Filter World),
        walk T [A; B; C] = DoFilter A (DoFilter B (DoFilter C T)))
  /\ (forall T (globals selective : list (Filter World)),
        walk T (globals ++ selective) = walk (walk T selective) globals)
  /\ (forall T (f : Filter World) rest,
        walk T (f :: rest) = DoFilter f (walk T rest))
  /\ (forall T T' (f : Filter World) later later' w,
        (forall next next', DoFilter f next w = DoFilter f next' w) ->
        walk T (f :: later) w = walk T' (f :: later') w)
  /\ (forall T T' (earlier : list (Filter World)) f later later',
        (forall next next', DoFilter f next = DoFilter f next') ->
        walk T (earlier ++ f :: later) = walk T' (earlier ++ f :: later')).
Proof.
  split; [intros w; apply Route_unfold|].
  split; [intros; apply walk_foldr|].
  split; [intros; now rewrite walk_foldr|].
  split; [intros; now rewrite !walk_foldr, foldr_app|].
  split; [intros; now rewrite !walk_foldr|].
  split.
  - intros T T' f later later' w Hf. rewrite !walk_foldr. cbn [foldr]. apply Hf.
  - intros T T' earlier f later later' Hf. rewrite !walk_foldr, !foldr_app.
    cbn [foldr]. f_equal. apply Hf.
Qed.

(** The chain at work: three filters that log before they call [next]
    run in list order and the transporter after them; with a rejecting
    filter in second place the first filter runs, the third filter and
    the transporter do not, and the error comes back. *)
Example walk_runs_filters_in_list_order :
  walk (transport sample_extensions)
    [tracing_filter "A"; tracing_filter "B"; tracing_filter "C"] sample_world
  = (Returned None,
     mkWorld
       (mkDefaultContext "req-1" (Some sample_webc) (Some sample_endpoint) ∅
          [("transporter", 0)] 0 (mkResponse 200 ∅ "ok"))
       (mkShared (mkMetrics ∅ ∅ [("Transporter", "http", 0)]) 0 None ["http"]
          [mkLogEntry "" LevelInfo (MsgText "A") [];
           mkLogEntry "" LevelInfo (MsgText "B") [];
           mkLogEntry "" LevelInfo (MsgText "C") []])).
Proof. reflexivity. Qed.

Example walk_stops_at_rejecting_filter :
  walk (transport sample_extensions)
    [tracing_filter "A"; rejecting_filter "deny" permission_denied; tracing_filter "C"]
    sample_world
  = (Returned (Some permission_denied),
     mkWorld sample_ctx
       (mkShared empty_metrics 0 None [] [mkLogEntry "" LevelInfo (MsgText "A") []])).
Proof. reflexivity. Qed.

(** A request that is not cancelled, through [Route]: the filters, the
    transporter once with one histogram observation, one access count,
    no error count, and the metrics [selector], [transporter], [route]. *)
Example Route_serves_sample_request :
  Route sample_extensions sample_world
  = (Returned None,
     mkWorld
       (mkDefaultContext "req-1" (Some sample_webc) (Some sample_endpoint) ∅
          [("selector", 0); ("transporter", 0); ("route", 0)] 0 (mkResponse 200 ∅ "ok"))
       (mkShared
          (mkMetrics {[("http", "/internal/users", "GET") := 1%nat]} ∅
             [("Transporter", "http", 0)])
          0 None ["http"] [mkLogEntry "" LevelInfo (MsgText "A") []])).
Proof. reflexivity. Qed.

Lemma Route_walks_filters_in_order_witness :
  walk (transport sample_extensions)
    ([tracing_filter "A"] ++ rejecting_filter "deny" permission_denied :: [tracing_filter "C"])
  = walk (go_panic (PanicOther "the transport step ran"))
      ([tracing_filter "A"] ++ rejecting_filter "deny" permission_denied :: []).
Proof.
  apply (proj2 (proj2 (proj2 (proj2 (proj2 (proj2
           (Route_walks_filters_in_order sample_extensions))))))).
  intros next next'. reflexivity.
Defined.

(** C2. When the filters hand the request on to the terminal step in a
    state [w2] whose cancellation token is done, and return what it
    returns (running [post] on the way back), the terminal step changes
    nothing, so no transporter runs and no histogram observation is
    made, and [Route] returns the error with status 200, code
    [ROUTE:TRANSPORT/B:CANCELED] and the cancellation cause, after
    counting the access and the error. *)
Theorem Route_canceled_before_transport ext w selective w1 w2 post cause ep :
  select_filters (FilterSelectors ext) [] w = (Returned selective, w1) ->
  (forall next,
     walk next (GlobalFilters ext ++ selective) (add_metric "selector" w1) =
     (let (out, w') := next w2 in (out, post w'))) ->
  shDone (wShared w2) = Some cause ->
  ctxEndpoint (wCtx (post w2)) = Some ep ->
  let labels := (RpcProto (Service ep), Interface (Service ep), Method (Service ep)) in
  let err := mkServeError 200 "ROUTE:TRANSPORT/B:CANCELED" "" ∅ (Some cause) None in
  let w3 := add_metric "route"
              (with_shared (fun sh =>
                 inc_error (labels, "ROUTE:TRANSPORT/B:CANCELED") (inc_access labels sh))
                 (post w2)) in
  transport ext w2 = (Returned (Some err), w2)
  /\ Route ext w = (Returned (Some err), w3)
  /\ shTransported (wShared w3) = shTransported (wShared (post w2))
  /\ RouteDuration (shMetrics (wShared w3)) = RouteDuration (shMetrics (wShared (post w2))).
Proof.
  intros Hsel Hreach Hdone Hep labels err w3.
  pose proof (transport_canceled ext w2 cause Hdone) as Ht.
  split; [exact Ht|]. split; [|split; reflexivity].
  unfold Route, AddMetric. apply defer_modify.
  rewrite (go_bind_returned _ _ _ _ _ Hsel), go_bind_modify.
  unfold go_bind. rewrite (Hreach (transport ext)), Ht.
  now rewrite (doMetricEndpointFunc_error _ ep _ Hep).
Qed.

Lemma Route_canceled_before_transport_witness :
  Route sample_extensions canceled_world =
  (Returned (Some (canceled_error "context canceled")),
   add_metric "route"
     (with_shared (fun sh =>
        inc_error ("http", "/internal/users", "GET", "ROUTE:TRANSPORT/B:CANCELED")
          (inc_access ("http", "/internal/users", "GET") sh))
        (with_shared (log_line "" LevelInfo (MsgText "A") [])
           (add_metric "selector" canceled_world)))).
Proof.
  refine (proj1 (proj2 (Route_canceled_before_transport sample_extensions canceled_world []
    canceled_world
    (with_shared (log_line "" LevelInfo (MsgText "A") []) (add_metric "selector" canceled_world))
    (fun w => w) "context canceled" sample_endpoint _ _ _ _))).
  - reflexivity.
  - intros next. cbn. unfold go_bind. cbn. now destruct (next _).
  - reflexivity.
  - reflexivity.
Defined.

End DispatcherFacts.

Section EngineFacts.
Context `{FluxEnv}.
Implicit Types (s : HttpServeEngine) (e : Engine) (webc : WebContext).

Lemma HandleEndpointRequest_run s webc id endpoint e :
  HandleEndpointRequest s webc id endpoint e =
  (let (out, w') :=
     endpoint_request_body s webc id (mkWorld (acquired_context id webc endpoint e) (eShared e)) in
   match out with
   | Returned a => (Returned a, after_release e w')
   | Panicked r => (Returned None, snd (log_panic id r (after_release e w')))
   end).
Proof.
  unfold HandleEndpointRequest, defer_recover, go_bind, acquireContext, defer_releaseContext.
  unfold acquired_context, after_release, Reattach.
  destruct e as [pool lifecycle sh]. cbn [ePool eLifecycle eShared].
  destruct pool as [|c rest]; cbn [tail];
    destruct (endpoint_request_body _ _ _ _) as [[a|r] w'];
    cbn; rewrite <- ?app_assoc; reflexivity.
Qed.

(** C3, as the code has it. A request whose version finds no endpoint is
    answered with [ErrRouteNotFound], 404 and [REQUEST_NOT_FOUND], and
    nothing else happens but the trace line when tracing is on: the
    dispatcher is not entered, no context is acquired, and the access and
    error counters keep their values. *)
Theorem version_miss_returns_not_found s webc (endpoints : MultiEndpoint) tracing e :
  FindByVersion endpoints (versionLookup s webc) = None ->
  let e' :=
    if (tracing : bool)
    then mkEngine (ePool e) (eLifecycle e)
           (log_line (request_id_of webc) LevelInfo (MsgText "HttpServeEngine route not-found")
              [("http-pattern", LvStrings [wcMethod webc; wcRequestURI webc; wcURLPath webc]);
               ("http-version", LvString (versionLookup s webc))] (eShared e))
    else e in
  HandleMultiEndpointRequest s webc endpoints tracing e
    = (Returned (Some (ErrServe ErrRouteNotFound)), e')
  /\ StatusCode ErrRouteNotFound = 404
  /\ ErrorCode ErrRouteNotFound = "REQUEST_NOT_FOUND"
  /\ shMetrics (eShared e') = shMetrics (eShared e)
  /\ ePool e' = ePool e
  /\ eLifecycle e' = eLifecycle e
  /\ shTransported (eShared e') = shTransported (eShared e)
  /\ (forall sh,
        defaultServerErrorHandler s (Some (ErrServe ErrRouteNotFound)) webc sh =
        (let* failed := errorsWriter s webc (request_id_of webc) ∅ ErrRouteNotFound in
         match failed with
         | Some werr =>
             go_modify (log_line (request_id_of webc) LevelError
                          (MsgText "HttpServeEngine http response error")
                          [("error", LvString werr)])
         | None => go_ret tt
         end) sh).
Proof.
  intros Hmiss e'. unfold HandleMultiEndpointRequest. rewrite Hmiss.
  subst e'. destruct tracing; repeat split; destruct e; reflexivity.
Qed.

(** C4, as the code has it. When the handler body panics with [r], the
    deferred release runs first, then the panic is recovered at the
    handler's boundary: the panic value and the stack are logged under
    the request id, and the handler returns [nil]. *)
Theorem HandleEndpointRequest_recovers_panic s webc id endpoint e r w' :
  endpoint_request_body s webc id (mkWorld (acquired_context id webc endpoint e) (eShared e))
    = (Panicked r, w') ->
  let key := match r with PanicError _ => "error" | PanicOther _ => "recover" end in
  let e' := mkEngine (Release (wCtx w') :: tail (ePool e))
              (eLifecycle e ++ [Acquired; Released])
              (with_log (shLog (wShared w') ++
                           [mkLogEntry id LevelError (MsgText "HttpServeEngine panics")
                              [(key, LvPanic r)];
                            mkLogEntry id LevelError MsgStack []])
                 (wShared w')) in
  HandleEndpointRequest s webc id endpoint e = (Returned None, e').
Proof.
  intros Hbody key e'. rewrite HandleEndpointRequest_run, Hbody.
  subst e' key. unfold log_panic, after_release, go_modify, log_line, with_log.
  cbn. rewrite <- app_assoc. reflexivity.
Qed.

(** C8. Whatever the hooks, the filters, the transporter and the response
    writer do, panicking or not, a call of [HandleEndpointRequest]
    acquires one context and releases it once, last; the released object
    is back in the pool with its references cleared. *)
Theorem HandleEndpointRequest_releases_once s webc id endpoint e :
  let e' := snd (HandleEndpointRequest s webc id endpoint e) in
  eLifecycle e' = eLifecycle e ++ [Acquired; Released]
  /\ exists c rest,
       ePool e' = c :: rest
       /\ rest = tail (ePool e)
       /\ ctxEndpoint c = None /\ ctxWebc c = None /\ ctxAttributes c = ∅.
Proof.
  cbv zeta. rewrite HandleEndpointRequest_run.
  destruct (endpoint_request_body _ _ _ _) as [[a|r] w'].
  - split; [reflexivity|]. exists (Release (wCtx w')), (tail (ePool e)). now repeat split.
  - split; [reflexivity|]. exists (Release (wCtx w')), (tail (ePool e)). now repeat split.
Qed.

End EngineFacts.

Lemma version_miss_returns_not_found_witness :
  HandleMultiEndpointRequest (H := sample_env) sample_engine version_Z_webc ∅ true idle_engine
  = (Returned (Some (ErrServe (ErrRouteNotFound (H := sample_env)))),
     mkEngine [] []
       (log_line "req-2" LevelInfo (MsgText "HttpServeEngine route not-found")
          [("http-pattern", LvStrings ["GET"; "/v1/x"; "/v1/x"]);
           ("http-version", LvString "Z")] quiet_shared)).
Proof.
  exact (proj1 (version_miss_returns_not_found (H := sample_env) sample_engine version_Z_webc
                  ∅ true idle_engine eq_refl)).
Defined.

(** The claim of C3 fails on the route [GET /v1/x] after its only
    version was added and removed again: the handler bound at the first
    event answers a request for version [Z] with 404
    [REQUEST_NOT_FOUND], and the access and error counters, empty before
    the request, are empty after it. *)
Lemma version_miss_counts_nothing :
  let handler := mkServeHandler "GET" "/v1/x" "GET#/v1/x" false in
  let run := run_serve_handler (H := sample_env) sample_engine vacated_control handler
               version_Z_webc idle_engine in
  cpServeHandlers vacated_control = [handler]
  /\ cpRoutes vacated_control !! "GET#/v1/x" = Some ∅
  /\ fst run = Returned (Some (ErrServe
                  (mkServeError 404 "REQUEST_NOT_FOUND" "ROUTE:NOT_FOUND" ∅ None None)))
  /\ EndpointAccess (shMetrics (eShared idle_engine)) = ∅
  /\ EndpointError (shMetrics (eShared idle_engine)) = ∅
  /\ EndpointAccess (shMetrics (eShared (snd run))) = ∅
  /\ EndpointError (shMetrics (eShared (snd run))) = ∅.
Proof. cbv zeta. repeat split. Qed.

Lemma HandleEndpointRequest_recovers_panic_witness :
  HandleEndpointRequest (H := sample_env) panicking_engine sample_webc "req-1" sample_endpoint
    idle_engine
  = (Returned None,
     mkEngine
       [mkDefaultContext "req-1" None None ∅ [] 0 (mkResponse 0 ∅ "")]
       [Acquired; Released]
       (mkShared empty_metrics 0 None []
          [mkLogEntry "req-1" LevelInfo (MsgText "HttpServeEngine route start") [];
           mkLogEntry "req-1" LevelError (MsgText "HttpServeEngine panics")
             [("error", LvPanic (PanicError "hook failed"))];
           mkLogEntry "req-1" LevelError MsgStack []])).
Proof.
  exact (HandleEndpointRequest_recovers_panic (H := sample_env) panicking_engine sample_webc
           "req-1" sample_endpoint idle_engine (PanicError "hook failed") _ eq_refl).
Defined.

(** The claim of C4 fails where a context hook panics: the handler's
    result is [nil], not an internal-error [ServeError]. *)
Lemma panic_result_is_nil :
  fst (HandleEndpointRequest (H := sample_env) panicking_engine sample_webc "req-1"
         sample_endpoint idle_engine) = Returned None
  /\ forall e : ServeError,
       fst (HandleEndpointRequest (H := sample_env) panicking_engine sample_webc "req-1"
              sample_endpoint idle_engine) <> Returned (Some (ErrServe e)).
Proof. split; [reflexivity|]. intros e. discriminate. Qed.

Section ControlFacts.
Context `{FluxEnv} `{GoStrings}.
Implicit Types (cp : Control) (event : HttpEndpointEvent).

Lemma isAllowedHttpMethod_rejects method cp :
  method ∉ allowed_http_methods ->
  isAllowedHttpMethod method cp =
  (false, control_log LevelError "Ignore unsupported http method:"
            [("method", LvString method)] cp).
Proof. intros Hm. unfold isAllowedHttpMethod. now rewrite bool_decide_eq_false_2. Qed.

Lemma isAllowedHttpMethod_accepts method cp :
  method ∈ allowed_http_methods -> isAllowedHttpMethod method cp = (true, cp).
Proof. intros Hm. unfold isAllowedHttpMethod. now rewrite bool_decide_eq_true_2. Qed.

(** C6. An endpoint event whose method, upper-cased as the handler does
    before the check, is none of the eight allowed ones is logged (by
    [isAllowedHttpMethod] and by the handler) and dropped: route table,
    handlers of both web servers and service directory stay as they
    were. *)
Theorem unsupported_method_event_is_dropped tracing event cp :
  ToUpper (HttpMethod (evEndpoint event)) ∉ allowed_http_methods ->
  let cp' := HandleHttpEndpointEvent tracing event cp in
  cpRoutes cp' = cpRoutes cp
  /\ cpServeHandlers cp' = cpServeHandlers cp
  /\ cpManageHandlers cp' = cpManageHandlers cp
  /\ cpServices cp' = cpServices cp
  /\ cpLog cp' =
     cpLog cp ++
     [mkLogEntry "" LevelError (MsgText "Ignore unsupported http method:")
        [("method", LvString (ToUpper (HttpMethod (evEndpoint event))))];
      mkLogEntry "" LevelWarn (MsgText "Unsupported http method")
        [("method", LvString (ToUpper (HttpMethod (evEndpoint event))));
         ("pattern", LvString (HttpPattern (evEndpoint event)))]].
Proof.
  intros Hm cp'. subst cp'. unfold HandleHttpEndpointEvent.
  rewrite (isAllowedHttpMethod_rejects _ _ Hm). cbn.
  repeat split. now rewrite <- app_assoc.
Qed.

(** C7. After a [Removed] service event the directory has no entry under
    the service's [ServiceId] and, when the event's service has an
    [AliasId], none under that either; entries under other ids, the route
    table and the handlers are untouched. *)
Theorem removed_service_leaves_directory (service : BackendService) cp :
  let cp' := HandleBackendServiceEvent (mkBackendServiceEvent EventTypeRemoved service) cp in
  cpServices cp' !! ServiceId service = None
  /\ (AliasId service <> "" -> cpServices cp' !! AliasId service = None)
  /\ (forall id, id <> ServiceId service -> id <> AliasId service ->
        cpServices cp' !! id = cpServices cp !! id)
  /\ cpRoutes cp' = cpRoutes cp
  /\ cpServeHandlers cp' = cpServeHandlers cp
  /\ cpManageHandlers cp' = cpManageHandlers cp.
Proof.
  intros cp'. subst cp'. unfold HandleBackendServiceEvent. cbn.
  case_bool_decide as Halias; cbn.
  - split; [|split; [|split]].
    + destruct (decide (AliasId service = ServiceId service)) as [->|Hne].
      * apply lookup_delete_eq.
      * rewrite lookup_delete_ne by done. apply lookup_delete_eq.
    + intros _. apply lookup_delete_eq.
    + intros id Hid Hal. now rewrite !lookup_delete_ne.
    + now repeat split.
  - split; [|split; [|split]].
    + apply lookup_delete_eq.
    + intros Hne. now destruct Halias.
    + intros id Hid Hal. now rewrite lookup_delete_ne.
    + now repeat split.
Qed.

Lemma forget_control_log lvl msg fields cp :
  forget_methods (control_log lvl msg fields cp) = control_log lvl msg fields (forget_methods cp).
Proof. reflexivity. Qed.

Lemma forget_registerManageEndpoint method pattern etype endpoint cp :
  forget_methods (registerManageEndpoint method pattern etype endpoint cp) =
  registerManageEndpoint method pattern etype (with_method "" endpoint) (forget_methods cp).
Proof.
  unfold registerManageEndpoint, forget_methods. destruct etype; cbn; try reflexivity;
    now rewrite fmap_app.
Qed.

Lemma forget_registerServeEndpoint tracing routeKey method pattern etype endpoint cp :
  forget_methods (registerServeEndpoint tracing routeKey method pattern etype endpoint cp) =
  registerServeEndpoint tracing routeKey method pattern etype (with_method "" endpoint)
    (forget_methods cp).
Proof.
  unfold registerServeEndpoint, selectMultiEndpoint, forget_methods.
  cbn [cpRoutes]. rewrite lookup_fmap.
  destruct (cpRoutes cp !! routeKey) as [mve|]; cbn [fmap option_fmap option_map];
    destruct etype; cbn;
    unfold mve_Update, mve_Delete, RegisterMultiEndpoint; cbn;
    rewrite ?fmap_insert, ?fmap_delete, ?map_fmap_singleton, ?fmap_insert; reflexivity.
Qed.

(** C10. The handler upper-cases the method before the whitelist check
    and before it builds the route key: an accepted event of a public
    endpoint is registered under [ToUpper method # pattern], and two
    events that differ in the spelling of the method only, with the same
    upper-casing, leave the same handlers, the same route keys and the
    same versions; the states differ in nothing but the [HttpMethod]
    field kept inside the stored endpoint. *)
Theorem endpoint_event_method_case_insensitive tracing etype (endpoint : Endpoint)
    (m1 m2 : string) cp :
  ToUpper m1 = ToUpper m2 ->
  let cp1 := HandleHttpEndpointEvent tracing
               (mkHttpEndpointEvent etype (with_method m1 endpoint)) cp in
  let cp2 := HandleHttpEndpointEvent tracing
               (mkHttpEndpointEvent etype (with_method m2 endpoint)) cp in
  forget_methods cp1 = forget_methods cp2
  /\ cpServeHandlers cp1 = cpServeHandlers cp2
  /\ dom (cpRoutes cp1) = dom (cpRoutes cp2)
  /\ (forall routeKey, dom <$> (cpRoutes cp1 !! routeKey) = dom <$> (cpRoutes cp2 !! routeKey))
  /\ cpLog cp1 = cpLog cp2
  /\ (ToUpper m1 ∈ allowed_http_methods ->
      has_attribute EndpointAttrTagManaged endpoint = false ->
      cp1 = registerServeEndpoint tracing (ToUpper m1 +:+ "#" +:+ HttpPattern endpoint)
              (ToUpper m1) (HttpPattern endpoint) etype
              (mkEndpoint (Version endpoint) m1 (HttpPattern endpoint)
                 (with_arguments (initArguments (Arguments (Service endpoint))) (Service endpoint))
                 (with_arguments (initArguments (Arguments (Permission endpoint)))
                    (Permission endpoint))
                 (Attributes endpoint)) cp).
Proof.
  intros Hup cp1 cp2.
  assert (Hforget : forget_methods cp1 = forget_methods cp2).
  { subst cp1 cp2. unfold HandleHttpEndpointEvent. cbn [evEndpoint evEndpointType with_method
      HttpMethod HttpPattern Version Service Permission Attributes]. rewrite <- Hup.
    destruct (isAllowedHttpMethod (ToUpper m1) cp) as [[|] cp0]; cbn [negb].
    - unfold has_attribute. cbn [Attributes].
      case_bool_decide.
      + now rewrite !forget_registerManageEndpoint.
      + now rewrite !forget_registerServeEndpoint.
    - reflexivity. }
  split; [exact Hforget|].
  split; [exact (f_equal cpServeHandlers Hforget)|].
  assert (Hroutes : (fmap (M := gmap string) (with_method "") <$> cpRoutes cp1) =
                    (fmap (M := gmap string) (with_method "") <$> cpRoutes cp2))
    by exact (f_equal cpRoutes Hforget).
  split.
  { apply (f_equal dom) in Hroutes. now rewrite !dom_fmap_L in Hroutes. }
  split.
  { intros routeKey. apply (f_equal (fun m => m !! routeKey)) in Hroutes.
    rewrite !lookup_fmap in Hroutes.
    destruct (cpRoutes cp1 !! routeKey) as [a|], (cpRoutes cp2 !! routeKey) as [b|];
      cbn in Hroutes |- *; try congruence.
    f_equal. injection Hroutes as Hab. apply (f_equal dom) in Hab.
    now rewrite !dom_fmap_L in Hab. }
  split; [exact (f_equal cpLog Hforget)|].
  intros Hin Hpublic. subst cp1. unfold HandleHttpEndpointEvent.
  cbn [evEndpoint evEndpointType with_method HttpMethod HttpPattern Version Service
       Permission Attributes].
  rewrite (isAllowedHttpMethod_accepts _ _ Hin). cbn [negb].
  unfold has_attribute in *. cbn [Attributes] in *. now rewrite Hpublic.
Qed.

End ControlFacts.

Example ascii_ToUpper_get : ascii_ToUpper "get" = "GET".
Proof. reflexivity. Qed.

(** The event [Added GET /v1/x, version A] spelled with [get]: the route
    key and the handler carry [GET], the stored endpoint keeps [get]. *)
Example lower_get_event_registers_GET :
  HandleHttpEndpointEvent (H := sample_env) (H0 := sample_strings) false lower_get_event
    empty_control
  = mkControl {["GET#/v1/x" := {["A" := with_method "get" sample_endpoint]}]}
      [mkServeHandler "GET" "/v1/x" "GET#/v1/x" false] [] ∅
      [mkLogEntry "" LevelInfo (MsgText "New endpoint")
         [("version", LvString "A"); ("method", LvString "GET"); ("pattern", LvString "/v1/x")];
       mkLogEntry "" LevelInfo (MsgText "Register http handler")
         [("method", LvString "GET"); ("pattern", LvString "/v1/x")]].
Proof. reflexivity. Qed.

Lemma unsupported_method_event_is_dropped_witness :
  cpRoutes (HandleHttpEndpointEvent (H := sample_env) (H0 := sample_strings) false
              connect_event empty_control) = ∅.
Proof.
  exact (proj1 (unsupported_method_event_is_dropped (H := sample_env) (H0 := sample_strings)
                  false connect_event empty_control ltac:(vm_compute; intros Hin;
                    repeat (apply elem_of_cons in Hin as [Hin|Hin]; [discriminate|]);
                    now apply elem_of_nil in Hin))).
Defined.

Lemma removed_service_leaves_directory_witness :
  cpServices
    (HandleBackendServiceEvent (H := sample_env)
       (mkBackendServiceEvent EventTypeRemoved aliased_service)
       (HandleBackendServiceEvent (H := sample_env)
          (mkBackendServiceEvent EventTypeAdded aliased_service) empty_control))
  !! "users" = None.
Proof.
  refine (proj1 (proj2 (removed_service_leaves_directory (H := sample_env) aliased_service
                          (HandleBackendServiceEvent (H := sample_env)
                             (mkBackendServiceEvent EventTypeAdded aliased_service)
                             empty_control))) _).
  discriminate.
Defined.

Lemma endpoint_event_method_case_insensitive_witness :
  forget_methods (HandleHttpEndpointEvent (H := sample_env) (H0 := sample_strings) false
                    lower_get_event empty_control)
  = forget_methods (HandleHttpEndpointEvent (H := sample_env) (H0 := sample_strings) false
                      upper_get_event empty_control).
Proof.
  exact (proj1 (endpoint_event_method_case_insensitive (H := sample_env)
                  (H0 := sample_strings) false EventTypeAdded sample_endpoint "get" "GET"
                  empty_control eq_refl)).
Defined.

Section ServeFacts.

(** What a start that meets no error leaves in the [StartTLS] record:
    the public server listens on its own address and on the port of the
    key [manage-port]. *)
Lemma StartServe_listens setup info config sv :
  ssInitialized setup = true ->
  ssRouterStartup setup = None ->
  ssWatchHttpEndpoints setup = None ->
  ssWatchBackendServices setup = None ->
  svListens (snd (StartServe setup info config sv)) =
  svListens sv ++
  [mkListen ManageWebServer
     (sprintf_addr (GetString (ssConfig setup) "manage-address")
        (GetInt (ssConfig setup) "manage-port")) "" "";
   mkListen HttpWebServer
     (sprintf_addr (GetString config "address") (GetInt config "manage-port"))
     (GetString config "tls-cert-file") (GetString config "tls-key-file")].
Proof.
  intros Hinit Hrouter Hep Hsvc. unfold StartServe.
  rewrite Hinit, Hrouter, Hep, Hsvc. cbn [negb].
  unfold startServer, go_bind, spawn_event_loop, serving_log, go_modify.
  case_bool_decide; cbn;
    destruct (ssStartTLS setup ManageWebServer _); cbn;
    destruct (ssStartTLS setup HttpWebServer _); cbn;
    now rewrite <- app_assoc.
Qed.

(** C5, the code at the failing input. With [address] 0.0.0.0, [port]
    8080, [manage-address] 127.0.0.1 and [manage-port] 9527, [Startup]
    binds the admin server to 127.0.0.1:9527 and the public server to
    0.0.0.0:9527; the key [port] is not read. *)
Lemma Startup_binds_public_server_to_manage_port :
  Startup ready_setup sample_build not_serving =
  (Returned None,
   mkServing ["HttpEndpoint"; "BackendService"] true
     [mkListen ManageWebServer "127.0.0.1:9527" "" "";
      mkListen HttpWebServer "0.0.0.0:9527" "" ""]
     [mkLogEntry "" LevelInfo
        (MsgText "Version // git.commit=c0ffee, build.version=1.0, build.date=2021-01-01") [];
      mkLogEntry "" LevelInfo (MsgText "Manage web server starting")
        [("address", LvString "127.0.0.1"); ("cert", LvString ""); ("key", LvString "")];
      mkLogEntry "" LevelInfo (MsgText "Http web server starting")
        [("address", LvString "0.0.0.0"); ("cert", LvString ""); ("key", LvString "")]])
  /\ GetInt two_port_config HttpWebServerConfigKeyPort = 8080.
Proof. split; vm_compute; reflexivity. Qed.

End ServeFacts.

Section FilterLoadingFacts.
Implicit Types (factories : gmap string Component) (entry : Configuration)
  (entries before after : list Configuration) (out : list AwareConfig) (xs : ExtState).

Lemma dynamicFilters_loop_skip factories entry after out xs :
  skipped entry ->
  dynamicFilters_loop factories (entry :: after) out xs =
  dynamicFilters_loop factories after out xs.
Proof.
  intros [Hid|Hdis]; cbn [dynamicFilters_loop].
  - now rewrite decide_True.
  - destruct (decide _); [reflexivity|]. now rewrite Hdis.
Qed.

Lemma dynamicFilters_loop_skip_middle factories before entry after out xs :
  skipped entry ->
  dynamicFilters_loop factories (before ++ entry :: after) out xs =
  dynamicFilters_loop factories (before ++ after) out xs.
Proof.
  intros Hskip. revert out xs.
  induction before as [|config rest IH]; intros out xs.
  - now apply dynamicFilters_loop_skip.
  - cbn [app dynamicFilters_loop].
    destruct (decide _); [apply IH|].
    destruct (IsDisabled config); [apply IH|].
    apply go_bind_ext. intros [factory|] xs1; [apply IH | reflexivity].
Qed.

Lemma dynamicFilters_loop_unloadable factories entry after out xs :
  unloadable factories entry ->
  dynamicFilters_loop factories (entry :: after) out xs =
  if decide (GetString entry dynConfigKeyFilterType = "")
  then (Panicked (PanicOther "typeName is empty"), xs)
  else (Returned (inr ("FilterFactory not found, filter-type: "
                       +:+ GetString entry dynConfigKeyFilterType
                       +:+ ", filter-id: " +:+ GetString entry dynConfigKeyFilterId)), xs).
Proof.
  intros (Hid & Hdis & Hnone). cbn [dynamicFilters_loop].
  rewrite decide_False by done. rewrite Hdis.
  unfold FactoryByType, MustNotEmpty, go_bind.
  destruct (decide _) as [Hempty|Hfull]; [reflexivity|].
  cbn. now rewrite Hnone.
Qed.

Lemma dynamicFilters_loop_never_loads factories entries entry out xs :
  entry ∈ entries ->
  unloadable factories entry ->
  forall loaded, fst (dynamicFilters_loop factories entries out xs) <> Returned (inl loaded).
Proof.
  intros Hin Hbad. revert out.
  induction entries as [|config rest IH]; intros out loaded.
  - now apply elem_of_nil in Hin.
  - apply elem_of_cons in Hin as [<-|Hin].
    + rewrite dynamicFilters_loop_unloadable by done.
      destruct (decide _); discriminate.
    + cbn [dynamicFilters_loop].
      destruct (decide _); [now apply IH|].
      destruct (IsDisabled config); [now apply IH|].
      unfold FactoryByType, MustNotEmpty, go_bind.
      destruct (decide _); [discriminate|]. cbn.
      destruct (factories !! _); [now apply IH | discriminate].
Qed.

Lemma Init_needs_loaded_filters setup entries xs :
  fst (Init setup entries xs) = Returned None ->
  exists loaded xs1, dynamicFilters (isFactories setup) entries xs1 = (Returned (inl loaded), xs1).
Proof.
  unfold Init, go_bind.
  destruct (init_transporters _ _ xs) as [[[e1|]|r1] xs1]; try discriminate.
  destruct (init_static_filters _ _ xs1) as [[[e2|]|r2] xs2]; try discriminate.
  destruct (dynamicFilters _ _ xs2) as [[[loaded|e3]|r3] xs3] eqn:Hdyn; try discriminate.
  intros _. exists loaded, xs2.
  assert (xs3 = xs2) as ->; [|exact Hdyn].
  clear -Hdyn. unfold dynamicFilters in Hdyn. revert Hdyn. generalize (@nil AwareConfig).
  induction entries as [|config rest IH]; intros out; cbn [dynamicFilters_loop].
  - intros [= _ ->]. reflexivity.
  - destruct (decide _); [apply IH|].
    destruct (IsDisabled config); [apply IH|].
    unfold FactoryByType, MustNotEmpty, go_bind.
    destruct (decide _); [discriminate|]. cbn.
    destruct (isFactories setup !! _); [apply IH | discriminate].
Qed.

(** C9. In the [dynfilter] block an entry without [id] and an entry with
    [disabled=true] are passed over: the loader, and [Init] after it,
    do what they do without the entry, so no component is made from it.
    An entry with an [id], not disabled, whose [type] has no factory
    makes the loader fail: it returns the error [FilterFactory not
    found] (it panics in [FactoryByType] when the type is empty),
    whatever the other entries are it never returns a list, and [Init]
    does not return [nil]. *)
Theorem dynamic_filter_entries setup before entry after xs :
  (GetString entry "id" = "" ->
     dynamicFilters (isFactories setup) (before ++ entry :: after) xs
       = dynamicFilters (isFactories setup) (before ++ after) xs
     /\ Init setup (before ++ entry :: after) xs = Init setup (before ++ after) xs)
  /\ (GetBool entry "disabled" = true ->
     dynamicFilters (isFactories setup) (before ++ entry :: after) xs
       = dynamicFilters (isFactories setup) (before ++ after) xs
     /\ Init setup (before ++ entry :: after) xs = Init setup (before ++ after) xs)
  /\ (GetString entry "id" <> "" ->
      GetBool entry "disabled" = false ->
      isFactories setup !! GetString entry "type" = None ->
      (GetString entry "type" <> "" ->
       dynamicFilters (isFactories setup) (entry :: after) xs =
       (Returned (inr ("FilterFactory not found, filter-type: " +:+ GetString entry "type"
                       +:+ ", filter-id: " +:+ GetString entry "id")), xs))
      /\ (forall loaded,
            fst (dynamicFilters (isFactories setup) (before ++ entry :: after) xs)
              <> Returned (inl loaded))
      /\ fst (Init setup (before ++ entry :: after) xs) <> Returned None).
Proof.
  assert (Hskip : skipped entry ->
     dynamicFilters (isFactories setup) (before ++ entry :: after) xs
       = dynamicFilters (isFactories setup) (before ++ after) xs
     /\ Init setup (before ++ entry :: after) xs = Init setup (before ++ after) xs).
  { intros Hs. split.
    - now apply dynamicFilters_loop_skip_middle.
    - unfold Init. apply go_bind_ext. intros [e1|] xs1; [reflexivity|].
      apply go_bind_ext. intros [e2|] xs2; [reflexivity|].
      unfold go_bind, dynamicFilters.
      now rewrite dynamicFilters_loop_skip_middle. }
  split; [intros Hid; apply Hskip; now left|].
  split; [intros Hdis; apply Hskip; now right|].
  intros Hid Hdis Hnone.
  assert (Hbad : unloadable (isFactories setup) entry) by done.
  split; [|split].
  - intros Htype. unfold dynamicFilters.
    rewrite dynamicFilters_loop_unloadable by done. now rewrite decide_False.
  - intros loaded. apply (dynamicFilters_loop_never_loads _ _ entry); [|done].
    apply elem_of_app. right. apply elem_of_cons. now left.
  - intros Hok. apply Init_needs_loaded_filters in Hok as (loaded & xs1 & Hdyn).
    apply (dynamicFilters_loop_never_loads (isFactories setup) (before ++ entry :: after)
             entry [] xs1 ltac:(apply elem_of_app; right; apply elem_of_cons; now left)
             Hbad loaded).
    unfold dynamicFilters in Hdyn. now rewrite Hdyn.
Qed.

End FilterLoadingFacts.

Lemma dynamic_filter_entries_witness :
  (dynamicFilters sample_factories [entry_loading; entry_without_id] fresh_ext
     = dynamicFilters sample_factories [entry_loading] fresh_ext)
  /\ (Init sample_init_setup [entry_loading; entry_disabled] fresh_ext
     = Init sample_init_setup [entry_loading] fresh_ext)
  /\ fst (Init sample_init_setup [entry_loading; entry_unknown_type; entry_disabled] fresh_ext)
     <> Returned None.
Proof.
  split; [|split].
  - exact (proj1 (proj1 (dynamic_filter_entries sample_init_setup [entry_loading]
                           entry_without_id [] fresh_ext) eq_refl)).
  - exact (proj2 (proj1 (proj2 (dynamic_filter_entries sample_init_setup [entry_loading]
                                  entry_disabled [] fresh_ext)) eq_refl)).
  - refine (proj2 (proj2 (proj2 (proj2 (dynamic_filter_entries sample_init_setup
                                          [entry_loading] entry_unknown_type
                                          [entry_disabled] fresh_ext)) _ eq_refl eq_refl))).
    discriminate.
Defined.

(* ================================================================= *)
(** * Part III: further properties of the code *)
(* ================================================================= *)

Section DispatcherMoreFacts.
Implicit Types (ext : Extensions) (w : World).

Lemma Inc_lookup_eq `{Countable K} (k : K) (c : gmap K nat) :
  Inc k c !! k = Some (S (default 0%nat (c !! k))).
Proof. unfold Inc. apply lookup_insert_eq. Qed.

Lemma Inc_lookup_ne `{Countable K} (k k' : K) (c : gmap K nat) :
  k <> k' -> Inc k c !! k' = c !! k'.
Proof. intros Hne. unfold Inc. now apply lookup_insert_ne. Qed.

Lemma doMetricEndpointFunc_counts w ep result :
  ctxEndpoint (wCtx w) = Some ep ->
  doMetricEndpointFunc result w =
  (Returned result, with_shared (count_result (service_labels (Service ep)) result) w).
Proof.
  intros Hep. destruct result as [e|].
  - now rewrite (doMetricEndpointFunc_error _ ep).
  - now rewrite (doMetricEndpointFunc_ok _ ep).
Qed.

(** X1. When the filter chain (or the transporter under it) panics,
    [Route] panics with the same value: the deferred [route] metric is
    still added to the context, and the request is counted neither as an
    access nor as an error. *)
Theorem Route_panic_is_not_counted ext w selective w1 r w2 :
  select_filters (FilterSelectors ext) [] w = (Returned selective, w1) ->
  walk (transport ext) (GlobalFilters ext ++ selective) (add_metric "selector" w1)
    = (Panicked r, w2) ->
  Route ext w = (Panicked r, add_metric "route" w2)
  /\ ctxMetrics (wCtx (add_metric "route" w2))
     = ctxMetrics (wCtx w2) ++ [("route", shNow (wShared w2) - ctxStartAt (wCtx w2))]
  /\ shMetrics (wShared (add_metric "route" w2)) = shMetrics (wShared w2).
Proof.
  intros Hsel Hchain. split; [|split; reflexivity].
  unfold Route, AddMetric. apply defer_modify.
  rewrite (go_bind_returned _ _ _ _ _ Hsel), go_bind_modify.
  unfold go_bind. now rewrite Hchain.
Qed.

Lemma Route_panic_is_not_counted_witness :
  Route (mkExtensions [tracing_filter "A"; panicking_filter "P"] [] ∅) sample_world
  = (Panicked (PanicOther "filter failed"),
     add_metric "route"
       (with_shared (log_line "" LevelInfo (MsgText "A") [])
          (add_metric "selector" sample_world))).
Proof.
  exact (proj1 (Route_panic_is_not_counted
                  (mkExtensions [tracing_filter "A"; panicking_filter "P"] [] ∅)
                  sample_world [] sample_world (PanicOther "filter failed") _
                  eq_refl eq_refl)).
Defined.

(** X2. [Route] returns what the filter chain returns, error or nil, and
    counts the request once it has: one access under the labels of the
    context's service, every other access label untouched, one error
    under those labels and the error's code when the chain returned an
    error and none when it returned nil; it makes no histogram
    observation of its own. *)
Theorem Route_counts_the_chain_result ext w selective w1 result w2 ep :
  select_filters (FilterSelectors ext) [] w = (Returned selective, w1) ->
  walk (transport ext) (GlobalFilters ext ++ selective) (add_metric "selector" w1)
    = (Returned result, w2) ->
  ctxEndpoint (wCtx w2) = Some ep ->
  let labels := service_labels (Service ep) in
  let w3 := add_metric "route" (with_shared (count_result labels result) w2) in
  let before := shMetrics (wShared w2) in
  let after := shMetrics (wShared w3) in
  Route ext w = (Returned result, w3)
  /\ EndpointAccess after !! labels
     = Some (S (default 0%nat (EndpointAccess before !! labels)))
  /\ (forall other, other <> labels ->
        EndpointAccess after !! other = EndpointAccess before !! other)
  /\ (forall e, result = Some e ->
        EndpointError after !! (labels, ErrorCode e)
        = Some (S (default 0%nat (EndpointError before !! (labels, ErrorCode e)))))
  /\ (result = None -> EndpointError after = EndpointError before)
  /\ RouteDuration after = RouteDuration before.
Proof.
  intros Hsel Hchain Hep labels w3 before after.
  split.
  { unfold Route, AddMetric. apply defer_modify.
    rewrite (go_bind_returned _ _ _ _ _ Hsel), go_bind_modify.
    unfold go_bind. rewrite Hchain. now rewrite (doMetricEndpointFunc_counts _ ep). }
  subst after before w3. destruct w2 as [c sh]. destruct result as [e|]; cbn.
  - split; [apply Inc_lookup_eq|]. split; [intros other Hne; now apply Inc_lookup_ne|].
    split; [|split; [discriminate | reflexivity]].
    intros e' [= <-]. apply Inc_lookup_eq.
  - split; [apply Inc_lookup_eq|]. split; [intros other Hne; now apply Inc_lookup_ne|].
    split; [discriminate|]. split; reflexivity.
Qed.

Lemma Route_counts_the_chain_result_witness :
  Route (mkExtensions [rejecting_filter "deny" permission_denied] [] ∅) sample_world
  = (Returned (Some permission_denied),
     add_metric "route"
       (with_shared (count_result ("http", "/internal/users", "GET") (Some permission_denied))
          (add_metric "selector" sample_world))).
Proof.
  exact (proj1 (Route_counts_the_chain_result
                  (mkExtensions [rejecting_filter "deny" permission_denied] [] ∅)
                  sample_world [] sample_world (Some permission_denied) _ sample_endpoint
                  eq_refl eq_refl eq_refl)).
Defined.

(** X3. With the token not done and no transporter registered for the
    protocol of the context's service, the terminal step answers 404
    [REQUEST_NOT_FOUND] with the message [ROUTE:UNKNOWN_PROTOCOL:] and
    the protocol, logs the protocol under the request id, and adds the
    [transporter] metric; it calls no transporter and observes no
    duration. *)
Theorem transport_unknown_protocol ext w ep :
  shDone (wShared w) = None ->
  ctxEndpoint (wCtx w) = Some ep ->
  Transporters ext !! RpcProto (Service ep) = None ->
  let proto := RpcProto (Service ep) in
  let w' := add_metric "transporter"
              (with_shared (log_line (ctxRequestId (wCtx w)) LevelError
                              (MsgText "SERVER:ROUTE:UNSUPPORTED_PROTOCOL")
                              [("proto", LvString proto); ("service", LvService (Service ep))])
                 w) in
  transport ext w
    = (Returned (Some (mkServeError 404 "REQUEST_NOT_FOUND"
                         ("ROUTE:UNKNOWN_PROTOCOL:" +:+ proto) ∅ None None)), w')
  /\ shTransported (wShared w') = shTransported (wShared w)
  /\ shMetrics (wShared w') = shMetrics (wShared w).
Proof.
  intros Hdone Hep Hnone proto w'. split; [|split; reflexivity].
  unfold transport. rewrite Hdone. unfold AddMetric. apply defer_modify.
  unfold go_bind, ctx_Service. rewrite Hep. cbn. now rewrite Hnone.
Qed.

Lemma transport_unknown_protocol_witness :
  fst (transport no_transporter_extensions sample_world)
  = Returned (Some (mkServeError 404 "REQUEST_NOT_FOUND" "ROUTE:UNKNOWN_PROTOCOL:http"
                      ∅ None None)).
Proof.
  exact (f_equal fst (proj1 (transport_unknown_protocol no_transporter_extensions
                               sample_world sample_endpoint eq_refl eq_refl eq_refl))).
Defined.

(** X4. With the token not done and a transporter registered for the
    protocol, the terminal step calls it once. When the transporter
    returns, the step returns nil, observes the time the call took under
    [("Transporter", proto)] and adds the [transporter] metric; when the
    transporter panics, the panic goes on, no duration is observed, and
    the [transporter] metric is added all the same. *)
Theorem transport_calls_the_transporter ext w ep (transporter : Transporter) :
  shDone (wShared w) = None ->
  ctxEndpoint (wCtx w) = Some ep ->
  Transporters ext !! RpcProto (Service ep) = Some transporter ->
  let proto := RpcProto (Service ep) in
  (forall w1,
     transporter (transport_called proto w) = (Returned tt, w1) ->
     transport ext w
     = (Returned None,
        add_metric "transporter"
          (with_shared (fun sh =>
             observe "Transporter" proto (shNow sh - shNow (wShared w)) sh) w1)))
  /\ (forall r w1,
        transporter (transport_called proto w) = (Panicked r, w1) ->
        transport ext w = (Panicked r, add_metric "transporter" w1)).
Proof.
  intros Hdone Hep Hsome proto. split.
  - intros w1 Hrun. unfold transport. rewrite Hdone. unfold AddMetric. apply defer_modify.
    unfold go_bind, ctx_Service. rewrite Hep. cbv beta iota zeta. rewrite Hsome.
    unfold transport_called in Hrun. cbn [go_get go_modify]. fold proto.
    rewrite Hrun. reflexivity.
  - intros r w1 Hrun. unfold transport. rewrite Hdone. unfold AddMetric. apply defer_modify.
    unfold go_bind, ctx_Service. rewrite Hep. cbv beta iota zeta. rewrite Hsome.
    unfold transport_called in Hrun. cbn [go_get go_modify]. fold proto.
    now rewrite Hrun.
Qed.

Lemma transport_calls_the_transporter_witness :
  transport panicking_transporter_extensions sample_world
  = (Panicked (PanicError "connection reset"),
     add_metric "transporter" (transport_called "http" sample_world)).
Proof.
  exact (proj2 (transport_calls_the_transporter panicking_transporter_extensions sample_world
                  sample_endpoint panicking_transporter eq_refl eq_refl eq_refl)
           (PanicError "connection reset") _ eq_refl).
Defined.



End DispatcherMoreFacts.

Section EngineMoreFacts.
Context `{FluxEnv}.
Implicit Types (s : HttpServeEngine) (e : Engine) (webc : WebContext).

(** X6. When [Route] returns an error, [HandleEndpointRequest] returns
    that error with the response's headers merged into it; it logs the
    error and the line [route end] with the error's status code, and the
    response writer is not called: the result and the state do not depend
    on it. The context is released after the two lines are logged. *)
Theorem HandleEndpointRequest_returns_route_error s webc id endpoint e w1 w2 err :
  run_hooks (ctxHooks s) webc (handler_start id webc endpoint e) = (Returned tt, w1) ->
  Route (router s) w1 = (Returned (Some err), w2) ->
  let logged :=
    with_shared (log_line (ctxRequestId (wCtx w2)) LevelError
                   (MsgText "HttpServeEngine route error") [("error", LvServeError err)]) w2 in
  let returned :=
    mkServeError (StatusCode err) (ErrorCode err) (Message err)
      (MergeHeader (ErrHeader err) (rspHeaderValues (ctxResponse (wCtx w2))))
      (CauseError err) (Internal err) in
  HandleEndpointRequest s webc id endpoint e
  = (Returned (Some (ErrServe returned)),
     after_release e (route_end_line (StatusCode err) (shNow (eShared e)) logged)).
Proof.
  intros Hhooks Hroute logged returned.
  rewrite HandleEndpointRequest_run.
  unfold endpoint_request_body, trace_context_log.
  rewrite go_bind_modify. unfold go_bind at 1. cbn [go_get].
  unfold handler_start in Hhooks. cbn [wCtx acquired_context ctxRequestId].
  rewrite (go_bind_returned _ _ _ _ _ Hhooks), (go_bind_returned _ _ _ _ _ Hroute).
  unfold endcall, trace_context_log. erewrite defer_modify; cycle 1.
  { reflexivity. }
  reflexivity.
Qed.

(** X7. When [Route] returns nil, [HandleEndpointRequest] calls the
    response writer with the headers, the status code and the body the
    context's response holds then, and returns what the writer returns;
    the line [route end] carries the status code read before the writer
    ran. *)
Theorem HandleEndpointRequest_writes_response s webc id endpoint e w1 w2 w3 written :
  run_hooks (ctxHooks s) webc (handler_start id webc endpoint e) = (Returned tt, w1) ->
  Route (router s) w1 = (Returned None, w2) ->
  responseWriter s webc id (rspHeaderValues (ctxResponse (wCtx w2)))
    (rspStatusCode (ctxResponse (wCtx w2))) (rspBody (ctxResponse (wCtx w2))) w2
    = (Returned written, w3) ->
  HandleEndpointRequest s webc id endpoint e
  = (Returned written,
     after_release e
       (route_end_line (rspStatusCode (ctxResponse (wCtx w2))) (shNow (eShared e)) w3)).
Proof.
  intros Hhooks Hroute Hwrite.
  rewrite HandleEndpointRequest_run.
  unfold endpoint_request_body, trace_context_log.
  rewrite go_bind_modify. unfold go_bind at 1. cbn [go_get].
  unfold handler_start in Hhooks. cbn [wCtx acquired_context ctxRequestId].
  rewrite (go_bind_returned _ _ _ _ _ Hhooks), (go_bind_returned _ _ _ _ _ Hroute).
  unfold go_bind. cbn [go_get].
  unfold endcall, trace_context_log. erewrite defer_modify; cycle 1.
  { exact Hwrite. }
  reflexivity.
Qed.


(** X9. [defaultServerErrorHandler]: for a nil error nothing is written
    and nothing changes; a [*ServeError] goes to the errors writer as it
    is, with its own header; any other error goes as status 500, code
    [GATEWAY_INTERNAL], its text as message and itself as [Internal],
    with an empty header. What the writer returns is not passed on: an
    error of the writer is logged under the request id, nothing more. *)
Theorem defaultServerErrorHandler_cases s webc (sh : Shared) :
  defaultServerErrorHandler s None webc sh = (Returned tt, sh)
  /\ (forall failure sh1 failed,
        let serve :=
          match failure with
          | ErrServe e => e
          | ErrOther msg => mkServeError 500 "GATEWAY_INTERNAL" msg ∅ None (Some msg)
          end in
        errorsWriter s webc (request_id_of webc) (ErrHeader serve) serve sh
          = (Returned failed, sh1) ->
        defaultServerErrorHandler s (Some failure) webc sh
        = (Returned tt,
           match failed with
           | Some werr =>
               log_line (request_id_of webc) LevelError
                 (MsgText "HttpServeEngine http response error")
                 [("error", LvString werr)] sh1
           | None => sh1
           end)).
Proof.
  split; [reflexivity|].
  intros failure sh1 failed serve Hwrite. subst serve.
  unfold defaultServerErrorHandler, StatusServerError, ErrorCodeGatewayInternal, go_bind.
  destruct failure as [e|msg]; rewrite Hwrite; now destruct failed.
Qed.

End EngineMoreFacts.

Lemma HandleEndpointRequest_returns_route_error_witness :
  fst (HandleEndpointRequest (H := sample_env) rejecting_engine sample_webc "req-1"
         sample_endpoint idle_engine)
  = Returned (Some (ErrServe permission_denied)).
Proof.
  exact (f_equal fst
           (HandleEndpointRequest_returns_route_error (H := sample_env) rejecting_engine
              sample_webc "req-1" sample_endpoint idle_engine _ _ permission_denied
              eq_refl eq_refl)).
Defined.

Lemma HandleEndpointRequest_writes_response_witness :
  fst (HandleEndpointRequest (H := sample_env) failing_writer_engine sample_webc "req-1"
         sample_endpoint idle_engine)
  = Returned (Some (ErrOther "broken pipe")).
Proof.
  exact (f_equal fst
           (HandleEndpointRequest_writes_response (H := sample_env) failing_writer_engine
              sample_webc "req-1" sample_endpoint idle_engine _ _ _
              (Some (ErrOther "broken pipe")) eq_refl eq_refl eq_refl)).
Defined.

Lemma defaultServerErrorHandler_cases_witness :
  defaultServerErrorHandler (H := sample_env) failing_errors_engine
    (Some (ErrOther "boom")) sample_webc quiet_shared
  = (Returned tt,
     log_line "req-1" LevelError (MsgText "HttpServeEngine http response error")
       [("error", LvString "broken pipe")] quiet_shared).
Proof.
  exact (proj2 (defaultServerErrorHandler_cases (H := sample_env) failing_errors_engine
                  sample_webc quiet_shared)
           (ErrOther "boom") quiet_shared (Some "broken pipe") eq_refl).
Defined.

Section ControlMoreFacts.
Context `{FluxEnv} `{GoStrings}.
Implicit Types (cp : Control) (event : HttpEndpointEvent) (endpoint : Endpoint).

Lemma HandleHttpEndpointEvent_public tracing etype endpoint cp :
  public_endpoint endpoint ->
  HandleHttpEndpointEvent tracing (mkHttpEndpointEvent etype endpoint) cp
  = registerServeEndpoint tracing (route_key_of endpoint) (ToUpper (HttpMethod endpoint))
      (HttpPattern endpoint) etype (initialized_endpoint endpoint) cp.
Proof.
  intros [Hin Hpublic]. unfold HandleHttpEndpointEvent. cbn [evEndpoint evEndpointType].
  rewrite (isAllowedHttpMethod_accepts _ _ Hin). cbn [negb].
  unfold has_attribute in *. cbn [Attributes] in *. now rewrite Hpublic.
Qed.

Lemma HandleHttpEndpointEvent_managed tracing etype endpoint cp :
  managed_endpoint endpoint ->
  HandleHttpEndpointEvent tracing (mkHttpEndpointEvent etype endpoint) cp
  = registerManageEndpoint (ToUpper (HttpMethod endpoint)) (HttpPattern endpoint) etype
      (initialized_endpoint endpoint) cp.
Proof.
  intros [Hin Hmanaged]. unfold HandleHttpEndpointEvent. cbn [evEndpoint evEndpointType].
  rewrite (isAllowedHttpMethod_accepts _ _ Hin). cbn [negb].
  unfold has_attribute in *. cbn [Attributes] in *. now rewrite Hmanaged.
Qed.

Lemma registerServeEndpoint_routes tracing routeKey method pattern etype endpoint cp :
  cpRoutes (registerServeEndpoint tracing routeKey method pattern etype endpoint cp)
  = <[routeKey := table_after etype endpoint (table_before routeKey endpoint cp)]> (cpRoutes cp).
Proof.
  unfold registerServeEndpoint, selectMultiEndpoint, table_before, table_after.
  destruct (cpRoutes cp !! routeKey) as [mve|]; destruct etype; cbn;
    rewrite ?insert_insert_eq; reflexivity.
Qed.

Lemma registerServeEndpoint_handlers tracing routeKey method pattern etype endpoint cp :
  cpServeHandlers (registerServeEndpoint tracing routeKey method pattern etype endpoint cp)
  = cpServeHandlers cp ++
    match etype, cpRoutes cp !! routeKey with
    | EventTypeAdded, None => [mkServeHandler method pattern routeKey tracing]
    | _, _ => []
    end.
Proof.
  unfold registerServeEndpoint, selectMultiEndpoint.
  destruct (cpRoutes cp !! routeKey) as [mve|]; destruct etype; cbn;
    rewrite ?app_nil_r; reflexivity.
Qed.

Lemma registerServeEndpoint_frame tracing routeKey method pattern etype endpoint cp :
  cpManageHandlers (registerServeEndpoint tracing routeKey method pattern etype endpoint cp)
    = cpManageHandlers cp
  /\ cpServices (registerServeEndpoint tracing routeKey method pattern etype endpoint cp)
    = cpServices cp.
Proof.
  unfold registerServeEndpoint, selectMultiEndpoint.
  destruct (cpRoutes cp !! routeKey) as [mve|]; destruct etype; cbn; now split.
Qed.

(** What one endpoint event does to the route table and to the handlers
    of the public server: nothing, or it writes the table of one route
    key and binds at most one handler, for that key, and only when the
    key had no table. *)
Lemma HandleHttpEndpointEvent_effect tracing event cp :
  let cp' := HandleHttpEndpointEvent tracing event cp in
  (cpRoutes cp' = cpRoutes cp /\ cpServeHandlers cp' = cpServeHandlers cp)
  \/ exists routeKey mve,
       cpRoutes cp' = <[routeKey := mve]> (cpRoutes cp)
       /\ (cpServeHandlers cp' = cpServeHandlers cp
           \/ cpRoutes cp !! routeKey = None
              /\ exists method pattern,
                   routeKey = method +:+ "#" +:+ pattern
                   /\ cpServeHandlers cp'
                      = cpServeHandlers cp ++ [mkServeHandler method pattern routeKey tracing]).
Proof.
  cbv zeta. unfold HandleHttpEndpointEvent.
  unfold isAllowedHttpMethod. case_bool_decide as Hallowed; cbn [negb].
  - destruct (has_attribute _ _).
    + left. unfold registerManageEndpoint. destruct (evEndpointType event); now split.
    + right. eexists _, _. split; [apply registerServeEndpoint_routes|].
      rewrite registerServeEndpoint_handlers.
      destruct (evEndpointType event), (cpRoutes cp !! _) eqn:Hk;
        rewrite ?app_nil_r; try (now left).
      right. split; [done|]. eexists _, _. split; reflexivity.
  - left. now split.
Qed.

(** X10. Each endpoint event keeps the bookkeeping of the public server
    sound, so it holds after any run of the event loop: every handler
    bound belongs to a table that is in the route table, under the key
    made of its method, [#] and its pattern, and no route key has two
    handlers. *)
Theorem endpoint_events_keep_handlers_bound tracing (events : list HttpEndpointEvent) cp :
  handlers_bound cp ->
  handlers_bound (endpoint_event_loop tracing events cp).
Proof.
  unfold endpoint_event_loop. revert cp.
  induction events as [|event events IH]; intros cp Hinv; [exact Hinv|].
  cbn [foldl]. apply IH. clear IH events.
  destruct Hinv as [Hnodup Hbound].
  destruct (HandleHttpEndpointEvent_effect tracing event cp)
    as [[Hroutes Hhandlers]|(routeKey & mve & Hroutes & Hhandlers)]; unfold handlers_bound.
  - now rewrite Hroutes, Hhandlers.
  - rewrite Hroutes, dom_insert_L.
    destruct Hhandlers as [Hsame|(Hfresh & method & pattern & -> & Hadded)].
    + rewrite Hsame. split; [done|].
      intros handler Hin. destruct (Hbound handler Hin).
      split; [now apply elem_of_union_r | done].
    + rewrite Hadded. split.
      * rewrite fmap_app. apply NoDup_app. split; [done|]. split; [|apply NoDup_singleton].
        intros key Hkey Hnew. cbn in Hnew. apply list_elem_of_singleton in Hnew as ->.
        apply list_elem_of_fmap in Hkey as (handler & Hk & Hin).
        destruct (Hbound handler Hin) as [Hdom _]. rewrite <- Hk in Hdom.
        apply elem_of_dom in Hdom as [? Hsome]. congruence.
      * intros handler Hin. apply elem_of_app in Hin as [Hin|Hin].
        -- destruct (Hbound handler Hin). split; [now apply elem_of_union_r | done].
        -- apply list_elem_of_singleton in Hin as ->. cbn.
           split; [apply elem_of_union_l; now apply elem_of_singleton | done].
Qed.

(** X11. The event loop never takes back what it gave the public server:
    after any events the handlers bound before are still bound, in the
    same order before the new ones, and every route key that had a table
    still has one. *)
Theorem endpoint_events_never_unbind tracing (events : list HttpEndpointEvent) cp :
  (exists added,
     cpServeHandlers (endpoint_event_loop tracing events cp) = cpServeHandlers cp ++ added)
  /\ dom (cpRoutes cp) ⊆ dom (cpRoutes (endpoint_event_loop tracing events cp)).
Proof.
  unfold endpoint_event_loop. revert cp.
  induction events as [|event events IH]; intros cp.
  - split; [exists []; now rewrite app_nil_r | done].
  - cbn [foldl].
    destruct (IH (HandleHttpEndpointEvent tracing event cp)) as [[added Hadded] Hdom].
    destruct (HandleHttpEndpointEvent_effect tracing event cp)
      as [[Hroutes Hhandlers]|(routeKey & mve & Hroutes & Hhandlers)].
    + rewrite Hhandlers in Hadded. rewrite Hroutes in Hdom. split; [now exists added | done].
    + rewrite Hroutes, dom_insert_L in Hdom.
      split; [|etrans; [apply union_subseteq_r | exact Hdom]].
      destruct Hhandlers as [Hsame|(_ & method & pattern & _ & Hnew)].
      * rewrite Hsame in Hadded. now exists added.
      * rewrite Hnew, <- app_assoc in Hadded. eauto.
Qed.

(** X12. An event of a public endpoint with an allowed method writes one
    version of one route: afterwards the route key (upper-cased method,
    [#], pattern) has a table; the event's version maps to the endpoint
    with its arguments initialised after [Added] and [Updated] and to
    nothing after [Removed]; the other versions of the route and all
    other routes are as before. The table stays in the route table when
    its last version is removed. *)
Theorem endpoint_event_writes_one_version tracing etype endpoint cp :
  public_endpoint endpoint ->
  let cp' := HandleHttpEndpointEvent tracing (mkHttpEndpointEvent etype endpoint) cp in
  let routeKey := route_key_of endpoint in
  (exists mve : MultiEndpoint,
     cpRoutes cp' !! routeKey = Some mve
     /\ mve !! Version endpoint
        = match etype with
          | EventTypeRemoved => None
          | _ => Some (initialized_endpoint endpoint)
          end
     /\ forall version, version <> Version endpoint ->
          mve !! version = (cpRoutes cp !! routeKey) ≫= (fun old => old !! version))
  /\ forall other, other <> routeKey -> cpRoutes cp' !! other = cpRoutes cp !! other.
Proof.
  intros Hpublic cp' routeKey. subst cp'.
  rewrite (HandleHttpEndpointEvent_public _ _ _ _ Hpublic), registerServeEndpoint_routes.
  fold routeKey. split.
  - eexists. split; [apply lookup_insert_eq|].
    unfold table_after, table_before, RegisterMultiEndpoint.
    change (Version (initialized_endpoint endpoint)) with (Version endpoint).
    split.
    + destruct etype; [apply lookup_insert_eq .. | apply lookup_delete_eq].
    + intros version Hne.
      destruct (cpRoutes cp !! routeKey) as [old|]; cbn [default mbind option_bind];
        destruct etype;
        rewrite ?lookup_insert_ne, ?lookup_delete_ne, ?lookup_singleton_ne by done;
        reflexivity.
  - intros other Hne. now apply lookup_insert_ne.
Qed.

(** X13. An event of a public endpoint binds a handler on the public
    server in one case only: it is [Added] and its route key has no table
    yet. An [Added] for a known key, an [Updated] and a [Removed] bind
    none, and no event touches the admin server's handlers or the service
    directory. *)
Theorem endpoint_event_binds_first_added_only tracing etype endpoint cp :
  public_endpoint endpoint ->
  let cp' := HandleHttpEndpointEvent tracing (mkHttpEndpointEvent etype endpoint) cp in
  cpServeHandlers cp'
  = cpServeHandlers cp ++
    match etype, cpRoutes cp !! route_key_of endpoint with
    | EventTypeAdded, None =>
        [mkServeHandler (ToUpper (HttpMethod endpoint)) (HttpPattern endpoint)
           (route_key_of endpoint) tracing]
    | _, _ => []
    end
  /\ cpManageHandlers cp' = cpManageHandlers cp
  /\ cpServices cp' = cpServices cp.
Proof.
  intros Hpublic cp'. subst cp'.
  rewrite (HandleHttpEndpointEvent_public _ _ _ _ Hpublic).
  split; [apply registerServeEndpoint_handlers | apply registerServeEndpoint_frame].
Qed.

Lemma endpoint_event_keeps_route_unbound tracing event cp (routeKey : string) :
  routeKey ∈ dom (cpRoutes cp) ->
  (forall handler, handler ∈ cpServeHandlers cp -> shRouteKey handler <> routeKey) ->
  routeKey ∈ dom (cpRoutes (HandleHttpEndpointEvent tracing event cp))
  /\ forall handler,
       handler ∈ cpServeHandlers (HandleHttpEndpointEvent tracing event cp) ->
       shRouteKey handler <> routeKey.
Proof.
  intros Hdom Hnone.
  destruct (HandleHttpEndpointEvent_effect tracing event cp)
    as [[Hroutes Hhandlers]|(key & mve & Hroutes & Hhandlers)].
  - now rewrite Hroutes, Hhandlers.
  - rewrite Hroutes, dom_insert_L. split; [now apply elem_of_union_r|].
    destruct Hhandlers as [Hsame|(Hfresh & method & pattern & _ & Hnew)].
    + now rewrite Hsame.
    + rewrite Hnew. intros handler Hin. apply elem_of_app in Hin as [Hin|Hin].
      * now apply Hnone.
      * apply list_elem_of_singleton in Hin as ->. cbn. intros ->.
        apply elem_of_dom in Hdom as [? Hsome]. congruence.
Qed.

(** X14. When the first event of a route is an [Updated] or a [Removed],
    the handler makes the route's table and binds no handler; from then
    on the key has a table, so no later event binds one either, an
    [Added] included: after any further events the route has a table and
    no handler on the public server. *)
Theorem route_first_seen_without_added_is_never_bound tracing etype endpoint
    (later : list HttpEndpointEvent) cp :
  public_endpoint endpoint ->
  etype <> EventTypeAdded ->
  cpRoutes cp !! route_key_of endpoint = None ->
  (forall handler, handler ∈ cpServeHandlers cp -> shRouteKey handler <> route_key_of endpoint) ->
  let cp' := endpoint_event_loop tracing (mkHttpEndpointEvent etype endpoint :: later) cp in
  route_key_of endpoint ∈ dom (cpRoutes cp')
  /\ forall handler, handler ∈ cpServeHandlers cp' -> shRouteKey handler <> route_key_of endpoint.
Proof.
  intros Hpublic Hetype Hunseen Hnone cp'. subst cp'.
  unfold endpoint_event_loop. cbn [foldl].
  rewrite (HandleHttpEndpointEvent_public _ _ _ _ Hpublic).
  set (cp1 := registerServeEndpoint tracing (route_key_of endpoint)
                (ToUpper (HttpMethod endpoint)) (HttpPattern endpoint) etype
                (initialized_endpoint endpoint) cp).
  assert (Hstart : route_key_of endpoint ∈ dom (cpRoutes cp1)
                   /\ forall handler, handler ∈ cpServeHandlers cp1 ->
                        shRouteKey handler <> route_key_of endpoint).
  { subst cp1. split.
    - rewrite registerServeEndpoint_routes. apply elem_of_dom. eexists.
      apply lookup_insert_eq.
    - rewrite registerServeEndpoint_handlers.
      destruct etype; try done; now rewrite app_nil_r. }
  clearbody cp1. clear -Hstart. revert cp1 Hstart.
  induction later as [|event later IH]; intros cp1 [Hdom Hfree]; [done|].
  cbn [foldl]. apply IH. now apply endpoint_event_keeps_route_unbound.
Qed.

Lemma HandleHttpEndpointEvent_frame tracing event cp :
  cpServices (HandleHttpEndpointEvent tracing event cp) = cpServices cp.
Proof.
  unfold HandleHttpEndpointEvent, isAllowedHttpMethod.
  case_bool_decide; cbn [negb]; [|reflexivity].
  destruct (has_attribute _ _).
  - unfold registerManageEndpoint. now destruct (evEndpointType event).
  - apply registerServeEndpoint_frame.
Qed.

Lemma HandleBackendServiceEvent_frame (event : BackendServiceEvent) cp :
  cpRoutes (HandleBackendServiceEvent event cp) = cpRoutes cp
  /\ cpServeHandlers (HandleBackendServiceEvent event cp) = cpServeHandlers cp
  /\ cpManageHandlers (HandleBackendServiceEvent event cp) = cpManageHandlers cp.
Proof.
  unfold HandleBackendServiceEvent.
  destruct (evServiceType event); case_bool_decide; cbn; now repeat split.
Qed.

(** X15. The two event loops write apart: whatever endpoint events
    arrive, the service directory stays as it was, and whatever service
    events arrive, the route table and the handlers of both web servers
    stay as they were. *)
Theorem event_loops_write_apart tracing (endpoint_events : list HttpEndpointEvent)
    (service_events : list BackendServiceEvent) cp :
  cpServices (endpoint_event_loop tracing endpoint_events cp) = cpServices cp
  /\ cpRoutes (service_event_loop service_events cp) = cpRoutes cp
  /\ cpServeHandlers (service_event_loop service_events cp) = cpServeHandlers cp
  /\ cpManageHandlers (service_event_loop service_events cp) = cpManageHandlers cp.
Proof.
  split.
  - unfold endpoint_event_loop. revert cp.
    induction endpoint_events as [|event events IH]; intros cp; [done|].
    cbn [foldl]. rewrite IH. apply HandleHttpEndpointEvent_frame.
  - unfold service_event_loop. revert cp.
    induction service_events as [|event events IH]; intros cp; [done|].
    cbn [foldl]. destruct (IH (HandleBackendServiceEvent event cp)) as (-> & -> & ->).
    apply HandleBackendServiceEvent_frame.
Qed.

(** X16. An event of an endpoint that carries the [Managed] attribute,
    with an allowed method, goes to the admin server and nowhere else: on
    [Added] and on [Updated] a handler for the upper-cased method and the
    pattern is bound, holding the endpoint with its arguments initialised
    (a second event binds a second handler); on [Removed] none is bound
    and none is taken away; the route table and the public server's
    handlers are never touched. *)
Theorem managed_endpoint_event_binds_admin_handler tracing etype endpoint cp :
  managed_endpoint endpoint ->
  let cp' := HandleHttpEndpointEvent tracing (mkHttpEndpointEvent etype endpoint) cp in
  cpManageHandlers cp'
  = cpManageHandlers cp ++
    match etype with
    | EventTypeRemoved => []
    | _ => [mkManageHandler (ToUpper (HttpMethod endpoint)) (HttpPattern endpoint)
              (initialized_endpoint endpoint)]
    end
  /\ cpRoutes cp' = cpRoutes cp
  /\ cpServeHandlers cp' = cpServeHandlers cp.
Proof.
  intros Hmanaged cp'. subst cp'.
  rewrite (HandleHttpEndpointEvent_managed _ _ _ _ Hmanaged).
  unfold registerManageEndpoint. destruct etype; cbn; rewrite ?app_nil_r; now repeat split.
Qed.

(** Induction over an argument and the arguments nested in its fields. *)
Fixpoint Argument_nested_ind (P : Argument -> Prop)
    (step : forall name class scope key fields resolver lookup,
        Forall P fields -> P (MkArgument name class scope key fields resolver lookup))
    (a : Argument) : P a :=
  match a with
  | MkArgument name class scope key fields resolver lookup =>
      step name class scope key fields resolver lookup
        ((fix all (l : list Argument) : Forall P l :=
            match l with
            | [] => @List.Forall_nil _ P
            | field :: rest =>
                @List.Forall_cons _ P field rest (Argument_nested_ind P step field) (all rest)
            end) fields)
  end.

Lemma initArgument_resolved (a : Argument) : resolved (initArgument a).
Proof.
  induction a as [name class scope key fields resolver lookup IH] using Argument_nested_ind.
  cbn [initArgument resolved]. split; [reflexivity|]. split; [reflexivity|].
  induction IH as [|field rest Hfield _ IHrest]; cbn; [exact I | now split].
Qed.

Lemma initArgument_idempotent (a : Argument) : initArgument (initArgument a) = initArgument a.
Proof.
  induction a as [name class scope key fields resolver lookup IH] using Argument_nested_ind.
  cbn [initArgument]. f_equal.
  induction IH as [|field rest Hfield _ IHrest]; cbn; [reflexivity | now f_equal].
Qed.

Lemma initArgument_shape (a : Argument) : argument_shape (initArgument a) = argument_shape a.
Proof.
  induction a as [name class scope key fields resolver lookup IH] using Argument_nested_ind.
  cbn [initArgument argument_shape]. f_equal.
  induction IH as [|field rest Hfield _ IHrest]; cbn; [reflexivity | now f_equal].
Qed.

(** X17. [initArguments] sets the resolver of its class and the lookup
    function on every argument of the list and on every argument nested
    in the fields, at any depth; it changes nothing else (names, classes,
    scopes, keys and the nesting stay), and doing it twice is doing it
    once. *)
Theorem initArguments_resolves_whole_tree (args : list Argument) :
  Forall resolved (initArguments args)
  /\ List.map argument_shape (initArguments args) = List.map argument_shape args
  /\ initArguments (initArguments args) = initArguments args.
Proof.
  unfold initArguments. split; [|split].
  - induction args as [|a rest IH]; cbn; constructor; [apply initArgument_resolved | exact IH].
  - induction args as [|a rest IH]; cbn; [reflexivity|].
    now rewrite initArgument_shape, IH.
  - induction args as [|a rest IH]; cbn; [reflexivity|].
    now rewrite initArgument_idempotent, IH.
Qed.

Lemma HandleBackendServiceEvent_stores (etype : EventType) (service : BackendService) cp :
  etype <> EventTypeRemoved ->
  let cp' := HandleBackendServiceEvent (mkBackendServiceEvent etype service) cp in
  cpServices cp' !! ServiceId service = Some (initialized_service service)
  /\ (AliasId service <> "" ->
      cpServices cp' !! AliasId service = Some (initialized_service service))
  /\ (forall id, id <> ServiceId service -> id <> AliasId service ->
        cpServices cp' !! id = cpServices cp !! id)
  /\ (AliasId service = "" -> ServiceId service <> "" ->
      cpServices cp' !! "" = cpServices cp !! "").
Proof.
  intros Hetype cp'. subst cp'. unfold HandleBackendServiceEvent, initialized_service.
  cbn [evService evServiceType].
  assert (Hstore :
    forall state,
      let stored :=
        if bool_decide (AliasId service <> "")
        then StoreBackendServiceById (AliasId service)
               (with_arguments (initArguments (Arguments service)) service)
               (StoreBackendService
                  (with_arguments (initArguments (Arguments service)) service) state)
        else StoreBackendService
               (with_arguments (initArguments (Arguments service)) service) state in
      cpServices stored !! ServiceId service
        = Some (with_arguments (initArguments (Arguments service)) service)
      /\ (AliasId service <> "" ->
          cpServices stored !! AliasId service
            = Some (with_arguments (initArguments (Arguments service)) service))
      /\ (forall id, id <> ServiceId service -> id <> AliasId service ->
            cpServices stored !! id = cpServices state !! id)
      /\ (AliasId service = "" -> ServiceId service <> "" ->
          cpServices stored !! "" = cpServices state !! "")).
  { intros state. cbv zeta. case_bool_decide as Halias; cbn.
    - split; [|split; [|split]].
      + destruct (decide (AliasId service = ServiceId service)) as [->|Hne].
        * apply lookup_insert_eq.
        * rewrite lookup_insert_ne by done. apply lookup_insert_eq.
      + intros _. apply lookup_insert_eq.
      + intros id Hid Hal. now rewrite !lookup_insert_ne.
      + intros Hempty. now destruct Halias.
    - split; [|split; [|split]].
      + apply lookup_insert_eq.
      + intros Hne. now destruct Halias.
      + intros id Hid Hal. now rewrite lookup_insert_ne.
      + intros _ Hid. now rewrite lookup_insert_ne. }
  destruct etype; [exact (Hstore (control_log _ _ _ cp)) ..| done].
Qed.

(** X18. After an [Added] or [Updated] service event the directory
    resolves the [ServiceId] to the service with its arguments
    initialised, and the [AliasId] too when the service has one; no other
    id is touched, and a service without alias leaves no entry under the
    empty id. *)
Theorem service_event_stores_service (etype : EventType) (service : BackendService) cp :
  etype <> EventTypeRemoved ->
  let cp' := HandleBackendServiceEvent (mkBackendServiceEvent etype service) cp in
  cpServices cp' !! ServiceId service = Some (initialized_service service)
  /\ (AliasId service <> "" ->
      cpServices cp' !! AliasId service = Some (initialized_service service))
  /\ (forall id, id <> ServiceId service -> id <> AliasId service ->
        cpServices cp' !! id = cpServices cp !! id)
  /\ (AliasId service = "" -> ServiceId service <> "" ->
      cpServices cp' !! "" = cpServices cp !! "").
Proof. apply HandleBackendServiceEvent_stores. Qed.

(** X19. The removal follows the ids of the [Removed] event, not those
    the service was stored under: when a service was added with an alias
    and the [Removed] event names it without the alias, the entry under
    the [ServiceId] goes and the entry under the alias stays. *)
Theorem removed_without_alias_leaves_alias_entry (service : BackendService) cp :
  AliasId service <> "" ->
  AliasId service <> ServiceId service ->
  let cp' := service_event_loop
               [mkBackendServiceEvent EventTypeAdded service;
                mkBackendServiceEvent EventTypeRemoved (with_alias "" service)] cp in
  cpServices cp' !! ServiceId service = None
  /\ cpServices cp' !! AliasId service = Some (initialized_service service).
Proof.
  intros Halias Hne cp'. subst cp'. unfold service_event_loop. cbn [foldl].
  pose proof (HandleBackendServiceEvent_stores EventTypeAdded service cp ltac:(done))
    as (_ & Hstored & _).
  cbv zeta in Hstored. specialize (Hstored Halias).
  set (cp1 := HandleBackendServiceEvent (mkBackendServiceEvent EventTypeAdded service) cp) in *.
  clearbody cp1. unfold HandleBackendServiceEvent. cbn [evServiceType evService].
  case_bool_decide as Hbare; [now destruct Hbare|].
  unfold RemoveBackendService, with_services, control_log.
  cbn [cpServices with_arguments with_alias ServiceId]. split.
  - apply lookup_delete_eq.
  - rewrite lookup_delete_ne by done. exact Hstored.
Qed.

End ControlMoreFacts.

Ltac allowed_method := vm_compute; repeat first [apply list_elem_of_here | apply list_elem_of_further].

Lemma sample_endpoint_is_public :
  public_endpoint (H := sample_env) (H0 := sample_strings) sample_endpoint.
Proof. split; [allowed_method | reflexivity]. Qed.

Lemma endpoint_events_keep_handlers_bound_witness :
  handlers_bound
    (endpoint_event_loop (H := sample_env) (H0 := sample_strings) false
       [upper_get_event; lower_get_event; connect_event;
        mkHttpEndpointEvent EventTypeRemoved sample_endpoint] empty_control).
Proof.
  apply (endpoint_events_keep_handlers_bound (H := sample_env) (H0 := sample_strings)).
  split; [constructor|]. intros handler Hin. inversion Hin.
Defined.

Lemma endpoint_event_writes_one_version_witness :
  let cp' := HandleHttpEndpointEvent (H := sample_env) (H0 := sample_strings) false
               (mkHttpEndpointEvent EventTypeUpdated sample_endpoint) empty_control in
  (exists mve : MultiEndpoint,
     cpRoutes cp' !! "GET#/v1/x" = Some mve
     /\ mve !! "A" = Some (initialized_endpoint (H := sample_env) sample_endpoint)
     /\ forall version, version <> "A" -> mve !! version = None)
  /\ forall other, other <> "GET#/v1/x" -> cpRoutes cp' !! other = None.
Proof.
  exact (endpoint_event_writes_one_version (H := sample_env) (H0 := sample_strings) false
           EventTypeUpdated sample_endpoint empty_control sample_endpoint_is_public).
Defined.

Lemma endpoint_event_binds_first_added_only_witness :
  cpServeHandlers
    (HandleHttpEndpointEvent (H := sample_env) (H0 := sample_strings) false upper_get_event
       (HandleHttpEndpointEvent (H := sample_env) (H0 := sample_strings) false
          upper_get_event empty_control))
  = [mkServeHandler "GET" "/v1/x" "GET#/v1/x" false].
Proof.
  exact (proj1 (endpoint_event_binds_first_added_only (H := sample_env)
                  (H0 := sample_strings) false EventTypeAdded sample_endpoint
                  (HandleHttpEndpointEvent (H := sample_env) (H0 := sample_strings) false
                     upper_get_event empty_control)
                  sample_endpoint_is_public)).
Defined.

Lemma route_first_seen_without_added_is_never_bound_witness :
  let cp' := endpoint_event_loop (H := sample_env) (H0 := sample_strings) false
               [mkHttpEndpointEvent EventTypeUpdated sample_endpoint; upper_get_event]
               empty_control in
  route_key_of (H := sample_strings) sample_endpoint ∈ dom (cpRoutes cp')
  /\ forall handler, handler ∈ cpServeHandlers cp' ->
       shRouteKey handler <> route_key_of (H := sample_strings) sample_endpoint.
Proof.
  apply (route_first_seen_without_added_is_never_bound (H := sample_env)
           (H0 := sample_strings) false EventTypeUpdated sample_endpoint [upper_get_event]
           empty_control sample_endpoint_is_public).
  - discriminate.
  - reflexivity.
  - intros handler Hin. inversion Hin.
Defined.

(** The same run, evaluated: a table with version [A], and no handler. *)
Example updated_then_added_route_is_not_served :
  let cp' := endpoint_event_loop (H := sample_env) (H0 := sample_strings) false
               [mkHttpEndpointEvent EventTypeUpdated sample_endpoint; upper_get_event]
               empty_control in
  cpServeHandlers cp' = []
  /\ cpRoutes cp' = {["GET#/v1/x" := {["A" := sample_endpoint]}]}.
Proof. split; reflexivity. Qed.

Lemma managed_sample_endpoint_is_managed :
  managed_endpoint (H := sample_env) (H0 := sample_strings) managed_sample_endpoint.
Proof. split; [allowed_method | reflexivity]. Qed.

Lemma managed_endpoint_event_binds_admin_handler_witness :
  cpManageHandlers
    (HandleHttpEndpointEvent (H := sample_env) (H0 := sample_strings) false
       (mkHttpEndpointEvent EventTypeAdded managed_sample_endpoint) empty_control)
  = [mkManageHandler "GET" "/admin/reload" managed_sample_endpoint].
Proof.
  exact (proj1 (managed_endpoint_event_binds_admin_handler (H := sample_env)
                  (H0 := sample_strings) false EventTypeAdded managed_sample_endpoint
                  empty_control managed_sample_endpoint_is_managed)).
Defined.

Lemma service_event_stores_service_witness :
  cpServices
    (HandleBackendServiceEvent (H := sample_env)
       (mkBackendServiceEvent EventTypeAdded aliased_service) empty_control)
  !! "users" = Some aliased_service.
Proof.
  exact (proj1 (proj2 (service_event_stores_service (H := sample_env) EventTypeAdded
                         aliased_service empty_control ltac:(discriminate)))
           ltac:(discriminate)).
Defined.

Lemma removed_without_alias_leaves_alias_entry_witness :
  let cp' := service_event_loop (H := sample_env)
               [mkBackendServiceEvent EventTypeAdded aliased_service;
                mkBackendServiceEvent EventTypeRemoved (with_alias "" aliased_service)]
               empty_control in
  cpServices cp' !! "svc.users" = None
  /\ cpServices cp' !! "users" = Some aliased_service.
Proof.
  exact (removed_without_alias_leaves_alias_entry (H := sample_env) aliased_service
           empty_control ltac:(discriminate) ltac:(discriminate)).
Defined.

Section ServeMoreFacts.
Implicit Types (setup : ServeSetup) (sv : Serving) (config : Configuration).

(** X20. A first start ([started] still open) that meets no error
    before the servers spawns both
    event loops, closes [started], then starts the admin server, on
    [manage-address] and [manage-port] of the engine's configuration and
    without TLS files, and the public server, on [address] with the port
    the code reads for it (the key [manage-port]) and the TLS files of
    the configuration it was given. [StartServe] returns what [StartTLS]
    of the public server returns: a failure of the admin server is logged
    and changes nothing of the result. *)
Theorem StartServe_starts_both_servers setup info config sv :
  svStarted sv = false ->
  ssInitialized setup = true ->
  ssRouterStartup setup = None ->
  ssWatchHttpEndpoints setup = None ->
  ssWatchBackendServices setup = None ->
  let admin := mkListen ManageWebServer
                 (sprintf_addr (GetString (ssConfig setup) "manage-address")
                    (GetInt (ssConfig setup) "manage-port")) "" "" in
  let public := mkListen HttpWebServer
                  (sprintf_addr (GetString config "address") (GetInt config "manage-port"))
                  (GetString config "tls-cert-file") (GetString config "tls-key-file") in
  let sv' := snd (StartServe setup info config sv) in
  fst (StartServe setup info config sv)
    = Returned (ssStartTLS setup HttpWebServer (lsAddr public))
  /\ svEventLoops sv' = svEventLoops sv ++ ["HttpEndpoint"; "BackendService"]
  /\ svStarted sv' = true
  /\ svListens sv' = svListens sv ++ [admin; public].
Proof.
  intros _ Hinit Hrouter Hep Hsvc admin public sv'. subst sv' admin public.
  unfold StartServe. rewrite Hinit, Hrouter, Hep, Hsvc. cbn [negb].
  unfold startServer, go_bind, spawn_event_loop, serving_log, go_modify.
  case_bool_decide; cbn;
    destruct (ssStartTLS setup ManageWebServer _); cbn;
    destruct (ssStartTLS setup HttpWebServer _); cbn;
    rewrite <- !app_assoc; repeat split.
Qed.

(** X21. [StartServe] before the servers: called before [Initial] made
    the web servers it panics; when [router.Startup] fails it returns
    that error; when a watch of the registry fails it returns the error
    behind [start registry watching: ]. In all these cases no server is
    started and [started] is not closed; when it is the service watch
    that fails, the endpoint event loop is already running. *)
Theorem StartServe_stops_before_listening setup info config sv :
  (ssInitialized setup = false ->
   StartServe setup info config sv
   = (Panicked (PanicOther "Call must after InitialServer()"), sv))
  /\ (forall err,
        ssInitialized setup = true ->
        ssRouterStartup setup = Some err ->
        StartServe setup info config sv = (Returned (Some err), sv))
  /\ (forall err,
        ssInitialized setup = true ->
        ssRouterStartup setup = None ->
        ssWatchHttpEndpoints setup = Some err ->
        StartServe setup info config sv
        = (Returned (Some ("start registry watching: " +:+ err)), sv))
  /\ (forall err,
        ssInitialized setup = true ->
        ssRouterStartup setup = None ->
        ssWatchHttpEndpoints setup = None ->
        ssWatchBackendServices setup = Some err ->
        StartServe setup info config sv
        = (Returned (Some ("start registry watching: " +:+ err)),
           mkServing (svEventLoops sv ++ ["HttpEndpoint"]) (svStarted sv) (svListens sv)
             (svLog sv))).
Proof.
  unfold StartServe. repeat split.
  - intros ->. reflexivity.
  - intros err -> ->. reflexivity.
  - intros err -> -> ->. reflexivity.
  - intros err -> -> -> ->. reflexivity.
Qed.

End ServeMoreFacts.

Lemma StartServe_starts_both_servers_witness :
  fst (StartServe admin_port_taken_setup sample_build two_port_config not_serving)
  = Returned None.
Proof.
  exact (proj1 (StartServe_starts_both_servers admin_port_taken_setup sample_build
                  two_port_config not_serving eq_refl eq_refl eq_refl eq_refl eq_refl)).
Defined.

Lemma StartServe_stops_before_listening_witness :
  StartServe service_watch_fails_setup sample_build two_port_config not_serving
  = (Returned (Some "start registry watching: registry closed"),
     mkServing ["HttpEndpoint"] false [] []).
Proof.
  exact (proj2 (proj2 (proj2 (StartServe_stops_before_listening service_watch_fails_setup
                                sample_build two_port_config not_serving)))
           "registry closed" eq_refl eq_refl eq_refl eq_refl).
Defined.

Section LifecycleFacts.

Lemma run_lifecycle_hooks_app {S : Type} (before after : list (Go S (option string))) s s1 :
  run_lifecycle_hooks before s = (Returned None, s1) ->
  run_lifecycle_hooks (before ++ after) s = run_lifecycle_hooks after s1.
Proof.
  revert s. induction before as [|hook rest IH]; intros s; cbn [run_lifecycle_hooks app].
  - now intros [= ->].
  - unfold go_bind. destruct (hook s) as [[[err|]|r] s2]; try discriminate. apply IH.
Qed.

(** X22. [Dispatcher.Startup] and [Dispatcher.Shutdown] run the sorted
    hooks in order and stop at the first one that fails: its error is the
    result, the hooks after it are not run, and the state is the one the
    failing hook left. *)
Theorem lifecycle_hooks_stop_at_first_error {S : Type}
    (before after : list (Go S (option string))) (failing : Go S (option string))
    (s s1 s2 : S) (err : string) :
  run_lifecycle_hooks before s = (Returned None, s1) ->
  failing s1 = (Returned (Some err), s2) ->
  run_lifecycle_hooks (before ++ failing :: after) s = (Returned (Some err), s2).
Proof.
  intros Hbefore Hfail.
  rewrite (run_lifecycle_hooks_app _ _ _ _ Hbefore). cbn [run_lifecycle_hooks].
  unfold go_bind. now rewrite Hfail.
Qed.

(** X23. [HttpServeEngine.Shutdown] shuts the admin server down first,
    then the public server, and ends with [stopped] closed whatever the
    servers and the hooks of the router do, a panic included. When
    [stopped] was open and the hooks return, its result is the result of
    the router's hooks alone: an error of a web server's [Shutdown] is at
    most logged. A second [Shutdown] panics on closing [stopped] again. *)
Theorem Shutdown_closes_stopped (setup : ShutdownSetup) (sp : Stopping) :
  let started_hooks :=
    mkStopping (spShutdowns sp ++ [ManageWebServer; HttpWebServer]) (spStopped sp)
      (spLog sp ++
       mkLogEntry "" LevelInfo (MsgText "HttpServeEngine shutdown...") [] ::
       match sdHttp setup with
       | Some err =>
           [mkLogEntry "" LevelWarn (MsgText "HttpServeEngine shutdown http server")
              [("error", LvString err)]]
       | None => []
       end) in
  (forall result sp1,
     spStopped sp1 = false ->
     run_lifecycle_hooks (sdHooks setup) started_hooks = (Returned result, sp1) ->
     Shutdown setup sp
     = (Returned result, mkStopping (spShutdowns sp1) true (spLog sp1)))
  /\ (forall out sp1,
        spStopped sp1 = true ->
        run_lifecycle_hooks (sdHooks setup) started_hooks = (out, sp1) ->
        Shutdown setup sp = (Panicked (PanicError "close of closed channel"), sp1))
  /\ (forall r sp1,
        spStopped sp1 = false ->
        run_lifecycle_hooks (sdHooks setup) started_hooks = (Panicked r, sp1) ->
        Shutdown setup sp = (Panicked r, mkStopping (spShutdowns sp1) true (spLog sp1))).
Proof.
  cbv zeta.
  assert (Hbody : forall out sp1,
    run_lifecycle_hooks (sdHooks setup)
      (mkStopping (spShutdowns sp ++ [ManageWebServer; HttpWebServer]) (spStopped sp)
         (spLog sp ++
          mkLogEntry "" LevelInfo (MsgText "HttpServeEngine shutdown...") [] ::
          match sdHttp setup with
          | Some err =>
              [mkLogEntry "" LevelWarn (MsgText "HttpServeEngine shutdown http server")
                 [("error", LvString err)]]
          | None => []
          end)) = (out, sp1) ->
    Shutdown setup sp =
    match close_stopped sp1 with
    | (Returned _, sp2) => (out, sp2)
    | (Panicked r, sp2) => (Panicked r, sp2)
    end).
  { intros out sp1 Hhooks. unfold Shutdown, stopping_log, server_Shutdown.
    rewrite go_bind_modify. unfold defer.
    rewrite !go_bind_modify. cbn [spShutdowns spStopped spLog].
    rewrite <- !app_assoc. cbn [app].
    destruct (sdHttp setup) as [err|].
    - rewrite go_bind_modify. cbn [spShutdowns spStopped spLog].
      rewrite <- app_assoc. cbn [app]. now rewrite Hhooks.
    - unfold go_bind at 1. cbn [go_ret]. now rewrite Hhooks. }
  split; [|split].
  - intros result sp1 Hopen Hhooks. rewrite (Hbody _ _ Hhooks).
    unfold close_stopped. now rewrite Hopen.
  - intros out sp1 Hclosed Hhooks. rewrite (Hbody _ _ Hhooks).
    unfold close_stopped. now rewrite Hclosed.
  - intros r sp1 Hopen Hhooks. rewrite (Hbody _ _ Hhooks).
    unfold close_stopped. now rewrite Hopen.
Qed.

End LifecycleFacts.

Lemma lifecycle_hooks_stop_at_first_error_witness :
  run_lifecycle_hooks
    ([named_hook "cache" None] ++ named_hook "pool" (Some "pool busy") :: [named_hook "bus" None])
    running
  = (Returned (Some "pool busy"),
     mkStopping [] false
       [mkLogEntry "" LevelInfo (MsgText "cache") [];
        mkLogEntry "" LevelInfo (MsgText "pool") []]).
Proof.
  exact (lifecycle_hooks_stop_at_first_error [named_hook "cache" None]
           [named_hook "bus" None] (named_hook "pool" (Some "pool busy"))
           running _ _ "pool busy" eq_refl eq_refl).
Defined.

Lemma Shutdown_closes_stopped_witness :
  Shutdown (mkShutdownSetup (Some "admin busy") (Some "listener closed")
              [named_hook "cache" None]) running
  = (Returned None,
     mkStopping [ManageWebServer; HttpWebServer] true
       [mkLogEntry "" LevelInfo (MsgText "HttpServeEngine shutdown...") [];
        mkLogEntry "" LevelWarn (MsgText "HttpServeEngine shutdown http server")
          [("error", LvString "listener closed")];
        mkLogEntry "" LevelInfo (MsgText "cache") []]).
Proof.
  exact (proj1 (Shutdown_closes_stopped
                  (mkShutdownSetup (Some "admin busy") (Some "listener closed")
                     [named_hook "cache" None]) running)
           None
           (mkStopping [ManageWebServer; HttpWebServer] false
              [mkLogEntry "" LevelInfo (MsgText "HttpServeEngine shutdown...") [];
               mkLogEntry "" LevelWarn (MsgText "HttpServeEngine shutdown http server")
                 [("error", LvString "listener closed")];
               mkLogEntry "" LevelInfo (MsgText "cache") []])
           eq_refl eq_refl).
Defined.

Section FilterLoadingMoreFacts.
Implicit Types (factories : gmap string Component) (entries : list Configuration)
  (out : list AwareConfig) (xs : ExtState) (setup : InitSetup).

Lemma dynamicFilters_loop_loads factories entries out xs :
  Forall (fun entry => skipped entry \/ loadable factories entry) entries ->
  dynamicFilters_loop factories entries out xs
  = (Returned (inl (out ++ omap (load_entry factories) entries)), xs).
Proof.
  intros Hall. revert out.
  induction Hall as [|entry entries Hentry _ IH]; intros out.
  - cbn. now rewrite app_nil_r.
  - cbn [dynamicFilters_loop omap list_omap]. unfold load_entry at 1.
    destruct (decide (GetString entry dynConfigKeyFilterId = "")) as [Hid|Hid]; [apply IH|].
    destruct (IsDisabled entry) eqn:Hdis; [apply IH|].
    destruct Hentry as [[Hempty|Hdisabled]|[Htype [factory Hfactory]]]; [done | congruence |].
    unfold FactoryByType, MustNotEmpty, go_bind. rewrite decide_False by done.
    cbn [go_ret]. rewrite Hfactory. cbn [fmap option_fmap option_map].
    rewrite IH. now rewrite <- app_assoc.
Qed.

(** X24. When every entry of the [dynfilter] block is one the loader
    passes over (no [id], or disabled) or one with a registered,
    non-empty [type], [dynamicFilters] returns, without error and in the
    order of the block, one [AwareConfig] for each entry of the second
    kind, holding the entry's id, type, configuration and factory. *)
Theorem dynamicFilters_loads_in_order factories entries xs :
  Forall (fun entry => skipped entry \/ loadable factories entry) entries ->
  dynamicFilters factories entries xs
  = (Returned (inl (omap (load_entry factories) entries)), xs).
Proof. intros Hall. unfold dynamicFilters. now rewrite dynamicFilters_loop_loads. Qed.

Lemma init_static_filters_skip setup (before after : list Component) (f : Component) xs :
  IsDisabled (isConfiguration setup (cmpName f)) = true ->
  init_static_filters setup (before ++ f :: after) xs
  = init_static_filters setup (before ++ after) xs.
Proof.
  intros Hdis. revert xs. induction before as [|g rest IH]; intros xs.
  - cbn [app init_static_filters]. now rewrite Hdis.
  - cbn [app init_static_filters].
    destruct (IsDisabled (isConfiguration setup (cmpName g))); [apply IH|].
    apply go_bind_ext. intros [err|] xs1; [reflexivity | apply IH].
Qed.

Lemma init_static_filters_setup setup setup' (filters : list Component) xs :
  isConfiguration setup = isConfiguration setup' ->
  init_static_filters setup filters xs = init_static_filters setup' filters xs.
Proof.
  intros Hconf. revert xs. induction filters as [|f rest IH]; intros xs; [reflexivity|].
  cbn [init_static_filters]. rewrite Hconf. destruct (IsDisabled _); [apply IH|].
  apply go_bind_ext. intros [err|] xs1; [reflexivity | apply IH].
Qed.

Lemma init_transporters_setup setup setup' (transporters : list (string * Component)) xs :
  isConfiguration setup = isConfiguration setup' ->
  isNamespaceTransporters setup = isNamespaceTransporters setup' ->
  init_transporters setup transporters xs = init_transporters setup' transporters xs.
Proof.
  intros Hconf Hns. revert xs.
  induction transporters as [|[proto t] rest IH]; intros xs; [reflexivity|].
  cbn [init_transporters]. rewrite Hconf, Hns.
  apply go_bind_ext. intros [err|] xs1; [reflexivity | apply IH].
Qed.

(** X25. A static filter, global or selective, whose configuration
    (the namespace named after its [FilterId]) says [disabled] is passed
    over by [Init]: its [Init] is not called and it is not given to
    [ext.AddHookFunc]; [Init] does what it does without the filter in the
    extension lists. *)
Theorem Init_passes_over_disabled_static_filter
    (transporters : list (string * Component)) (before after selective : list Component)
    (f : Component) (ns : string) (configuration : string -> Configuration)
    factories entries xs :
  IsDisabled (configuration (cmpName f)) = true ->
  Init (mkInitSetup transporters (before ++ f :: after) selective ns configuration factories)
    entries xs
  = Init (mkInitSetup transporters (before ++ after) selective ns configuration factories)
      entries xs
  /\ Init (mkInitSetup transporters selective (before ++ f :: after) ns configuration factories)
       entries xs
     = Init (mkInitSetup transporters selective (before ++ after) ns configuration factories)
         entries xs.
Proof.
  intros Hdis.
  split; unfold Init, go_bind;
    cbn [isTransporters isGlobalFilters isSelectiveFilters isFactories].
  - rewrite (init_transporters_setup _
      (mkInitSetup transporters (before ++ after) selective ns configuration factories))
      by reflexivity.
    destruct (init_transporters _ transporters xs) as [[[err|]|r] xs1]; try reflexivity.
    rewrite <- !app_assoc. cbn [app].
    rewrite (init_static_filters_skip _ before (after ++ selective) f) by exact Hdis.
    rewrite (init_static_filters_setup _
      (mkInitSetup transporters (before ++ after) selective ns configuration factories))
      by reflexivity.
    reflexivity.
  - rewrite (init_transporters_setup _
      (mkInitSetup transporters selective (before ++ after) ns configuration factories))
      by reflexivity.
    destruct (init_transporters _ transporters xs) as [[[err|]|r] xs1]; try reflexivity.
    rewrite !app_assoc.
    rewrite (init_static_filters_skip _ (selective ++ before) after f) by exact Hdis.
    rewrite (init_static_filters_setup _
      (mkInitSetup transporters selective (before ++ after) ns configuration factories))
      by reflexivity.
    reflexivity.
Qed.

Lemma AddInitHook_quiet (c : Component) (config : Configuration) xs :
  quiet c ->
  AddInitHook c config xs
  = (Returned None, mkExtState (xsCreated xs) (xsHooks xs ++ [cmpName c]) (xsSelectiveAdded xs)).
Proof.
  intros Hquiet. unfold AddInitHook, go_bind.
  destruct (cmpInit c) as [init|] eqn:Hinit; [|reflexivity].
  now rewrite (Hquiet init Hinit).
Qed.

Lemma init_transporters_quiet setup (transporters : list (string * Component)) xs :
  Forall (fun t => quiet (snd t)) transporters ->
  init_transporters setup transporters xs
  = (Returned None,
     mkExtState (xsCreated xs) (xsHooks xs ++ (cmpName ∘ snd <$> transporters))
       (xsSelectiveAdded xs)).
Proof.
  intros Hall. revert xs.
  induction Hall as [|[proto t] rest Hquiet _ IH]; intros xs.
  - cbn. rewrite app_nil_r. now destruct xs.
  - cbn [init_transporters]. unfold go_bind. rewrite AddInitHook_quiet by exact Hquiet.
    rewrite IH. cbn. now rewrite <- app_assoc.
Qed.

Lemma init_static_filters_quiet setup (filters : list Component) xs :
  Forall quiet (enabled_filters setup filters) ->
  init_static_filters setup filters xs
  = (Returned None,
     mkExtState (xsCreated xs) (xsHooks xs ++ (cmpName <$> enabled_filters setup filters))
       (xsSelectiveAdded xs)).
Proof.
  revert xs. induction filters as [|f rest IH]; intros xs Hall.
  - cbn. rewrite app_nil_r. now destruct xs.
  - cbn [init_static_filters]. unfold enabled_filters in *.
    destruct (IsDisabled (isConfiguration setup (cmpName f))) eqn:Hdis.
    + rewrite filter_cons_False in * by congruence. now apply IH.
    + rewrite filter_cons_True in * by done.
      apply Forall_cons in Hall as [Hquiet Hrest].
      unfold go_bind. rewrite AddInitHook_quiet by exact Hquiet.
      rewrite IH by exact Hrest. cbn. now rewrite <- app_assoc.
Qed.

Lemma init_dynamic_filters_quiet (items : list AwareConfig) xs :
  Forall (fun item => quiet (Factory item) /\ IsDisabled (Config item) = false) items ->
  init_dynamic_filters items xs
  = (Returned None,
     mkExtState (xsCreated xs ++ (cmpName ∘ Factory <$> items))
       (xsHooks xs ++ (cmpName ∘ Factory <$> items))
       (xsSelectiveAdded xs ++
        (cmpName ∘ Factory <$> filter (fun item => cmpIsFilter (Factory item) = true) items))).
Proof.
  intros Hall. revert xs.
  induction Hall as [|item rest [Hquiet Hdis] _ IH]; intros xs.
  - cbn. rewrite !app_nil_r. now destruct xs.
  - cbn [init_dynamic_filters]. rewrite go_bind_modify, Hdis.
    unfold go_bind at 1. rewrite AddInitHook_quiet by exact Hquiet.
    cbn [xsCreated xsHooks xsSelectiveAdded].
    destruct (cmpIsFilter (Factory item)) eqn:Hfilter.
    + rewrite go_bind_modify, IH. rewrite filter_cons_True by done.
      cbn. now rewrite <- !app_assoc.
    + unfold go_bind at 1. cbn [go_ret]. rewrite IH.
      rewrite filter_cons_False by congruence.
      cbn. now rewrite <- !app_assoc.
Qed.

Lemma load_entry_enabled factories entries :
  Forall (fun item => IsDisabled (Config item) = false) (omap (load_entry factories) entries).
Proof.
  induction entries as [|entry rest IH]; cbn [omap list_omap]; [constructor|].
  unfold load_entry at 1.
  destruct (decide _); [exact IH|].
  destruct (IsDisabled entry) eqn:Hdis; [exact IH|].
  destruct (factories !! _); cbn; [constructor; [exact Hdis | exact IH] | exact IH].
Qed.

(** X26. [Init] when nothing fails (every [Init] of a transporter, of an
    enabled static filter and of a component made by a factory returns
    nil, and every entry of the [dynfilter] block is passed over or
    loadable): it returns nil; [ext.AddHookFunc] received, in this
    order, the transporters, the static filters that are not disabled
    (global before selective) and one component for each loaded entry;
    each loaded entry's factory was called once, in the order of the
    block; and of the components made, those that are filters were added
    as selective filters. *)
Theorem Init_registers_everything_in_order setup entries xs :
  Forall (fun t => quiet (snd t)) (isTransporters setup) ->
  Forall quiet (enabled_filters setup (isGlobalFilters setup ++ isSelectiveFilters setup)) ->
  Forall (fun entry => skipped entry \/ loadable (isFactories setup) entry) entries ->
  Forall (fun item => quiet (Factory item)) (omap (load_entry (isFactories setup)) entries) ->
  let loaded := omap (load_entry (isFactories setup)) entries in
  Init setup entries xs
  = (Returned None,
     mkExtState
       (xsCreated xs ++ (cmpName ∘ Factory <$> loaded))
       (xsHooks xs ++ (cmpName ∘ snd <$> isTransporters setup)
        ++ (cmpName <$> enabled_filters setup
                          (isGlobalFilters setup ++ isSelectiveFilters setup))
        ++ (cmpName ∘ Factory <$> loaded))
       (xsSelectiveAdded xs ++
        (cmpName ∘ Factory <$> filter (fun item => cmpIsFilter (Factory item) = true) loaded))).
Proof.
  intros Htransporters Hstatic Hentries Hmade loaded. unfold Init, go_bind.
  rewrite (init_transporters_quiet _ _ _ Htransporters).
  rewrite (init_static_filters_quiet _ _ _ Hstatic).
  unfold dynamicFilters. rewrite (dynamicFilters_loop_loads _ _ _ _ Hentries).
  cbn [app]. fold loaded.
  rewrite init_dynamic_filters_quiet.
  - cbn. now rewrite <- !app_assoc.
  - apply Forall_and. split; [exact Hmade | apply load_entry_enabled].
Qed.

(** X27. The factory registry: after [RegisterFactory] of a non-empty
    type name with a factory, [FactoryByType] finds that factory under
    the name (a second registration replaces the first) and answers for
    every other name as before. [RegisterFactory] panics on an empty
    name and on a nil factory, and leaves the table alone then;
    [FactoryByType] panics on the empty name. *)
Theorem RegisterFactory_then_FactoryByType (typeName : string) (factory : Component)
    (table : gmap string Component) (xs : ExtState) :
  (typeName <> "" ->
   RegisterFactory typeName (Some factory) table = (Returned tt, <[typeName := factory]> table)
   /\ FactoryByType (<[typeName := factory]> table) typeName xs = (Returned (Some factory), xs)
   /\ forall other, other <> typeName ->
        FactoryByType (<[typeName := factory]> table) other xs = FactoryByType table other xs)
  /\ RegisterFactory "" (Some factory) table = (Panicked (PanicOther "typeName is empty"), table)
  /\ (typeName <> "" ->
      RegisterFactory typeName None table = (Panicked (PanicOther "Factory is nil"), table))
  /\ FactoryByType table "" xs = (Panicked (PanicOther "typeName is empty"), xs).
Proof.
  split; [|split; [|split]]; try reflexivity.
  - intros Hname. unfold RegisterFactory, FactoryByType, MustNotEmpty, go_bind.
    rewrite !decide_False by done. cbn. split; [reflexivity|]. split.
    + now rewrite lookup_insert_eq.
    + intros other Hother. destruct (decide (other = "")); [reflexivity|].
      cbn. now rewrite lookup_insert_ne.
  - intros Hname. unfold RegisterFactory, MustNotEmpty, go_bind.
    now rewrite decide_False.
Qed.

End FilterLoadingMoreFacts.

Lemma dynamicFilters_loads_in_order_witness :
  dynamicFilters sample_factories [entry_without_id; entry_loading; entry_disabled] fresh_ext
  = (Returned (inl [mkAwareConfig "f3" "t1" entry_loading t1_component]), fresh_ext).
Proof.
  refine (dynamicFilters_loads_in_order sample_factories
            [entry_without_id; entry_loading; entry_disabled] fresh_ext _).
  constructor; [|constructor; [|constructor; [|constructor]]].
  - left; left; reflexivity.
  - right. split; [discriminate | eexists; reflexivity].
  - left; right; reflexivity.
Defined.

Lemma Init_passes_over_disabled_static_filter_witness :
  Init static_init_setup [] fresh_ext
  = Init (mkInitSetup [("http", mkComponent "http-transporter" None false)]
            [sample_static_filter] [] "transporters"
            (fun ns => dyn_entry "" "" (if decide (ns = "legacy_filter") then true else false))
            sample_factories) [] fresh_ext.
Proof.
  exact (proj1 (Init_passes_over_disabled_static_filter
                  [("http", mkComponent "http-transporter" None false)]
                  [sample_static_filter] [] [] disabled_static_filter "transporters"
                  (fun ns => dyn_entry "" ""
                               (if decide (ns = "legacy_filter") then true else false))
                  sample_factories [] fresh_ext eq_refl)).
Defined.

Lemma Init_registers_everything_in_order_witness :
  Init static_init_setup [entry_loading; entry_disabled] fresh_ext
  = (Returned None,
     mkExtState ["t1-filter"] ["http-transporter"; "jwt_filter"; "t1-filter"] ["t1-filter"]).
Proof.
  refine (Init_registers_everything_in_order static_init_setup [entry_loading; entry_disabled]
            fresh_ext _ _ _ _).
  - constructor; [|constructor]. intros init [=].
  - constructor; [|constructor]. intros init [= <-] config xs. reflexivity.
  - constructor; [|constructor; [|constructor]].
    + right. split; [discriminate | eexists; reflexivity].
    + left; right; reflexivity.
  - constructor; [|constructor]. intros init [=].
Defined.

Lemma RegisterFactory_then_FactoryByType_witness :
  RegisterFactory "t1" (Some t1_component) ∅ = (Returned tt, sample_factories)
  /\ FactoryByType sample_factories "t1" fresh_ext = (Returned (Some t1_component), fresh_ext).
Proof.
  destruct (proj1 (RegisterFactory_then_FactoryByType "t1" t1_component ∅ fresh_ext)
              ltac:(discriminate)) as [Hregister [Hfind _]].
  split; [exact Hregister | exact Hfind].
Defined.

Section PermissionFilterFacts.
Context `{PermissionEnv}.
Implicit Types (p : PermissionFilter) (next : FilterInvoker World) (w : World).

Lemma permission_services_found (permissions : list string)
    (found services : list BackendService) :
  Forall2 (fun id srv => ServiceByID id = Some srv) permissions found ->
  permission_services permissions services = inl (services ++ found).
Proof.
  intros Hall. revert services.
  induction Hall as [|id srv rest found Hid _ IH]; intros services.
  - cbn. now rewrite app_nil_r.
  - cbn [permission_services]. rewrite Hid, IH. now rewrite <- app_assoc.
Qed.

Lemma permission_services_missing (before after : list string) (missing : string)
    (services : list BackendService) :
  Forall (fun id => is_Some (ServiceByID id)) before ->
  ServiceByID missing = None ->
  permission_services (before ++ missing :: after) services
  = inr (permission_service_not_found missing).
Proof.
  intros Hall Hmissing. revert services.
  induction Hall as [|id rest [srv Hid] _ IH]; intros services.
  - cbn [app permission_services]. now rewrite Hmissing.
  - cbn [app permission_services]. rewrite Hid. apply IH.
Qed.

(** X28. A [PermissionFilter] whose [Init] returned nil is safe to put
    in the chain: either the configuration disabled it, and then
    [DoFilter] hands back [next] itself whatever functions were
    configured, or both [SkipFunc] and [VerifyFunc] are set, [VerifyFunc]
    being the configured one and [SkipFunc] the configured one or, when
    none was given, the function that never skips. *)
Theorem PermissionFilter_Init_makes_DoFilter_safe (config : Configuration) p p' :
  PermissionFilter_Init config p = (Returned None, p') ->
  Disabled p' = GetBool config ConfigKeyDisabled
  /\ VerifyFunc (Configs p') = VerifyFunc (Configs p)
  /\ (Disabled p' = true ->
      Configs p' = Configs p /\ forall next, PermissionFilter_DoFilter p' next = next)
  /\ (Disabled p' = false ->
      is_Some (VerifyFunc (Configs p'))
      /\ SkipFunc (Configs p') = Some (default (go_ret false) (SkipFunc (Configs p)))).
Proof.
  unfold PermissionFilter_Init. rewrite go_bind_modify.
  unfold go_bind, go_get. cbn [Disabled Configs].
  destruct (GetBool config ConfigKeyDisabled) eqn:Hdisabled.
  - intros [= <-]. cbn. repeat split; try done.
  - destruct p as [disabled [[skip|] [verify|]]]; cbn; intros [= <-]; cbn;
      repeat split; try done; eauto.
Qed.

(** X29. When the filter is enabled, the request is not skipped and one
    of the endpoint's permission ids is not in the service directory, the
    filter returns the error 500 [GATEWAY_INTERNAL] naming the first such
    id; neither [VerifyFunc] nor the rest of the chain is run, and no
    metric is added. *)
Theorem PermissionFilter_missing_service p next (skip : Go World bool) w w1
    (endpoint : Endpoint) (before after : list string) (missing : string) :
  Disabled p = false ->
  SkipFunc (Configs p) = Some skip ->
  skip w = (Returned false, w1) ->
  ctxEndpoint (wCtx w1) = Some endpoint ->
  AttrPermissions endpoint = before ++ missing :: after ->
  Forall (fun id => is_Some (ServiceByID id)) before ->
  ServiceByID missing = None ->
  PermissionFilter_DoFilter p next w
  = (Returned (Some (mkServeError 500 "GATEWAY_INTERNAL" ErrorMessagePermissionServiceNotFound
                       ∅ (Some ("permission.service not found, id: " +:+ missing)) None)), w1).
Proof.
  intros Henabled Hskip Hrun Hendpoint Hids Hbefore Hmissing.
  unfold PermissionFilter_DoFilter. rewrite Henabled, Hskip.
  unfold go_bind, call_func. rewrite Hrun.
  unfold ctx_Endpoint. rewrite Hendpoint, Hids.
  now rewrite (permission_services_missing _ _ _ _ Hbefore Hmissing).
Qed.

(** X30. The verdict of an enabled filter on a request that is not
    skipped and whose permission ids are all in the directory:
    [VerifyFunc] is called once with the services of the ids, in the
    order of the ids, and the metric [permission_filter] is added. The
    rest of the chain runs only when [VerifyFunc] returns no error and a
    successful report. A [*flux.ServeError] from [VerifyFunc] is returned
    as it is, any other error as 403 [GATEWAY_INTERNAL] with the error as
    cause, and a refusal as the report's status, code and message, with
    403 for a status under 100 and the defaults for an empty code or
    message; the status of a refusal is never under 100. *)
Theorem PermissionFilter_verdict p next (skip : Go World bool) (verify : PermissionVerifyFunc)
    w w1 w2 (endpoint : Endpoint) (services : list BackendService)
    (report : PermissionReport) (err : option GoError) :
  Disabled p = false ->
  SkipFunc (Configs p) = Some skip ->
  VerifyFunc (Configs p) = Some verify ->
  skip w = (Returned false, w1) ->
  ctxEndpoint (wCtx w1) = Some endpoint ->
  Forall2 (fun id srv => ServiceByID id = Some srv) (AttrPermissions endpoint) services ->
  verify services w1 = (Returned (report, err), w2) ->
  let w3 := add_metric "permission_filter" w2 in
  let refusal :=
    mkServeError (if rpStatusCode report <? 100 then 403 else rpStatusCode report)
      (if decide (rpErrorCode report = "") then ErrorCodePermissionDenied
       else rpErrorCode report)
      (if decide (rpMessage report = "") then ErrorMessagePermissionAccessDenied
       else rpMessage report) ∅ None None in
  PermissionFilter_DoFilter p next w
  = match err with
    | Some (ErrServe serr) => (Returned (Some serr), w3)
    | Some (ErrOther cause) =>
        (Returned (Some (mkServeError 403 "GATEWAY_INTERNAL" ErrorMessagePermissionVerifyError
                           ∅ (Some cause) None)), w3)
    | None => if rpSuccess report then next w3 else (Returned (Some refusal), w3)
    end
  /\ 100 <= StatusCode refusal.
Proof.
  intros Henabled Hskip Hverify Hrun Hendpoint Hids Hcall w3 refusal. split.
  - unfold PermissionFilter_DoFilter. rewrite Henabled, Hskip, Hverify.
    unfold go_bind, call_func. rewrite Hrun.
    unfold ctx_Endpoint. rewrite Hendpoint.
    rewrite (permission_services_found _ _ [] Hids). cbn [app].
    rewrite Hcall. cbn [fst snd AddMetric go_modify].
    destruct err as [[serr|cause]|]; try reflexivity.
    destruct (rpSuccess report); [reflexivity|].
    unfold go_ret, permission_refused, refusal, EnsurePermissionStatusCode,
      EnsurePermissionErrorCode, EnsurePermissionMessage, StatusForbidden.
    do 3 f_equal. f_equal.
    + destruct (decide ("" = rpErrorCode report)), (decide (rpErrorCode report = ""));
        congruence.
    + destruct (decide ("" = rpMessage report)), (decide (rpMessage report = ""));
        congruence.
  - subst refusal. cbn [StatusCode]. destruct (rpStatusCode report <? 100) eqn:Hlow; lia.
Qed.

End PermissionFilterFacts.

Lemma PermissionFilter_Init_makes_DoFilter_safe_witness :
  PermissionFilter_Init (dyn_entry "" "" true) unconfigured_permission_filter
  = (Returned None, mkPermissionFilter true (mkPermissionConfig None None))
  /\ forall next,
       PermissionFilter_DoFilter (H := sample_permission_env)
         (mkPermissionFilter true (mkPermissionConfig None None)) next = next.
Proof.
  split; [reflexivity|].
  exact (proj2 (proj1 (proj2 (proj2
    (PermissionFilter_Init_makes_DoFilter_safe (H := sample_permission_env)
       (dyn_entry "" "" true) unconfigured_permission_filter
       (mkPermissionFilter true (mkPermissionConfig None None)) eq_refl))) eq_refl)).
Defined.

Lemma PermissionFilter_missing_service_witness :
  PermissionFilter_DoFilter (H := sample_permission_env) refusing_permission_filter
    (go_ret None) (guarded_world ["svc.auth"; "svc.gone"; "svc.auth"])
  = (Returned (Some (mkServeError 500 "GATEWAY_INTERNAL" "PERMISSION:SERVICE:NOT_FOUND" ∅
                       (Some "permission.service not found, id: svc.gone") None)),
     guarded_world ["svc.auth"; "svc.gone"; "svc.auth"]).
Proof.
  refine (PermissionFilter_missing_service (H := sample_permission_env)
            refusing_permission_filter (go_ret None) (go_ret false)
            (guarded_world ["svc.auth"; "svc.gone"; "svc.auth"])
            (guarded_world ["svc.auth"; "svc.gone"; "svc.auth"])
            (guarded_endpoint ["svc.auth"; "svc.gone"; "svc.auth"])
            ["svc.auth"] ["svc.auth"] "svc.gone"
            eq_refl eq_refl eq_refl eq_refl eq_refl _ eq_refl).
  constructor; [eexists; reflexivity | constructor].
Defined.

Lemma PermissionFilter_verdict_witness :
  PermissionFilter_DoFilter (H := sample_permission_env) refusing_permission_filter
    (go_ret None) (guarded_world ["svc.auth"])
  = (Returned (Some (mkServeError 403 "PERMISSION_DENIED" "PERMISSION:ACCESS_DENIED"
                       ∅ None None)),
     add_metric "permission_filter" (guarded_world ["svc.auth"])).
Proof.
  refine (proj1 (PermissionFilter_verdict (H := sample_permission_env)
            refusing_permission_filter (go_ret None) (go_ret false) refusing_verify
            (guarded_world ["svc.auth"]) (guarded_world ["svc.auth"])
            (guarded_world ["svc.auth"])
            (guarded_endpoint ["svc.auth"]) [auth_service] (mkPermissionReport 0 false "" "")
            None eq_refl eq_refl eq_refl eq_refl eq_refl _ eq_refl)).
  constructor; [reflexivity | constructor].
Defined.
